(** * power-forecast-backend: the forecasting pipeline of [server.js]

    A shallow embedding of the class [EnergyForecastModel]
    ([prepareTrainingData], [trainModel], [predict]) and of the
    [/api/model-performance] handler, with the properties the specification
    states about them.  Line numbers refer to [server.js], except in the
    part on the seeding script ([seed.js]), which comes after the server.

    JavaScript numbers are IEEE 754 binary64 values; they are modelled with
    the Standard Library's executable specification of floating-point
    arithmetic ([SpecFloat], precision 53, maximal exponent 1024).  What
    the code takes from outside (the TensorFlow.js library, the result of
    the database query, [Math.random()], the local time zone) is a
    parameter of the development. *)

From Stdlib Require Import String ZArith List Bool Arith Lia.
From Stdlib Require Import QArith Qpower.
From Stdlib Require Import Floats.SpecFloat.
From Stdlib Require Import Permutation.
From Equations Require Import Equations.
Import ListNotations.

Local Open Scope string_scope.
Local Open Scope list_scope.
Local Open Scope Z_scope.

(** ** JavaScript numbers *)

Module JsNumber.

Definition number : Type := spec_float.

Definition prec : Z := 53.
Definition emax : Z := 1024.

(** The number denoted by an integer literal (correctly rounded). *)
Definition of_Z (z : Z) : number := binary_normalize prec emax z 0 false.

Definition add : number -> number -> number := SFadd prec emax.
Definition mul : number -> number -> number := SFmul prec emax.
Definition div : number -> number -> number := SFdiv prec emax.

(** The number denoted by the decimal literal [n / 10^d]: the division of
    two exactly represented integers is correctly rounded, so this is the
    binary64 value nearest to the decimal. *)
Definition decimal (n : Z) (d : nat) : number :=
  div (of_Z n) (of_Z (10 ^ Z.of_nat d)).

(** [ToBoolean] on a number: [+0], [-0] and [NaN] are falsy. *)
Definition truthy (x : number) : bool :=
  match x with
  | S754_zero _ => false
  | S754_nan => false
  | _ => true
  end.

(** [Math.round]: the nearest integral number, ties towards [+infinity];
    a result of magnitude zero keeps the sign of the argument. *)
Definition round (x : number) : number :=
  match x with
  | S754_finite s m e =>
      if 0 <=? e then x
      else
        let d := 2 ^ (- e) in
        let q := Z.pos m / d in
        let r := Z.pos m mod d in
        let n := if s then (if d <? 2 * r then q + 1 else q)
                 else (if d <=? 2 * r then q + 1 else q) in
        if n =? 0 then S754_zero s
        else binary_normalize prec emax (if s then - n else n) 0 false
  | _ => x
  end.

(** [Math.round(x * 10^d) / 10^d], the rounding idiom of the source. *)
Definition round_to (d : nat) (x : number) : number :=
  let p := of_Z (10 ^ Z.of_nat d) in
  div (round (mul x p)) p.

(** A finite number with no fractional part. *)
Definition integral (x : number) : bool :=
  match x with
  | S754_zero _ => true
  | S754_finite _ m e =>
      if 0 <=? e then true else Z.pos m mod 2 ^ (- e) =? 0
  | _ => false
  end.

Definition is_finite (x : number) : bool :=
  match x with
  | S754_zero _ | S754_finite _ _ _ => true
  | _ => false
  end.

End JsNumber.

Import JsNumber.

(** *** Rounding, as the specification words it *)

(** The rational number that a finite binary64 number denotes: its
    mantissa times two to the power of its exponent, with its sign. *)
Definition value (x : number) : Q :=
  match x with
  | S754_finite s m e =>
      (inject_Z (if s then Z.neg m else Z.pos m) * 2 ^ e)%Q
  | _ => 0%Q
  end.

(** [r] is [y] rounded to an integer: the integer nearest to [y], the
    upper one when [y] lies halfway between two; an infinity or [NaN] is
    left as it is. *)
Definition nearest_integer (y r : number) : Prop :=
  if is_finite y
  then is_finite r = true
       /\ exists k : Z,
            (value r == inject_Z k)%Q
            /\ (inject_Z k - (1 # 2) <= value y)%Q
            /\ (value y < inject_Z k + (1 # 2))%Q
  else r = y.

(** A mantissa that fits the 53 bits of a binary64 number. *)
Definition binary64_mantissa (x : number) : Prop :=
  match x with
  | S754_finite _ m _ => Z.pos m < 2 ^ prec
  | _ => True
  end.

(** ** Data model *)

(** A thrown JavaScript [Error] with its message. *)
Inductive exn : Type :=
| Error (message : string).

Definition message (e : exn) : string :=
  match e with Error msg => msg end.

(** What an [await]ed or called operation leaves: a value or an exception. *)
Inductive outcome (A : Type) : Type :=
| Ok (a : A)
| Throw (e : exn).
Arguments Ok {A} a.
Arguments Throw {A} e.

(** A [moment]: an instant in milliseconds since the epoch, or the invalid
    date that [moment(x)] builds from an input it cannot parse. *)
Definition moment : Type := option Z.

Definition isBefore (a b : moment) : bool :=
  match a, b with
  | Some x, Some y => x <? y
  | _, _ => false
  end.

Definition HOUR_MS : Z := 3600000.
Definition DAY_MS : Z := 86400000.

(** A document of the [Demand] collection ([demandSchema]).  No path of the
    schema is required, so every numeric path may be absent ([None] stands
    for [undefined] and [null]). *)
Module Demand.
Record t : Type := mk {
  station : string;
  date : Z;
  time : string;
  actualDemand : option number;
  forecastedDemand : option number;
  temperature : option number;
  humidity : option number;
  dayOfWeek : option number;
  hour : option number;
  accuracy : option number
}.
End Demand.

(** The nullish coalescing operator [a ?? b]. *)
Definition nullish {A : Type} (a b : option A) : option A :=
  match a with
  | Some x => Some x
  | None => b
  end.

(** [ToBoolean] and [ToNumber] on a possibly absent numeric path. *)
Definition js_truthy (v : option number) : bool :=
  match v with
  | Some x => truthy x
  | None => false
  end.

Definition to_number (v : option number) : number :=
  match v with
  | Some x => x
  | None => S754_nan
  end.

(** An element pushed on [predictions] by [predict].  [timestamp] holds the
    instant that [m.toISOString()] renders. *)
Module ForecastPoint.
Record t : Type := mk {
  timestamp : Z;
  forecastedDemand : number;
  temperature : number;
  humidity : number;
  hour : Z;
  dayOfWeek : Z
}.
End ForecastPoint.

(** The value [trainModel] resolves to. *)
Inductive TrainingResult : Type :=
| already_training
| success (dataPoints : nat) (modelType : string).

(** The body of the [/api/model-performance] response. *)
Record Performance : Type := {
  averageAccuracy : number;
  totalPredictions : nat;
  modelStatus : string
}.

(** An HTTP response: [res.json(body)] or [res.status(code).json({error})]. *)
Inductive response (A : Type) : Type :=
| Json (body : A)
| Status (code : Z) (error : string).
Arguments Json {A} body.
Arguments Status {A} code error.

(** ** The TensorFlow.js interface

    [@tensorflow/tfjs] is an imported library.  What [server.js] uses of it
    is taken as an interface: tensors built from nested arrays, the compiled
    one-layer model of lines 64-66, [fit] (which updates the model object in
    place and may fail) and [predict] followed by [data()[0]].  What the
    library does on its own account, such as drawing random numbers for
    the initial weights and for shuffling, is not described: the stream
    [random] below is that of the [Math.random()] calls written in
    [server.js]. *)
Inductive fit_outcome (Model : Type) : Type :=
| Fitted (m : Model)
| FitThrew (e : exn) (m : Model).
Arguments Fitted {Model} m.
Arguments FitThrew {Model} e m.

Record TfLib : Type := {
  Model : Type;
  Tensor : Type;
  tensor2d : list (list (option number)) -> outcome Tensor;
  sequential : Model;
  fit : Model -> Tensor -> Tensor -> fit_outcome Model;
  model_predict : Model -> list number -> number
}.

(** Observable effects, most recent first. *)
Inductive effect : Type :=
| ConsoleLog (msg : string)
| ConsoleError (msg : string) (err : exn)
| FitCall (rows : nat).

(** What [Demand.find().sort({ date: -1 })] resolves to. *)
Definition query_result : Type := outcome (list Demand.t).

(** ** Requests

    A value found under a key of a parsed JSON body, or [undefined] when
    the key is missing. *)
#[warnings="-register-all"]
Inductive jsvalue : Type :=
| Undefined
| Null
| Bool (b : bool)
| Num (n : number)
| Str (s : string)
| Arr (items : list jsvalue)
| Obj (members : list (string * jsvalue)).

(** [ToBoolean]. *)
Definition ToBoolean (v : jsvalue) : bool :=
  match v with
  | Undefined | Null => false
  | Bool b => b
  | Num n => truthy n
  | Str s => negb (s =? "")%string
  | Arr _ | Obj _ => true
  end.

(** The text of a value that is a string.  [predict] takes a string for
    its first argument and never reads it, so what stands for another
    kind of value is of no consequence. *)
Definition id_text (v : jsvalue) : string :=
  match v with
  | Str s => s
  | _ => ""
  end.

(** A document of the [Station] collection ([stationSchema]). *)
Module Station.
Record t : Type := mk {
  name : string;
  location : string
}.
End Station.

(** What the [/api/predict] handler destructures from [req.body]. *)
Module PredictBody.
Record t : Type := mk {
  stationId : jsvalue;
  startDate : jsvalue;
  endDate : jsvalue
}.
End PredictBody.

(** The request carries its three fields: none is missing, [null] or an
    empty string. *)
Definition complete (body : PredictBody.t) : bool :=
  ToBoolean (PredictBody.stationId body)
  && ToBoolean (PredictBody.startDate body)
  && ToBoolean (PredictBody.endDate body).

(** ** The server *)

Section Server.

(** The environment: the TensorFlow.js library, the stream of values that
    successive calls of [Math.random()] return, and the offset of local
    time from UTC (in minutes, at a given instant), which decides what
    [m.day()] and [m.hour()] read. *)
Context (tf : TfLib).
Variable random : nat -> number.
Variable utcOffset : Z -> Z.

(** The fields of an [EnergyForecastModel] object. *)
Record EnergyForecastModel : Type := {
  model : option (Model tf);
  isTraining : bool
}.

(** [new EnergyForecastModel()]. *)
Definition constructor : EnergyForecastModel :=
  {| model := None; isTraining := false |}.

(** The state the code runs in: the singleton [forecastModel], the
    contents of the [Demand] collection as the sorted query returns them,
    the number of [Math.random()] calls made so far and the effects
    performed so far. *)
Record World : Type := {
  forecastModel : EnergyForecastModel;
  Demand_find : query_result;
  drawn : nat;
  effects : list effect
}.

(** *** A state and exception monad *)

Definition M (A : Type) : Type := World -> outcome A * World.

Definition ret {A} (a : A) : M A := fun w => (Ok a, w).

Definition throw {A} (e : exn) : M A := fun w => (Throw e, w).

Definition bind {A B} (c : M A) (k : A -> M B) : M B :=
  fun w =>
    match c w with
    | (Ok a, w') => k a w'
    | (Throw e, w') => (Throw e, w')
    end.

(** [try { body } catch (err) { handler }]. *)
Definition try_catch {A} (body : M A) (handler : exn -> M A) : M A :=
  fun w =>
    match body w with
    | (Ok a, w') => (Ok a, w')
    | (Throw e, w') => handler e w'
    end.

Notation "x <- c ;; k" := (bind c (fun x => k))
  (at level 61, c at next level, right associativity).
Notation "c ;;; k" := (bind c (fun _ => k))
  (at level 61, right associativity).

Definition get_model : M (option (Model tf)) :=
  fun w => (Ok (model (forecastModel w)), w).

Definition get_isTraining : M bool :=
  fun w => (Ok (isTraining (forecastModel w)), w).

Definition set_model (m : option (Model tf)) : M unit :=
  fun w =>
    (Ok tt,
     {| forecastModel := {| model := m;
                            isTraining := isTraining (forecastModel w) |};
        Demand_find := Demand_find w;
        drawn := drawn w;
        effects := effects w |}).

Definition set_isTraining (b : bool) : M unit :=
  fun w =>
    (Ok tt,
     {| forecastModel := {| model := model (forecastModel w);
                            isTraining := b |};
        Demand_find := Demand_find w;
        drawn := drawn w;
        effects := effects w |}).

Definition perform (e : effect) : M unit :=
  fun w =>
    (Ok tt,
     {| forecastModel := forecastModel w;
        Demand_find := Demand_find w;
        drawn := drawn w;
        effects := e :: effects w |}).

Definition lift {A} (o : outcome A) : M A := fun w => (o, w).

(** [await Demand.find().sort({ date: -1 })]. *)
Definition find_sorted : M (list Demand.t) :=
  fun w => (Demand_find w, w).

(** [Math.random()]. *)
Definition Math_random : M number :=
  fun w =>
    (Ok (random (drawn w)),
     {| forecastModel := forecastModel w;
        Demand_find := Demand_find w;
        drawn := S (drawn w);
        effects := effects w |}).

(** *** [prepareTrainingData] (lines 40-51) *)

Definition feature_row (r : Demand.t) : list (option number) :=
  [ Demand.temperature r;
    Demand.humidity r;
    Demand.dayOfWeek r;
    Demand.hour r;
    nullish (Demand.actualDemand r) (Demand.forecastedDemand r) ].

Definition target_row (r : Demand.t) : list (option number) :=
  [ Demand.actualDemand r ].

Definition prepareTrainingData
  : M (list (list (option number)) * list (list (option number))) :=
  historical <- find_sorted ;;
  let features := map feature_row historical in
  let targets := map target_row historical in
  ret (features, targets).

(** *** [trainModel] (lines 53-78) *)

(** [await this.model.fit(xs, ys, ...)]: the call is recorded, the model
    object is left as the library leaves it, and a failure is rethrown. *)
Definition model_fit (rows : nat) (xs ys : Tensor tf) : M unit :=
  perform (FitCall rows) ;;;
  m <- get_model ;;
  match m with
  | None => throw (Error "Cannot read properties of null")
  | Some mdl =>
      match fit tf mdl xs ys with
      | Fitted mdl' => set_model (Some mdl')
      | FitThrew e mdl' => set_model (Some mdl') ;;; throw e
      end
  end.

Definition trainModel : M TrainingResult :=
  busy <- get_isTraining ;;
  if busy then ret already_training
  else
    set_isTraining true ;;;
    perform (ConsoleLog "🔥 Starting model training...") ;;;
    try_catch
      (ft <- prepareTrainingData ;;
       let '(features, targets) := ft in
       if (length features <? 50)%nat then throw (Error "Not enough data")
       else
         xs <- lift (tensor2d tf features) ;;
         ys <- lift (tensor2d tf targets) ;;
         set_model (Some (sequential tf)) ;;;
         model_fit (length features) xs ys ;;;
         perform (ConsoleLog "✅ Model trained") ;;;
         set_isTraining false ;;;
         ret (success (length features) "tfjs_linear"))
      (fun err =>
         perform (ConsoleError "❌ Training failed:" err) ;;;
         set_isTraining false ;;;
         throw err).

(** *** [predict] (lines 80-111) *)

(** [m.day()] and [m.hour()]: the day of the week (0 is Sunday; the epoch
    fell on a Thursday) and the hour of the day in local time. *)
Definition local_ms (t : Z) : Z := t + utcOffset t * 60000.
Definition day (t : Z) : Z := (local_ms t / DAY_MS + 4) mod 7.
Definition hour (t : Z) : Z := (local_ms t / HOUR_MS) mod 24.

(** The body of the loop (lines 88-107) at instant [m]: three
    [Math.random()] calls, one call of the model, one point. *)
Definition loop_body (mdl : Model tf) (m : Z) : M ForecastPoint.t :=
  r1 <- Math_random ;;
  let temp := add (of_Z 30) (mul r1 (of_Z 5)) in
  r2 <- Math_random ;;
  let humidity := add (of_Z 40) (mul r2 (of_Z 10)) in
  let dayOfWeek := day m in
  let hour := hour m in
  r3 <- Math_random ;;
  let lastDemand := add (of_Z 100) (mul r3 (of_Z 50)) in
  let input := [temp; humidity; of_Z dayOfWeek; of_Z hour; lastDemand] in
  let forecastedDemand := model_predict tf mdl input in
  ret {| ForecastPoint.timestamp := m;
         ForecastPoint.forecastedDemand := round_to 2 forecastedDemand;
         ForecastPoint.temperature := round_to 1 temp;
         ForecastPoint.humidity := round humidity;
         ForecastPoint.hour := hour;
         ForecastPoint.dayOfWeek := dayOfWeek |}.

(** [for (let m = start.clone(); m.isBefore(end); m.add(1, 'hour'))] with
    both moments valid: [m] advances by 3600000 ms and [predictions] grows
    at its end. *)
Equations? predict_loop (mdl : Model tf) (end_ : Z) (m : Z)
    (predictions : list ForecastPoint.t) (w : World)
  : outcome (list ForecastPoint.t) * World by wf (Z.to_nat (end_ - m)) lt :=
  predict_loop mdl end_ m predictions w with Z_lt_dec m end_ => {
    | left _ with loop_body mdl m w => {
        | (Ok p, w') :=
            predict_loop mdl end_ (m + HOUR_MS) (predictions ++ [p]) w';
        | (Throw e, w') := (Throw e, w') };
    | right _ := (Ok predictions, w) }.
Proof. all: unfold HOUR_MS; lia. Qed.

Definition predict (stationId : string) (startDate endDate : moment)
  : M (list ForecastPoint.t) :=
  m <- get_model ;;
  match m with
  | None => throw (Error "Model not trained")
  | Some mdl =>
      let start := startDate in
      let end_ := endDate in
      match start, end_ with
      | Some s, Some e => predict_loop mdl e s []
      | _, _ => ret []
      end
  end.

(** *** The [/api/model-performance] handler (lines 151-164) *)

Definition or_one (n : nat) : nat :=
  match n with
  | O => 1%nat
  | _ => n
  end.

Definition model_performance : M (response Performance) :=
  try_catch
    (recent <- find_sorted ;;
     let accuracies :=
       map (fun p => to_number (Demand.accuracy p))
           (filter (fun p => js_truthy (Demand.accuracy p)) recent) in
     let avgAccuracy :=
       div (fold_left add accuracies (of_Z 0))
           (of_Z (Z.of_nat (or_one (length accuracies)))) in
     mdl <- get_model ;;
     ret (Json {| averageAccuracy := round_to 2 avgAccuracy;
                  totalPredictions := length recent;
                  modelStatus := match mdl with
                                 | Some _ => "trained"
                                 | None => "not_trained"
                                 end |}))
    (fun err => ret (Status 500 (message err))).

(** *** Interleaved executions

    [trainModel] is an [async] function: it runs without interruption
    from one [await] to the next, and other requests may run while it is
    suspended.  A call is described by the [await] it is suspended at. *)
Inductive call : Type :=
| NotStarted
| AwaitingFind
| AwaitingData
    (ft : outcome (list (list (option number)) * list (list (option number))))
| AwaitingFit (rows : nat) (xs ys : Tensor tf)
| Settled (r : outcome TrainingResult).

(** The [catch] block of [trainModel] (lines 73-77). *)
Definition on_failure (err : exn) : M call :=
  perform (ConsoleError "❌ Training failed:" err) ;;;
  set_isTraining false ;;;
  ret (Settled (Throw err)).

(** The code a call runs when it is resumed, up to its next [await]:
    lines 54-58 and 41 from the start, lines 42-50 once the query has
    settled, lines 58-68 once [prepareTrainingData] has settled, lines
    68-72 once [fit] has settled. *)
Definition resume (c : call) : M call :=
  match c with
  | NotStarted =>
      busy <- get_isTraining ;;
      if busy then ret (Settled (Ok already_training))
      else
        set_isTraining true ;;;
        perform (ConsoleLog "🔥 Starting model training...") ;;;
        ret AwaitingFind
  | AwaitingFind =>
      fun w =>
        match find_sorted w with
        | (Ok historical, w') =>
            (Ok (AwaitingData (Ok (map feature_row historical,
                                   map target_row historical))), w')
        | (Throw e, w') => (Ok (AwaitingData (Throw e)), w')
        end
  | AwaitingData ft =>
      try_catch
        (p <- lift ft ;;
         let '(features, targets) := p in
         if (length features <? 50)%nat then throw (Error "Not enough data")
         else
           xs <- lift (tensor2d tf features) ;;
           ys <- lift (tensor2d tf targets) ;;
           set_model (Some (sequential tf)) ;;;
           perform (FitCall (length features)) ;;;
           ret (AwaitingFit (length features) xs ys))
        on_failure
  | AwaitingFit rows xs ys =>
      try_catch
        (m <- get_model ;;
         match m with
         | None => throw (Error "Cannot read properties of null")
         | Some mdl =>
             match fit tf mdl xs ys with
             | Fitted mdl' =>
                 set_model (Some mdl') ;;;
                 perform (ConsoleLog "✅ Model trained") ;;;
                 set_isTraining false ;;;
                 ret (Settled (Ok (success rows "tfjs_linear")))
             | FitThrew e mdl' => set_model (Some mdl') ;;; throw e
             end
         end)
        on_failure
  | Settled r => ret (Settled r)
  end.

(** The promise of a call that has run to its end. *)
Definition settle (c : call) : M TrainingResult :=
  match c with
  | Settled r => lift r
  | _ => throw (Error "pending")
  end.

(** A call that nothing interrupts. *)
Definition run_alone : M TrainingResult :=
  c1 <- resume NotStarted ;;
  c2 <- resume c1 ;;
  c3 <- resume c2 ;;
  c4 <- resume c3 ;;
  settle c4.

Definition settled (c : call) : bool :=
  match c with
  | Settled _ => true
  | _ => false
  end.

(** A call that has passed the guard of line 54 and has not yet reached
    line 71 or line 75. *)
Definition in_flight (c : call) : bool :=
  match c with
  | AwaitingFind | AwaitingData _ | AwaitingFit _ _ _ => true
  | _ => false
  end.

(** A call whose [fit] is running. *)
Definition fitting (c : call) : bool :=
  match c with
  | AwaitingFit _ _ _ => true
  | _ => false
  end.

(** A call that has resolved with [status: 'success']. *)
Definition succeeded (c : call) : bool :=
  match c with
  | Settled (Ok (success _ _)) => true
  | _ => false
  end.

(** A call that may have called [fit]: it is waiting for [fit], or it has
    settled otherwise than by [already_training]. *)
Definition may_have_fitted (c : call) : bool :=
  match c with
  | AwaitingFit _ _ _ => true
  | Settled (Ok already_training) => false
  | Settled _ => true
  | _ => false
  end.

Definition is_FitCall (e : effect) : bool :=
  match e with
  | FitCall _ => true
  | _ => false
  end.

(** The number of [fit] calls made so far. *)
Definition fits (w : World) : nat :=
  List.length (filter is_FitCall (effects w)).

Definition count (p : call -> bool) (l : list call) : nat :=
  List.length (filter p l).

Fixpoint set_nth {A} (i : nat) (x : A) (l : list A) : list A :=
  match l, i with
  | [], _ => []
  | _ :: l', O => x :: l'
  | y :: l', S i' => y :: set_nth i' x l'
  end.

(** The server with its [trainModel] calls, started or not. *)
Record System : Type := {
  world : World;
  calls : list call
}.

(** [n] requests to come, nothing started. *)
Definition init (w : World) (n : nat) : System :=
  {| world := w; calls := repeat NotStarted n |}.

(** One turn of the event loop: some pending [trainModel] call is
    resumed, or a [predict] or [/api/model-performance] request is
    served. *)
Inductive step (s : System) : System -> Prop :=
| step_resume i c c' w' :
    nth_error (calls s) i = Some c ->
    settled c = false ->
    resume c (world s) = (Ok c', w') ->
    step s {| world := w'; calls := set_nth i c' (calls s) |}
| step_predict stationId startDate endDate r w' :
    predict stationId startDate endDate (world s) = (r, w') ->
    step s {| world := w'; calls := calls s |}
| step_performance r w' :
    model_performance (world s) = (r, w') ->
    step s {| world := w'; calls := calls s |}.

Inductive reachable (s0 : System) : System -> Prop :=
| reachable_init : reachable s0 s0
| reachable_step s s' : reachable s0 s -> step s s' -> reachable s0 s'.

(** The invariant of the guard, relative to the world [w0] the requests
    arrived in: the flag is set exactly while one call is between line 55
    and line 71 or 75, and the [fit] calls made since are accounted for
    by the calls that went that far. *)
Definition guard_invariant (w0 : World) (s : System) : Prop :=
  count in_flight (calls s) =
    Nat.b2n (isTraining (forecastModel (world s)))
  /\ (fits (world s) <= fits w0 + count may_have_fitted (calls s))%nat
  /\ (fits w0 + count (fun c => fitting c || succeeded c) (calls s) <=
      fits (world s))%nat.

(** *** Closed forms, and formulations from the specification *)

(** A record that can supervise training. *)
Definition usable (r : Demand.t) : bool :=
  match Demand.actualDemand r with
  | Some _ => true
  | None => false
  end.

(** The hourly grid from [s] inclusive to [e] exclusive: its size and its
    instants. *)
Definition hour_count (s e : Z) : nat :=
  Z.to_nat ((e - s + HOUR_MS - 1) / HOUR_MS).

Definition hours (s e : Z) : list Z :=
  map (fun i => s + Z.of_nat i * HOUR_MS) (seq 0 (hour_count s e)).

(** The point computed at instant [m] when the first of the three
    [Math.random()] calls of the pass is call number [k]. *)
Definition forecast_point (mdl : Model tf) (m : Z) (k : nat)
  : ForecastPoint.t :=
  let temp := add (of_Z 30) (mul (random k) (of_Z 5)) in
  let humidity := add (of_Z 40) (mul (random (k + 1)) (of_Z 10)) in
  let lastDemand := add (of_Z 100) (mul (random (k + 2)) (of_Z 50)) in
  {| ForecastPoint.timestamp := m;
     ForecastPoint.forecastedDemand :=
       round_to 2
         (model_predict tf mdl
            [temp; humidity; of_Z (day m); of_Z (hour m); lastDemand]);
     ForecastPoint.temperature := round_to 1 temp;
     ForecastPoint.humidity := round humidity;
     ForecastPoint.hour := hour m;
     ForecastPoint.dayOfWeek := day m |}.

(** The world after [n] more [Math.random()] calls. *)
Definition after_draws (n : nat) (w : World) : World :=
  {| forecastModel := forecastModel w;
     Demand_find := Demand_find w;
     drawn := drawn w + n;
     effects := effects w |}.

(** The points on the first [n] instants of the grid from [s], the first
    [Math.random()] call being call number [k]. *)
Definition points (mdl : Model tf) (s : Z) (k n : nat)
  : list ForecastPoint.t :=
  map (fun i => forecast_point mdl (s + Z.of_nat i * HOUR_MS) (k + 3 * i))
      (seq 0 n).

(** The number of [Math.random()] calls of one [predict] call. *)
Definition draws (startDate endDate : moment) : nat :=
  match startDate, endDate with
  | Some s, Some e => 3 * hour_count s e
  | _, _ => 0
  end.

(** Feature extraction that drops the records without [actualDemand]. *)
Definition extract_usable (recs : list Demand.t)
  : list (list (option number)) * list (list (option number)) :=
  (map feature_row (filter usable recs),
   map target_row (filter usable recs)).

(** The accuracies that are present, and their mean (0 when there is
    none). *)
Definition present_accuracies (recs : list Demand.t) : list number :=
  flat_map (fun r => match Demand.accuracy r with
                     | Some a => [a]
                     | None => []
                     end) recs.

Definition mean (l : list number) : number :=
  match l with
  | [] => of_Z 0
  | _ => div (fold_left add l (of_Z 0)) (of_Z (Z.of_nat (List.length l)))
  end.

(** *** The [/api/train-model] and [/api/predict] handlers
    (lines 122-148) *)

Section Handlers.

(** [Station.findById(id)], which rejects when [id] cannot be cast to an
    object id, and [moment(x)]. *)
Variable Station_findById : jsvalue -> outcome (option Station.t).
Variable moment_of : jsvalue -> moment.

Definition api_train_model : M (response TrainingResult) :=
  try_catch
    (result <- trainModel ;;
     ret (Json result))
    (fun err => ret (Status 500 (message err))).

Definition api_predict (body : PredictBody.t)
  : M (response (list ForecastPoint.t)) :=
  try_catch
    (let stationId := PredictBody.stationId body in
     let startDate := PredictBody.startDate body in
     let endDate := PredictBody.endDate body in
     if negb (ToBoolean stationId) || negb (ToBoolean startDate)
        || negb (ToBoolean endDate)
     then ret (Status 400 "stationId, startDate, and endDate are required")
     else
       station <- lift (Station_findById stationId) ;;
       match station with
       | None => ret (Status 404 "Station not found")
       | Some _ =>
           predictions <- predict (id_text stationId)
                            (moment_of startDate) (moment_of endDate) ;;
           ret (Json predictions)
       end)
    (fun err =>
       perform (ConsoleError "Prediction error:" err) ;;;
       ret (Status 500 (message err))).

End Handlers.

(** The number of resumptions a call still needs to settle. *)
Definition remaining (c : call) : nat :=
  match c with
  | NotStarted => 4
  | AwaitingFind => 3
  | AwaitingData _ => 2
  | AwaitingFit _ _ _ => 1
  | Settled _ => 0
  end.

(** A call that was turned away at the guard of line 54. *)
Definition turned_away (c : call) : bool :=
  match c with
  | Settled (Ok already_training) => true
  | _ => false
  end.

(** A call that has passed the guard of line 54. *)
Definition passed_guard (c : call) : bool :=
  in_flight c || may_have_fitted c.

(** The resumptions the calls still need before all have settled. *)
Definition outstanding (l : list call) : nat :=
  list_sum (map remaining l).

(** A call that holds the result of the query holds the rows of
    [recs]. *)
Definition holds_rows (recs : list Demand.t) (c : call) : Prop :=
  match c with
  | AwaitingData ft => ft = Ok (map feature_row recs, map target_row recs)
  | _ => True
  end.

End Server.

Arguments model {tf} _.
Arguments isTraining {tf} _.
Arguments forecastModel {tf} _.
Arguments Demand_find {tf} _.
Arguments drawn {tf} _.
Arguments effects {tf} _.
Arguments world {tf} _.
Arguments calls {tf} _.
Arguments NotStarted {tf}.
Arguments AwaitingFind {tf}.
Arguments AwaitingData {tf} ft.
Arguments AwaitingFit {tf} rows xs ys.
Arguments Settled {tf} r.
Arguments settled {tf} c.
Arguments in_flight {tf} c.
Arguments fitting {tf} c.
Arguments succeeded {tf} c.
Arguments may_have_fitted {tf} c.
Arguments fits {tf} w.
Arguments count {tf} p l.
Arguments init {tf} w n.
Arguments guard_invariant {tf} w0 s.
Arguments after_draws {tf} n w.
Arguments remaining {tf} c.
Arguments turned_away {tf} c.
Arguments passed_guard {tf} c.
Arguments outstanding {tf} l.
Arguments holds_rows {tf} recs c.

(** ** The seeding script ([seed.js])

    Line numbers in this part refer to [seed.js].  The script takes
    instants, calendar fields and formatting from [moment], random numbers
    from [faker] and document ids from [mongoose]; these are parameters
    ([SeedLibs]).  The model covers the runs in which the database answers
    every operation (a rejected operation ends the script, which catches
    nothing); console output is not modelled. *)

(** [Math.max] of two numbers, [Math.abs], subtraction. *)
Definition Math_max (a b : number) : number :=
  match SFcompare a b with
  | None => S754_nan
  | Some Lt => b
  | Some Gt => a
  | Some Eq =>
      match a, b with
      | S754_zero true, S754_zero false => b
      | _, _ => a
      end
  end.

Definition Math_abs : number -> number := SFabs.

Definition sub : number -> number -> number := SFsub prec emax.

(** A stored [Station] document. *)
Module StationDoc.
Record t : Type := mk {
  _id : string;
  name : string;
  location : string
}.
End StationDoc.

Definition STATION_LIST : list Station.t :=
  [ Station.mk "Muscat Central" "Muscat";
    Station.mk "Salalah Grid" "Salalah";
    Station.mk "Sohar Node" "Sohar";
    Station.mk "Nizwa Point" "Nizwa";
    Station.mk "Sur Hub" "Sur" ].

(** The batch size of line 108. *)
Definition BATCH : nat := 1000.

(** What the script takes from its libraries: the offset of local time
    (which decides [m.day()] and [m.hour()]), [moment(x)], [m.month()],
    [m.format(pattern)], the result of the n-th call of
    [faker.number.float({ min, max })] and the id given to the n-th
    document of an [insertMany]. *)
Record SeedLibs : Type := {
  local_offset : Z -> Z;
  moment_parse : jsvalue -> moment;
  moment_month : Z -> Z;
  moment_format : string -> moment -> string;
  faker_float : nat -> number -> number -> number;
  ObjectId : nat -> string
}.

(** The two collections, the number of [faker] calls made so far and the
    batches passed to [Demand.insertMany] so far, oldest first. *)
Record Seeding : Type := {
  Station_docs : list StationDoc.t;
  Demand_docs : list Demand.t;
  faked : nat;
  batches : list (list Demand.t)
}.

(** Batching: chunks are poured into a buffer that is emitted whenever it
    holds [BATCH] elements or more; returns the batches emitted and what
    is left in the buffer. *)
Fixpoint pour {A} (chunks : list (list A)) (buffer : list A)
  : list (list A) * list A :=
  match chunks with
  | [] => ([], buffer)
  | chunk :: later =>
      let filled := buffer ++ chunk in
      if (BATCH <=? List.length filled)%nat
      then let '(emitted, kept) := pour later [] in (filled :: emitted, kept)
      else pour later filled
  end.

Section Seed.

Context (libs : SeedLibs).

Definition OMAN_HOLIDAYS_2024 : list string :=
  map (fun d => moment_format libs "YYYY-MM-DD" (moment_parse libs (Str d)))
    [ "2024-01-01"; "2024-04-10"; "2024-06-16";
      "2024-07-23"; "2024-09-16"; "2024-11-18" ].

Definition St (A : Type) : Type := Seeding -> A * Seeding.

Definition sret {A} (a : A) : St A := fun w => (a, w).

Definition sbind {A B} (c : St A) (k : A -> St B) : St B :=
  fun w => let '(a, w') := c w in k a w'.

Notation "x <- c ;; k" := (sbind c (fun x => k))
  (at level 61, c at next level, right associativity).
Notation "c ;;; k" := (sbind c (fun _ => k))
  (at level 61, right associativity).

Definition faker_number_float (min max : number) : St number :=
  fun w =>
    (faker_float libs (faked w) min max,
     {| Station_docs := Station_docs w;
        Demand_docs := Demand_docs w;
        faked := S (faked w);
        batches := batches w |}).

Definition Station_deleteMany : St unit :=
  fun w =>
    (tt,
     {| Station_docs := [];
        Demand_docs := Demand_docs w;
        faked := faked w;
        batches := batches w |}).

Definition Demand_deleteMany : St unit :=
  fun w =>
    (tt,
     {| Station_docs := Station_docs w;
        Demand_docs := [];
        faked := faked w;
        batches := batches w |}).

(** [Station.insertMany(stations)]: the documents stored, in order, each
    with an id; they are appended to the collection and returned. *)
Definition with_ids (stations : list Station.t) : list StationDoc.t :=
  map (fun p => StationDoc.mk (ObjectId libs (fst p))
                  (Station.name (snd p)) (Station.location (snd p)))
      (combine (seq 0 (List.length stations)) stations).

Definition Station_insertMany (stations : list Station.t)
  : St (list StationDoc.t) :=
  fun w =>
    (with_ids stations,
     {| Station_docs := Station_docs w ++ with_ids stations;
        Demand_docs := Demand_docs w;
        faked := faked w;
        batches := batches w |}).

Definition Demand_insertMany (docs : list Demand.t) : St unit :=
  fun w =>
    (tt,
     {| Station_docs := Station_docs w;
        Demand_docs := Demand_docs w ++ docs;
        faked := faked w;
        batches := batches w ++ [docs] |}).

(** *** Helpers (lines 49-60) *)

Definition getRandomTempHumidity (date : Z) (location : string)
  : St (number * number) :=
  let isSummer := existsb (Z.eqb (moment_month libs date)) [5; 6; 7; 8] in
  temp <- (if isSummer
           then faker_number_float (of_Z 32) (of_Z 45)
           else faker_number_float (of_Z 22) (of_Z 30)) ;;
  humidity <- faker_number_float (of_Z 20) (of_Z 65) ;;
  sret (temp, humidity).

Definition isHoliday (date : Z) : bool :=
  existsb (String.eqb (moment_format libs "YYYY-MM-DD" (Some date)))
    OMAN_HOLIDAYS_2024.

(** *** [seed] (lines 63-122) *)

(** The body of the inner loop (lines 82-104): the record of one station
    at one hour. *)
Definition station_record (date dayOfWeek hour : Z) (station : StationDoc.t)
  : St Demand.t :=
  th <- getRandomTempHumidity date (StationDoc.location station) ;;
  let '(temp, humidity) := th in
  let base := if (7 <=? hour) && (hour <=? 17) then of_Z 120 else of_Z 80 in
  variation <- faker_number_float (of_Z (-15)) (of_Z 20) ;;
  let holidayFactor := if isHoliday date then of_Z (-20) else of_Z 0 in
  let actualDemand :=
    Math_max (of_Z 30)
      (sub (add (add (add base variation) holidayFactor)
              (mul temp (decimal 8 1)))
           (mul humidity (decimal 3 1))) in
  noise <- faker_number_float (of_Z (-5)) (of_Z 5) ;;
  let forecastedDemand := add actualDemand noise in
  let accuracy :=
    sub (of_Z 100) (Math_abs (sub actualDemand forecastedDemand)) in
  sret (Demand.mk (StationDoc._id station) date
          (moment_format libs "HH:mm" (Some date))
          (Some actualDemand) (Some forecastedDemand)
          (Some temp) (Some humidity)
          (Some (of_Z dayOfWeek)) (Some (of_Z hour)) (Some accuracy)).

(** [for (const station of stationDocs)], pushing on [hourlyData]. *)
Fixpoint for_stations (date dayOfWeek hour : Z)
    (stationDocs : list StationDoc.t) (hourlyData : list Demand.t)
  : St (list Demand.t) :=
  match stationDocs with
  | [] => sret hourlyData
  | station :: rest =>
      record <- station_record date dayOfWeek hour station ;;
      for_stations date dayOfWeek hour rest (hourlyData ++ [record])
  end.

(** The loop over the hours (lines 77-113), with both moments valid; it
    returns what is left in [hourlyData]. *)
Equations? seed_loop (stationDocs : list StationDoc.t) (endDate : Z)
    (date : Z) (hourlyData : list Demand.t) (w : Seeding)
  : list Demand.t * Seeding by wf (hour_count date endDate) lt :=
  seed_loop stationDocs endDate date hourlyData w
    with Z_lt_dec date endDate => {
    | left _
        with for_stations date (day (local_offset libs) date)
               (hour (local_offset libs) date) stationDocs hourlyData w => {
        | (filled, w1) with (BATCH <=? List.length filled)%nat => {
            | true :=
                seed_loop stationDocs endDate (date + HOUR_MS) []
                  (snd (Demand_insertMany filled w1));
            | false :=
                seed_loop stationDocs endDate (date + HOUR_MS) filled w1 } };
    | right _ := (hourlyData, w) }.
Proof.
  all: unfold hour_count, HOUR_MS.
  all: replace (endDate - date + 3600000 - 1)
         with ((endDate - (date + 3600000) + 3600000 - 1) + 1 * 3600000)
         by lia.
  all: rewrite Z.div_add by lia.
  all: assert (0 <= (endDate - (date + 3600000) + 3600000 - 1) / 3600000)
         by (apply Z.div_pos; lia).
  all: lia.
Qed.

Definition seed : St unit :=
  Station_deleteMany ;;;
  Demand_deleteMany ;;;
  stationDocs <- Station_insertMany STATION_LIST ;;
  let startDate := moment_parse libs (Str "2024-01-01") in
  let endDate := moment_parse libs (Str "2025-01-01") in
  hourlyData <- match startDate, endDate with
                | Some s, Some e => seed_loop stationDocs e s []
                | _, _ => sret []
                end ;;
  if negb (List.length hourlyData =? 0)%nat
  then Demand_insertMany hourlyData
  else sret tt.

(** *** Closed forms *)

(** The record of one station at one hour when the first of its four
    [faker] calls is call number [k]. *)
Definition station_record_at (date : Z) (station : StationDoc.t) (k : nat)
  : Demand.t :=
  let isSummer := existsb (Z.eqb (moment_month libs date)) [5; 6; 7; 8] in
  let temp := if isSummer then faker_float libs k (of_Z 32) (of_Z 45)
              else faker_float libs k (of_Z 22) (of_Z 30) in
  let humidity := faker_float libs (k + 1) (of_Z 20) (of_Z 65) in
  let hour := hour (local_offset libs) date in
  let base := if (7 <=? hour) && (hour <=? 17) then of_Z 120 else of_Z 80 in
  let variation := faker_float libs (k + 2) (of_Z (-15)) (of_Z 20) in
  let holidayFactor := if isHoliday date then of_Z (-20) else of_Z 0 in
  let actualDemand :=
    Math_max (of_Z 30)
      (sub (add (add (add base variation) holidayFactor)
              (mul temp (decimal 8 1)))
           (mul humidity (decimal 3 1))) in
  let forecastedDemand :=
    add actualDemand (faker_float libs (k + 3) (of_Z (-5)) (of_Z 5)) in
  Demand.mk (StationDoc._id station) date
    (moment_format libs "HH:mm" (Some date))
    (Some actualDemand) (Some forecastedDemand) (Some temp) (Some humidity)
    (Some (of_Z (day (local_offset libs) date))) (Some (of_Z hour))
    (Some (sub (of_Z 100) (Math_abs (sub actualDemand forecastedDemand)))).

(** The records of one hour, station by station, from call number [k]. *)
Fixpoint hour_records (date : Z) (stationDocs : list StationDoc.t) (k : nat)
  : list Demand.t :=
  match stationDocs with
  | [] => []
  | station :: rest =>
      station_record_at date station k :: hour_records date rest (k + 4)
  end.

(** The records of [n] consecutive hours from [date], hour by hour. *)
Fixpoint all_records (stationDocs : list StationDoc.t) (date : Z) (k n : nat)
  : list (list Demand.t) :=
  match n with
  | O => []
  | S n' =>
      hour_records date stationDocs k
        :: all_records stationDocs (date + HOUR_MS)
             (k + 4 * List.length stationDocs) n'
  end.

(** The state after [n] more [faker] calls. *)
Definition after_fakes (n : nat) (w : Seeding) : Seeding :=
  {| Station_docs := Station_docs w;
     Demand_docs := Demand_docs w;
     faked := faked w + n;
     batches := batches w |}.

End Seed.

(** ** Concrete environments and inputs *)

Module Fixtures.

(** A library whose model state is the number of completed epochs and
    whose forecast is the constant 42.567. *)
Definition tf_ok : TfLib :=
  {| Model := nat;
     Tensor := list (list (option number));
     tensor2d := fun values => Ok values;
     sequential := 0%nat;
     fit := fun m _ _ => Fitted (m + 50)%nat;
     model_predict := fun _ _ => decimal 42567 3 |}.

(** The same library with a [fit] that fails before its first epoch. *)
Definition tf_failing : TfLib :=
  {| Model := nat;
     Tensor := list (list (option number));
     tensor2d := fun values => Ok values;
     sequential := 0%nat;
     fit := fun m _ _ => FitThrew (Error "fit failed") m;
     model_predict := fun _ _ => decimal 42567 3 |}.

(** [Math.random()] always returning 0.5; local time at UTC+4. *)
Definition half : nat -> number := fun _ => decimal 5 1.
Definition gst : Z -> Z := fun _ => 240.

(** 2024-01-01T00:00:00.000Z. *)
Definition t0 : Z := 1704067200000.

(** A seeded observation and a forecast-only row. *)
Definition observed : Demand.t :=
  Demand.mk "Muscat Central" t0 "04:00"
    (Some (of_Z 120)) (Some (of_Z 118)) (Some (of_Z 25)) (Some (of_Z 40))
    (Some (of_Z 1)) (Some (of_Z 4)) (Some (of_Z 98)).

Definition forecast_only : Demand.t :=
  Demand.mk "Muscat Central" (t0 + HOUR_MS) "05:00"
    None (Some (of_Z 118)) (Some (of_Z 25)) (Some (of_Z 40))
    (Some (of_Z 1)) (Some (of_Z 5)) None.

(** A row carrying only an accuracy score. *)
Definition scored (a : option number) : Demand.t :=
  Demand.mk "Muscat Central" t0 "04:00"
    None None None None None None a.

(** The world after boot, the collection holding [docs]. *)
Definition boot (tf : TfLib) (docs : list Demand.t) : World tf :=
  {| forecastModel := constructor tf;
     Demand_find := Ok docs;
     drawn := 0;
     effects := [] |}.

(** A world with a model in place and nothing in progress. *)
Definition trained (tf : TfLib) (mdl : Model tf) (docs : list Demand.t)
  : World tf :=
  {| forecastModel := {| model := Some mdl; isTraining := false |};
     Demand_find := Ok docs;
     drawn := 0;
     effects := [] |}.

(** A world in which a training run is in progress. *)
Definition training (tf : TfLib) (docs : list Demand.t) : World tf :=
  {| forecastModel := {| model := None; isTraining := true |};
     Demand_find := Ok docs;
     drawn := 0;
     effects := [ConsoleLog "🔥 Starting model training..."] |}.

(** Two [trainModel] calls on an idle server with fifty observations:
    the first has passed the guard and waits for the query, the second
    has started meanwhile. *)
Definition overlapped : System tf_ok :=
  {| world := snd (resume tf_ok NotStarted (boot tf_ok (repeat observed 50)));
     calls := [AwaitingFind; Settled (Ok already_training)] |}.

(** One [trainModel] call on the same server, suspended at the [await]
    of [fit]. *)
Definition during_fit : System tf_ok :=
  {| world :=
       {| forecastModel := Build_EnergyForecastModel tf_ok (Some 0%nat) true;
          Demand_find := Ok (repeat observed 50);
          drawn := 0;
          effects := [FitCall 50; ConsoleLog "🔥 Starting model training..."] |};
     calls := [@AwaitingFit tf_ok 50 (map feature_row (repeat observed 50))
                 (map target_row (repeat observed 50))] |}.

(** The two calls of [overlapped] once the first has run to its end. *)
Definition one_fitted : System tf_ok :=
  {| world :=
       {| forecastModel := Build_EnergyForecastModel tf_ok (Some 50%nat) false;
          Demand_find := Ok (repeat observed 50);
          drawn := 0;
          effects := [ConsoleLog "✅ Model trained"; FitCall 50;
                      ConsoleLog "🔥 Starting model training..."] |};
     calls := [Settled (Ok (success 50 "tfjs_linear"));
               Settled (Ok already_training)] |}.

(** Two calls that overlapped on a server with forty-nine observations,
    both at their end. *)
Definition short_of_data : System tf_ok :=
  {| world :=
       {| forecastModel := constructor tf_ok;
          Demand_find := Ok (repeat observed 49);
          drawn := 0;
          effects := [ConsoleError "❌ Training failed:"
                        (Error "Not enough data");
                      ConsoleLog "🔥 Starting model training..."] |};
     calls := [Settled (Throw (Error "Not enough data"));
               Settled (Ok already_training)] |}.

End Fixtures.

Module HandlerFixtures.

Import Fixtures.

Definition muscat : Station.t := Station.mk "Muscat Central" "Muscat".

(** A collection with one station; an id that is not 24 hexadecimal
    digits cannot be cast. *)
Definition findById (id : jsvalue) : outcome (option Station.t) :=
  match id with
  | Str s =>
      if (s =? "665f1c2e9b1d8a0012345678")%string then Ok (Some muscat)
      else if (String.length s =? 24)%nat then Ok None
      else Throw (Error "Cast to ObjectId failed")
  | _ => Throw (Error "Cast to ObjectId failed")
  end.

(** A parser that knows two instants written as strings and, written
    as arrays of year, month and day in local time (UTC+4), the first two
    days of 2024. *)
Definition parse (x : jsvalue) : moment :=
  match x with
  | Str s =>
      if (s =? "2024-01-01T00:00:00.000Z")%string then Some t0
      else if (s =? "2024-01-01T03:00:00.000Z")%string
           then Some (t0 + 3 * HOUR_MS)
           else None
  | Num _ => Some t0
  | Arr [Num y; Num m; Num d] =>
      if SFeqb y (of_Z 2024) && SFeqb m (of_Z 0)
      then if SFeqb d (of_Z 1) then Some (t0 - 4 * HOUR_MS)
           else if SFeqb d (of_Z 2) then Some (t0 + 20 * HOUR_MS)
                else None
      else None
  | _ => None
  end.

Definition known_station : jsvalue := Str "665f1c2e9b1d8a0012345678".
Definition unknown_station : jsvalue := Str "000000000000000000000000".
Definition midnight : jsvalue := Str "2024-01-01T00:00:00.000Z".
Definition three : jsvalue := Str "2024-01-01T03:00:00.000Z".
Definition first_day : jsvalue :=
  Arr [Num (of_Z 2024); Num (of_Z 0); Num (of_Z 1)].
Definition second_day : jsvalue :=
  Arr [Num (of_Z 2024); Num (of_Z 0); Num (of_Z 2)].

(** The server of [Fixtures.during_fit] once [fit] has completed and the
    call has settled. *)
Definition after_training : System tf_ok :=
  {| world :=
       {| forecastModel := Build_EnergyForecastModel tf_ok (Some 50%nat) false;
          Demand_find := Ok (repeat observed 50);
          drawn := 0;
          effects := [ConsoleLog "✅ Model trained"; FitCall 50;
                      ConsoleLog "🔥 Starting model training..."] |};
     calls := [@Settled tf_ok (Ok (success 50 "tfjs_linear"))] |}.

End HandlerFixtures.

Module SeedFixtures.

Import Fixtures.

(** Local time in Muscat: UTC+4 all year.  2024-01-01T00:00 local. *)
Definition new_year : Z := t0 - 4 * HOUR_MS.

(** The year 2024 has 366 days. *)
Definition next_year : Z := new_year + 366 * DAY_MS.

Definition two_digits (n : Z) : string :=
  String (Ascii.ascii_of_N (48 + Z.to_N (n / 10)))
    (String (Ascii.ascii_of_N (48 + Z.to_N (n mod 10))) "").

(** The month (0 is January) and the day of the month (0 is the first) of
    the [d]-th day of 2024. *)
Fixpoint month_and_day (lengths : list Z) (m d : Z) : Z * Z :=
  match lengths with
  | [] => (m, d)
  | len :: later =>
      if d <? len then (m, d) else month_and_day later (m + 1) (d - len)
  end.

Definition in_2024 (t : Z) : Z * Z :=
  month_and_day [31; 29; 31; 30; 31; 30; 31; 31; 30; 31; 30; 31] 0
    ((t - new_year) / DAY_MS).

(** [moment] for the instants and the two patterns the script uses, in
    2024; [faker] returning the middle of the range; ids made of the rank
    of the document. *)
Definition oman : SeedLibs :=
  {| local_offset := fun _ => 240;
     moment_parse := fun x =>
       match x with
       | Str s =>
           if (s =? "2024-01-01")%string then Some new_year
           else if (s =? "2025-01-01")%string then Some next_year
           else if (s =? "2024-04-10")%string
           then Some (new_year + 100 * DAY_MS)
           else if (s =? "2024-06-16")%string
           then Some (new_year + 167 * DAY_MS)
           else if (s =? "2024-07-23")%string
           then Some (new_year + 204 * DAY_MS)
           else if (s =? "2024-09-16")%string
           then Some (new_year + 259 * DAY_MS)
           else if (s =? "2024-11-18")%string
           then Some (new_year + 322 * DAY_MS)
           else None
       | _ => None
       end;
     moment_month := fun t => fst (in_2024 t);
     moment_format := fun pattern m =>
       match m with
       | None => "Invalid date"
       | Some t =>
           if (pattern =? "HH:mm")%string
           then (two_digits (((t + 4 * HOUR_MS) / HOUR_MS) mod 24) ++ ":"
                 ++ two_digits (((t + 4 * HOUR_MS) / 60000) mod 60))%string
           else ("2024-" ++ two_digits (fst (in_2024 t) + 1) ++ "-"
                 ++ two_digits (snd (in_2024 t) + 1))%string
       end;
     faker_float := fun _ min max => div (add min max) (of_Z 2);
     ObjectId := fun n => two_digits (Z.of_nat n) |}.

(** The same libraries with a year cut down to [n] hours. *)
Definition short_year (n : Z) : SeedLibs :=
  {| local_offset := local_offset oman;
     moment_parse := fun x =>
       match x with
       | Str s =>
           if (s =? "2025-01-01")%string then Some (new_year + n * HOUR_MS)
           else moment_parse oman x
       | _ => None
       end;
     moment_month := moment_month oman;
     moment_format := moment_format oman;
     faker_float := faker_float oman;
     ObjectId := ObjectId oman |}.

(** A database holding leftovers of an earlier run. *)
Definition stale : Seeding :=
  {| Station_docs := [StationDoc.mk "old" "Old Station" "Nowhere"];
     Demand_docs := [observed; forecast_only];
     faked := 0;
     batches := [] |}.

End SeedFixtures.

(** * Properties *)

(** Runs the monadic code of [trainModel] and of [resume] on a world whose
    fields are known. *)
Ltac run :=
  cbv beta iota delta
    [trainModel bind ret throw try_catch lift get_isTraining get_model
     set_isTraining set_model perform prepareTrainingData find_sorted
     model_fit run_alone resume settle on_failure];
  cbn [forecastModel Demand_find drawn effects model isTraining fst snd].

(** ** Numbers *)

Section RoundingProperties.

Lemma iter_xO_value (p k : positive) :
  Z.pos (Pos.iter xO p k) = Z.pos p * 2 ^ Z.pos k.
Proof.
  induction k as [| k IH] using Pos.peano_ind.
  - cbn. lia.
  - rewrite Pos.iter_succ, Pos2Z.inj_xO, IH, Pos2Z.inj_succ.
    rewrite Z.pow_succ_r by lia. lia.
Qed.

Lemma iter_xO_digits (p k : positive) :
  digits2_pos (Pos.iter xO p k) = (digits2_pos p + k)%positive.
Proof.
  induction k as [| k IH] using Pos.peano_ind.
  - cbn. lia.
  - rewrite Pos.iter_succ. cbn [digits2_pos]. rewrite IH. lia.
Qed.

(** Shifting a mantissa to the right never lowers the exponent. *)
Lemma shr_exponent (mrs : shr_record) (e n : Z) :
  e <= snd (shr mrs e n).
Proof. destruct n; cbn; lia. Qed.

Lemma binary_round_aux_exponent (s : bool) (mx ex : Z) (lx : location) :
  0 <= ex ->
  is_finite (binary_round_aux prec emax s mx ex lx) = true ->
  integral (binary_round_aux prec emax s mx ex lx) = true.
Proof.
  intros nonneg. unfold binary_round_aux.
  destruct (shr_fexp prec emax mx ex lx) as [mrs' e'] eqn:first.
  destruct (shr_fexp prec emax _ e' loc_Exact) as [mrs'' e''] eqn:second.
  assert (ex <= e').
  { unfold shr_fexp in first.
    pose proof (shr_exponent (shr_record_of_loc mx lx) ex
                  (fexp prec emax (Zdigits2 mx + ex) - ex)) as up.
    rewrite first in up. exact up. }
  assert (e' <= e'').
  { unfold shr_fexp in second.
    match type of second with
    | shr ?r ?e ?n = _ => pose proof (shr_exponent r e n) as up
    end.
    rewrite second in up. exact up. }
  destruct (shr_m mrs'') as [| m | m]; [reflexivity | | discriminate].
  destruct (e'' <=? emax - prec); [| discriminate].
  intros _. cbn [integral].
  destruct (Z.leb_spec 0 e''); [reflexivity | lia].
Qed.

(** The binary64 number nearest to a positive integer has no fractional
    part. *)
Lemma binary_round_integral (s : bool) (p : positive) :
  is_finite (binary_round prec emax s p 0) = true ->
  integral (binary_round prec emax s p 0) = true.
Proof.
  unfold binary_round, shl_align.
  remember (fexp prec emax (Z.pos (digits2_pos p) + 0)) as target eqn:aim.
  destruct (target - 0) as [| k | k] eqn:gap.
  - apply binary_round_aux_exponent. lia.
  - apply binary_round_aux_exponent. lia.
  - intros _.
    assert (target = Z.neg k) as -> by lia.
    assert (small : Z.pos (digits2_pos p) + Z.pos k = 53).
    { unfold fexp, emin, prec, emax in aim. lia. }
    assert (stay : fexp prec emax (Z.pos (digits2_pos p + k) + Z.neg k)
                   - Z.neg k = 0).
    { unfold fexp, emin, prec, emax. rewrite Pos2Z.inj_add. lia. }
    unfold binary_round_aux, shr_fexp.
    cbn [Zdigits2]. rewrite iter_xO_digits, stay.
    cbn [shr shr_record_of_loc shr_m loc_of_shr_record round_nearest_even
         Zdigits2].
    rewrite iter_xO_digits, stay.
    cbn [shr shr_m].
    destruct (Z.leb_spec (Z.neg k) (emax - prec));
      [| unfold emax, prec in *; lia].
    cbn [integral].
    destruct (Z.leb_spec 0 (Z.neg k)); [lia |].
    rewrite iter_xO_value. cbn [Z.opp].
    rewrite Z.mod_mul by (apply Z.pow_nonzero; lia).
    reflexivity.
Qed.

(** [Math.round] returns a number without fractional part (or passes on an
    infinity or [NaN]). *)
Lemma round_integral (x : number) :
  is_finite (round x) = true -> integral (round x) = true.
Proof.
  destruct x as [s | s | | s m e]; cbn [round];
    [reflexivity | discriminate | discriminate |].
  destruct (Z.leb_spec 0 e) as [whole | fractional].
  { intros _. cbn [integral].
    destruct (Z.leb_spec 0 e); [reflexivity | lia]. }
  cbv zeta.
  set (d := 2 ^ (- e)).
  assert (0 < d) by (apply Z.pow_pos_nonneg; lia).
  assert (0 <= Z.pos m / d) by (apply Z.div_pos; lia).
  set (n := if s then if d <? 2 * (Z.pos m mod d) then Z.pos m / d + 1
                      else Z.pos m / d
            else if d <=? 2 * (Z.pos m mod d) then Z.pos m / d + 1
                 else Z.pos m / d).
  assert (0 <= n).
  { subst n. destruct s, (d <? 2 * (Z.pos m mod d)),
      (d <=? 2 * (Z.pos m mod d)); lia. }
  destruct (Z.eqb_spec n 0) as [zero | nonzero]; [reflexivity |].
  destruct n as [| p | p]; [contradiction | | lia].
  destruct s; cbn [Z.opp binary_normalize]; apply binary_round_integral.
Qed.

(** The number of binary digits of a mantissa. *)
Lemma digits2_pos_bounds (p : positive) :
  2 ^ (Z.pos (digits2_pos p) - 1) <= Z.pos p < 2 ^ Z.pos (digits2_pos p).
Proof.
  induction p as [p IH | p IH |]; cbn [digits2_pos].
  - rewrite Pos2Z.inj_succ, Pos2Z.inj_xI.
    replace (Z.succ (Z.pos (digits2_pos p)) - 1)
      with (Z.succ (Z.pos (digits2_pos p) - 1)) by lia.
    rewrite !Z.pow_succ_r by lia. lia.
  - rewrite Pos2Z.inj_succ. change (Z.pos p~0) with (2 * Z.pos p).
    replace (Z.succ (Z.pos (digits2_pos p)) - 1)
      with (Z.succ (Z.pos (digits2_pos p) - 1)) by lia.
    rewrite !Z.pow_succ_r by lia. lia.
  - cbn. lia.
Qed.

Lemma Zdigits2_bound (m : Z) : 0 <= m -> m < 2 ^ Zdigits2 m.
Proof.
  destruct m as [| p | p]; intros nonneg; cbn [Zdigits2]; [cbn; lia | | lia].
  apply digits2_pos_bounds.
Qed.

(** Shifting a mantissa to the right divides it by a power of two. *)
Lemma shr_1_m (mrs : shr_record) :
  0 <= shr_m mrs -> shr_m (shr_1 mrs) = shr_m mrs / 2.
Proof.
  destruct mrs as [m r s]. cbn [shr_m]. intros nonneg.
  destruct m as [| [p | p |] | p]; cbn [shr_1 shr_m]; try lia.
  - reflexivity.
  - apply Z.div_unique with 1; lia.
  - apply Z.div_unique with 0; lia.
  - reflexivity.
Qed.

Lemma iter_shr_1_m (p : positive) :
  forall mrs : shr_record,
    0 <= shr_m mrs ->
    shr_m (iter_pos shr_1 p mrs) = shr_m mrs / 2 ^ Z.pos p.
Proof.
  assert (half : forall mrs : shr_record,
             0 <= shr_m mrs -> 0 <= shr_m (shr_1 mrs)).
  { intros mrs nonneg. rewrite shr_1_m by assumption.
    apply Z.div_pos; lia. }
  induction p as [p IH | p IH |]; intros mrs nonneg; cbn [iter_pos].
  - assert (0 < 2 ^ Z.pos p) by (apply Z.pow_pos_nonneg; lia).
    rewrite IH, IH, shr_1_m by
      (try rewrite IH by auto; try apply Z.div_pos; auto; lia).
    rewrite !Z.div_div by lia.
    f_equal.
    replace (Z.pos p~1) with (Z.pos p + Z.pos p + 1) by lia.
    rewrite !Z.pow_add_r by lia. lia.
  - assert (0 < 2 ^ Z.pos p) by (apply Z.pow_pos_nonneg; lia).
    rewrite IH, IH by (try rewrite IH by auto; try apply Z.div_pos; auto; lia).
    rewrite !Z.div_div by lia.
    f_equal.
    replace (Z.pos p~0) with (Z.pos p + Z.pos p) by lia.
    rewrite !Z.pow_add_r by lia. lia.
  - rewrite shr_1_m by assumption. reflexivity.
Qed.

Lemma shr_m_shr (mrs : shr_record) (e n : Z) :
  0 <= shr_m mrs ->
  shr_m (fst (shr mrs e n)) =
  if 0 <? n then shr_m mrs / 2 ^ n else shr_m mrs.
Proof.
  intros nonneg. destruct n as [| p | p]; cbn [shr fst]; try reflexivity.
  apply iter_shr_1_m. exact nonneg.
Qed.

Lemma shr_m_shr_record_of_loc (m : Z) (l : location) :
  shr_m (shr_record_of_loc m l) = m.
Proof. destruct l as [| []]; reflexivity. Qed.

(** Whatever the mantissa, the first step of rounding brings it into 53
    bits. *)
Lemma shr_fexp_small (m e : Z) (l : location) :
  0 <= m ->
  0 <= shr_m (fst (shr_fexp prec emax m e l)) < 2 ^ prec.
Proof.
  intros nonneg. unfold shr_fexp.
  rewrite shr_m_shr by (rewrite shr_m_shr_record_of_loc; exact nonneg).
  rewrite shr_m_shr_record_of_loc.
  pose proof (Zdigits2_bound m nonneg) as digits.
  set (n := fexp prec emax (Zdigits2 m + e) - e).
  assert (enough : Zdigits2 m <= prec + n).
  { subst n. unfold fexp, emin, prec, emax. lia. }
  assert (0 <= Zdigits2 m).
  { destruct m; cbn; lia. }
  destruct (Z.ltb_spec 0 n) as [shifted | kept].
  - assert (0 < 2 ^ n) by (apply Z.pow_pos_nonneg; lia).
    split; [apply Z.div_pos; lia |].
    apply Z.div_lt_upper_bound; [lia |].
    rewrite <- Z.pow_add_r by (unfold prec; lia).
    apply Z.lt_le_trans with (1 := digits).
    apply Z.pow_le_mono_r; lia.
  - split; [exact nonneg |].
    apply Z.lt_le_trans with (1 := digits).
    apply Z.pow_le_mono_r; lia.
Qed.

Lemma round_nearest_even_nonneg (m : Z) (l : location) :
  0 <= m -> 0 <= round_nearest_even m l.
Proof.
  intros nonneg. destruct l as [| []]; cbn [round_nearest_even];
    try destruct (Z.even m); lia.
Qed.

(** The result of a correctly rounded operation has a mantissa of at most
    53 bits. *)
Lemma binary_round_aux_mantissa (s : bool) (mx ex : Z) (lx : location) :
  0 <= mx -> binary64_mantissa (binary_round_aux prec emax s mx ex lx).
Proof.
  intros nonneg. unfold binary_round_aux.
  pose proof (shr_fexp_small mx ex lx nonneg) as first.
  destruct (shr_fexp prec emax mx ex lx) as [mrs' e'].
  cbn [fst] in first.
  pose proof (shr_fexp_small
                (round_nearest_even (shr_m mrs') (loc_of_shr_record mrs'))
                e' loc_Exact
                (round_nearest_even_nonneg _ _ (proj1 first))) as second.
  destruct (shr_fexp prec emax _ e' loc_Exact) as [mrs'' e''].
  cbn [fst] in second.
  destruct (shr_m mrs'') as [| m | m]; [exact I | | exact I].
  destruct (e'' <=? emax - prec); [| exact I].
  exact (proj2 second).
Qed.

Lemma binary_normalize_mantissa (m e : Z) (szero : bool) :
  binary64_mantissa (binary_normalize prec emax m e szero).
Proof.
  destruct m as [| p | p]; cbn [binary_normalize]; [exact I | |];
    unfold binary_round;
    destruct (shl_align p e _) as [mz ez];
    apply binary_round_aux_mantissa; lia.
Qed.

Lemma mul_mantissa (x y : number) : binary64_mantissa (mul x y).
Proof.
  destruct x as [sx | sx | | sx mx ex], y as [sy | sy | | sy my ey];
    try exact I.
  apply binary_round_aux_mantissa. lia.
Qed.

Lemma add_mantissa (x y : number) :
  binary64_mantissa x -> binary64_mantissa y -> binary64_mantissa (add x y).
Proof.
  intros bx by_.
  destruct x as [sx | sx | | sx mx ex], y as [sy | sy | | sy my ey];
    try exact I; try assumption;
    try (destruct sx, sy; exact I).
  apply binary_normalize_mantissa.
Qed.

(** An integer of at most 53 bits is a binary64 number. *)
Lemma binary_round_exact (s : bool) (p : positive) :
  Z.pos p < 2 ^ prec ->
  exists m e,
    binary_round prec emax s p 0 = S754_finite s m e
    /\ e <= 0
    /\ Z.pos m = Z.pos p * 2 ^ (- e).
Proof.
  intros small.
  pose proof (digits2_pos_bounds p) as [low _].
  assert (digits : Z.pos (digits2_pos p) <= prec).
  { destruct (Z.le_gt_cases (Z.pos (digits2_pos p)) prec) as [ok | over];
      [exact ok |].
    assert (2 ^ prec <= 2 ^ (Z.pos (digits2_pos p) - 1))
      by (apply Z.pow_le_mono_r; unfold prec in *; lia).
    lia. }
  unfold binary_round, shl_align.
  remember (fexp prec emax (Z.pos (digits2_pos p) + 0)) as target eqn:aim.
  assert (target = Z.pos (digits2_pos p) - prec).
  { unfold fexp, emin, prec, emax in *. lia. }
  destruct (target - 0) as [| k | k] eqn:gap; [| lia |].
  - assert (stay : fexp prec emax (Z.pos (digits2_pos p) + 0) - 0 = 0)
      by lia.
    unfold binary_round_aux, shr_fexp.
    cbn [Zdigits2]. rewrite stay.
    cbn [shr shr_record_of_loc shr_m loc_of_shr_record round_nearest_even
         Zdigits2].
    rewrite stay. cbn [shr shr_m].
    exists p, 0. split; [reflexivity |]. split; [lia |]. cbn. lia.
  - assert (target = Z.neg k) as -> by lia.
    assert (small' : Z.pos (digits2_pos p) + Z.pos k = 53).
    { unfold prec in *. lia. }
    assert (stay : fexp prec emax (Z.pos (digits2_pos p + k) + Z.neg k)
                   - Z.neg k = 0).
    { unfold fexp, emin, prec, emax. rewrite Pos2Z.inj_add. lia. }
    unfold binary_round_aux, shr_fexp.
    cbn [Zdigits2]. rewrite iter_xO_digits, stay.
    cbn [shr shr_record_of_loc shr_m loc_of_shr_record round_nearest_even
         Zdigits2].
    rewrite iter_xO_digits, stay.
    cbn [shr shr_m].
    destruct (Z.leb_spec (Z.neg k) (emax - prec));
      [| unfold emax, prec in *; lia].
    exists (Pos.iter xO p k), (Z.neg k).
    split; [reflexivity |]. split; [lia |].
    rewrite iter_xO_value. reflexivity.
Qed.

(** The value of a number with a negative exponent, as a fraction. *)
Lemma value_fraction (s : bool) (m p : positive) :
  (value (S754_finite s m (Z.neg p)) ==
   (if s then Z.neg m else Z.pos m) # (2 ^ p))%Q.
Proof.
  unfold value, Qpower.
  change 2%Q with (2 # 1)%Q.
  rewrite Qpower_decomp_positive, <- Pos2Z.inj_pow.
  unfold Qeq, Qmult, Qinv, inject_Z; cbn [Qnum Qden].
  rewrite ?Pos2Z.inj_mul, ?Pos2Z.inj_pow, ?Z.pow_1_l by lia.
  ring.
Qed.

Lemma value_whole (s : bool) (m : positive) (e : Z) :
  0 <= e ->
  (value (S754_finite s m e) ==
   inject_Z ((if s then Z.neg m else Z.pos m) * 2 ^ e))%Q.
Proof.
  intros whole. unfold value.
  rewrite inject_Z_mult, (Zpower_Qpower 2 e whole). reflexivity.
Qed.

Lemma value_scaled (s : bool) (m : positive) (e : Z) (k : Z) :
  e <= 0 ->
  (if s then Z.neg m else Z.pos m) = k * 2 ^ (- e) ->
  (value (S754_finite s m e) == inject_Z k)%Q.
Proof.
  intros low scaled.
  destruct e as [| p | p]; [| lia |].
  - rewrite value_whole by lia. rewrite scaled. cbn. 
    rewrite Z.mul_1_r, Z.mul_1_r. reflexivity.
  - rewrite value_fraction, scaled. cbn [Z.opp].
    unfold Qeq, inject_Z; cbn [Qnum Qden].
    rewrite Pos2Z.inj_pow. lia.
Qed.

Lemma value_binary_normalize (z : Z) :
  Z.abs z < 2 ^ prec ->
  is_finite (binary_normalize prec emax z 0 false) = true
  /\ (value (binary_normalize prec emax z 0 false) == inject_Z z)%Q.
Proof.
  intros small.
  destruct z as [| p | p]; cbn [binary_normalize].
  - split; reflexivity.
  - destruct (binary_round_exact false p) as (m & e & -> & low & scaled);
      [lia |].
    split; [reflexivity |]. apply value_scaled; assumption.
  - destruct (binary_round_exact true p) as (m & e & -> & low & scaled);
      [lia |].
    split; [reflexivity |]. apply value_scaled; [assumption |]. lia.
Qed.

(** [Math.round] gives the nearest integer, the upper one on a tie. *)
Lemma round_nearest (y : number) :
  binary64_mantissa y -> nearest_integer y (round y).
Proof.
  intros fits. unfold nearest_integer.
  destruct y as [s | s | | s m e]; cbn [is_finite round]; try reflexivity.
  { split; [reflexivity |]. exists 0. cbn. 
    split; [reflexivity |]. split; unfold Qle, Qlt; cbn; lia. }
  cbn [binary64_mantissa] in fits.
  destruct (Z.leb_spec 0 e) as [whole | fractional].
  { split; [reflexivity |].
    exists ((if s then Z.neg m else Z.pos m) * 2 ^ e).
    rewrite value_whole by assumption.
    split; [reflexivity |].
    split; unfold Qle, Qlt, Qminus, Qplus, Qopp, inject_Z; cbn [Qnum Qden];
      lia. }
  destruct e as [| p | p]; try lia.
  cbv zeta. cbn [Z.opp].
  set (d := 2 ^ Z.pos p).
  assert (two : 2 <= d).
  { subst d. change 2 with (2 ^ 1) at 1. apply Z.pow_le_mono_r; lia. }
  pose proof (Z.div_mod (Z.pos m) d ltac:(lia)) as split_m.
  pose proof (Z.mod_pos_bound (Z.pos m) d ltac:(lia)) as rest.
  assert (0 <= Z.pos m / d) by (apply Z.div_pos; lia).
  assert (Z.pos m / d < 2 ^ prec - 1).
  { apply Z.div_lt_upper_bound; [lia |]. unfold prec in *. nia. }
  set (q := Z.pos m / d) in *.
  set (r := Z.pos m mod d) in *.
  set (n := if s then if d <? 2 * r then q + 1 else q
            else if d <=? 2 * r then q + 1 else q).
  assert (range : 0 <= n < 2 ^ prec).
  { subst n. destruct s, (d <? 2 * r), (d <=? 2 * r); lia. }
  assert (near : (inject_Z (if s then - n else n) - (1 # 2) <=
                  value (S754_finite s m (Z.neg p)))%Q
                 /\ (value (S754_finite s m (Z.neg p)) <
                     inject_Z (if s then - n else n) + (1 # 2))%Q).
  { rewrite value_fraction.
    unfold Qle, Qlt, Qminus, Qplus, Qopp, inject_Z; cbn [Qnum Qden].
    rewrite Pos2Z.inj_pow. fold d.
    subst n. destruct s.
    - destruct (Z.ltb_spec d (2 * r)); split; nia.
    - destruct (Z.leb_spec d (2 * r)); split; nia. }
  destruct (Z.eqb_spec n 0) as [zero | nonzero].
  { split; [reflexivity |]. exists 0.
    split; [reflexivity |].
    rewrite zero in near. destruct s; exact near. }
  destruct (value_binary_normalize (if s then - n else n)) as [finite exact].
  { destruct s; lia. }
  split; [exact finite |].
  exists (if s then - n else n). split; [exact exact |]. exact near.
Qed.

End RoundingProperties.

(** ** The training job *)

Section TrainingProperties.

Context (tf : TfLib).

(** C8: while [isTraining] is set, [trainModel] resolves to
    [{ status: 'already_training' }] without throwing, and leaves the
    world as it found it: the flag stays set, the model is the same
    object state, and no effect, in particular no [fit] call, is
    performed.  Calling it again gives the same. *)
Theorem trainModel_already_training (w : World tf) :
  isTraining (forecastModel w) = true ->
  trainModel tf w = (Ok already_training, w)
  /\ isTraining (forecastModel (snd (trainModel tf w))) = true
  /\ model (forecastModel (snd (trainModel tf w))) = model (forecastModel w)
  /\ effects (snd (trainModel tf w)) = effects w
  /\ fits (snd (trainModel tf w)) = fits w
  /\ trainModel tf (snd (trainModel tf w)) = trainModel tf w.
Proof.
  intros busy.
  assert (E : trainModel tf w = (Ok already_training, w)).
  { unfold trainModel, bind, get_isTraining. rewrite busy. reflexivity. }
  rewrite E. cbn [snd]. rewrite E. repeat split; assumption.
Qed.

(** C2 (amended): [prepareTrainingData] keeps every record of the
    query, in order, whether or not its [actualDemand] is present: the
    i-th target is [[actualDemand]] of the i-th record (absent when the
    record has none) and its i-th feature row ends with
    [actualDemand ?? forecastedDemand]; the world is left unchanged. *)
Theorem prepareTrainingData_keeps_every_record
    (w : World tf) (recs : list Demand.t) :
  Demand_find w = Ok recs ->
  exists features targets,
    prepareTrainingData tf w = (Ok (features, targets), w)
    /\ List.length features = List.length recs
    /\ List.length targets = List.length recs
    /\ forall i r,
         nth_error recs i = Some r ->
         nth_error targets i = Some [Demand.actualDemand r]
         /\ nth_error features i =
              Some [Demand.temperature r; Demand.humidity r;
                    Demand.dayOfWeek r; Demand.hour r;
                    nullish (Demand.actualDemand r)
                            (Demand.forecastedDemand r)].
Proof.
  intros found.
  exists (map feature_row recs), (map target_row recs).
  repeat split.
  - unfold prepareTrainingData, bind, find_sorted, ret.
    rewrite found. reflexivity.
  - apply length_map.
  - apply length_map.
  - rewrite nth_error_map. now rewrite H.
  - rewrite nth_error_map. now rewrite H.
Qed.

(** What [trainModel] does on an idle job when the query returns fewer
    than 50 records. *)
Lemma trainModel_few_records (w : World tf) (recs : list Demand.t) :
  isTraining (forecastModel w) = false ->
  Demand_find w = Ok recs ->
  (List.length recs < 50)%nat ->
  trainModel tf w =
  (Throw (Error "Not enough data"),
   {| forecastModel := {| model := model (forecastModel w);
                          isTraining := false |};
      Demand_find := Demand_find w;
      drawn := drawn w;
      effects :=
        ConsoleError "❌ Training failed:" (Error "Not enough data")
          :: ConsoleLog "🔥 Starting model training..." :: effects w |}).
Proof.
  intros idle found few.
  destruct w as [[mdl busy] q k eff]; cbn in idle, found; subst.
  run. rewrite length_map.
  destruct (Nat.ltb_spec (List.length recs) 50) as [_ | enough]; [| lia].
  reflexivity.
Qed.

(** C4 (amended): started on an idle job, with fewer than 50 records in
    the collection (all records count, with or without [actualDemand]),
    [trainModel] throws [Error('Not enough data')]; when it does, the
    flag is back to [false], so that the next call is not turned away, the
    model is the one that was in place, and no [fit] has been called. *)
Theorem trainModel_not_enough_data (w : World tf) (recs : list Demand.t) :
  isTraining (forecastModel w) = false ->
  Demand_find w = Ok recs ->
  (List.length recs < 50)%nat ->
  exists w',
    trainModel tf w = (Throw (Error "Not enough data"), w')
    /\ isTraining (forecastModel w') = false
    /\ model (forecastModel w') = model (forecastModel w)
    /\ fits w' = fits w
    /\ fst (trainModel tf w') <> Ok already_training.
Proof.
  intros idle found few.
  eexists. split; [apply (trainModel_few_records w recs idle found few) |].
  repeat split.
  rewrite (trainModel_few_records _ recs); cbn; auto.
  discriminate.
Qed.

(** With at least 50 records and a [fit] that completes, [trainModel]
    resolves to [success] with the number of records, leaves the fitted
    model in place and the flag reset, and has called [fit] once. *)
Lemma trainModel_success (w : World tf) (recs : list Demand.t)
    (xs ys : Tensor tf) (fitted : Model tf) :
  isTraining (forecastModel w) = false ->
  Demand_find w = Ok recs ->
  (50 <= List.length recs)%nat ->
  tensor2d tf (map feature_row recs) = Ok xs ->
  tensor2d tf (map target_row recs) = Ok ys ->
  fit tf (sequential tf) xs ys = Fitted fitted ->
  exists w',
    trainModel tf w = (Ok (success (List.length recs) "tfjs_linear"), w')
    /\ isTraining (forecastModel w') = false
    /\ model (forecastModel w') = Some fitted
    /\ fits w' = S (fits w).
Proof.
  intros idle found enough Hxs Hys done.
  destruct w as [[mdl busy] q k eff]; cbn in idle, found; subst.
  eexists. split.
  - run. rewrite length_map.
    destruct (Nat.ltb_spec (List.length recs) 50) as [few | _]; [lia |].
    rewrite Hxs, Hys. cbn. rewrite done. reflexivity.
  - cbn. auto.
Qed.

(** When [fit] throws, the error is rethrown and the flag is reset; the
    model in place is the object built at line 64, as [fit] left it. *)
Lemma trainModel_fit_failure (w : World tf) (recs : list Demand.t)
    (xs ys : Tensor tf) (e : exn) (left_behind : Model tf) :
  isTraining (forecastModel w) = false ->
  Demand_find w = Ok recs ->
  (50 <= List.length recs)%nat ->
  tensor2d tf (map feature_row recs) = Ok xs ->
  tensor2d tf (map target_row recs) = Ok ys ->
  fit tf (sequential tf) xs ys = FitThrew e left_behind ->
  exists w',
    trainModel tf w = (Throw e, w')
    /\ isTraining (forecastModel w') = false
    /\ model (forecastModel w') = Some left_behind.
Proof.
  intros idle found enough Hxs Hys failed.
  destruct w as [[mdl busy] q k eff]; cbn in idle, found; subst.
  eexists. split.
  - run. rewrite length_map.
    destruct (Nat.ltb_spec (List.length recs) 50) as [few | _]; [lia |].
    rewrite Hxs, Hys. cbn. rewrite failed. reflexivity.
  - cbn. auto.
Qed.

(** A call that nothing interrupts does what the [async] function does
    when read from top to bottom. *)
Lemma run_alone_trainModel (w : World tf) :
  run_alone tf w = trainModel tf w.
Proof.
  destruct w as [[mdl busy] q k eff].
  destruct busy; [reflexivity |].
  destruct q as [recs | e]; [| reflexivity].
  run.
  destruct (List.length (map feature_row recs) <? 50)%nat; [reflexivity |].
  destruct (tensor2d tf (map feature_row recs)) as [xs | e]; [| reflexivity].
  destruct (tensor2d tf (map target_row recs)) as [ys | e]; [| reflexivity].
  cbn.
  destruct (fit tf (sequential tf) xs ys); reflexivity.
Qed.

End TrainingProperties.

(** ** The prediction generator *)

Section PredictionProperties.
Context (tf : TfLib).
Variable random : nat -> number.
Variable utcOffset : Z -> Z.

Lemma hour_count_done (m e : Z) : e <= m -> hour_count m e = 0%nat.
Proof.
  intros done. unfold hour_count, HOUR_MS.
  assert ((e - m + 3600000 - 1) / 3600000 <= 0).
  { apply Z.lt_succ_r. apply Z.div_lt_upper_bound; lia. }
  lia.
Qed.

Lemma hour_count_more (m e : Z) :
  m < e -> hour_count m e = S (hour_count (m + HOUR_MS) e).
Proof.
  intros more. unfold hour_count, HOUR_MS.
  replace (e - m + 3600000 - 1)
    with ((e - (m + 3600000) + 3600000 - 1) + 1 * 3600000) by lia.
  rewrite Z.div_add by lia.
  assert (0 <= (e - (m + 3600000) + 3600000 - 1) / 3600000).
  { apply Z.div_pos; lia. }
  lia.
Qed.

Lemma points_more (mdl : Model tf) (m : Z) (k n : nat) :
  points tf random utcOffset mdl m k (S n) =
  forecast_point tf random utcOffset mdl m k
    :: points tf random utcOffset mdl (m + HOUR_MS) (k + 3) n.
Proof.
  unfold points. cbn [seq map].
  f_equal.
  - f_equal; lia.
  - rewrite <- seq_shift, map_map. apply map_ext. intros i.
    f_equal; lia.
Qed.

Lemma loop_body_point (mdl : Model tf) (m : Z) (w : World tf) :
  loop_body tf random utcOffset mdl m w =
  (Ok (forecast_point tf random utcOffset mdl m (drawn w)),
   after_draws 3%nat w).
Proof.
  destruct w as [o q k eff].
  unfold loop_body, bind, Math_random, ret, after_draws, forecast_point.
  cbn [drawn forecastModel Demand_find effects].
  repeat f_equal; lia.
Qed.

Lemma after_draws_0 (w : World tf) : after_draws 0 w = w.
Proof.
  destruct w as [o q k eff]. unfold after_draws; cbn.
  rewrite Nat.add_0_r. reflexivity.
Qed.

Lemma after_draws_more (a b : nat) (w : World tf) :
  after_draws b (after_draws a w) = after_draws (a + b) w.
Proof.
  unfold after_draws; cbn. rewrite Nat.add_assoc. reflexivity.
Qed.

Lemma predict_loop_points (n : nat) :
  forall (mdl : Model tf) (e m : Z) (acc : list ForecastPoint.t)
         (w : World tf),
    hour_count m e = n ->
    predict_loop tf random utcOffset mdl e m acc w =
    (Ok (acc ++ points tf random utcOffset mdl m (drawn w) n),
     after_draws (3 * n) w).
Proof.
  induction n as [| n IH]; intros mdl e m acc w count; simp predict_loop;
    destruct (Z_lt_dec m e) as [more | done];
    cbn [predict_loop_clause_1 predict_loop_unfold_clause_1].
  - rewrite hour_count_more in count by assumption. discriminate.
  - unfold points. cbn [seq map Nat.mul]. rewrite app_nil_r, after_draws_0.
    reflexivity.
  - rewrite hour_count_more in count by assumption.
    injection count as count.
    rewrite loop_body_point.
    cbn [predict_loop_clause_1_clause_1 predict_loop_unfold_clause_1_clause_1].
    rewrite (IH mdl e (m + HOUR_MS) _ _ count).
    rewrite points_more, <- app_assoc, after_draws_more.
    replace (3 + 3 * n)%nat with (3 * S n)%nat by lia.
    reflexivity.
  - rewrite hour_count_done in count by lia. discriminate.
Qed.

Lemma hour_count_lt (i : nat) :
  forall s e, (i < hour_count s e)%nat <-> s + Z.of_nat i * HOUR_MS < e.
Proof.
  induction i as [| i IH]; intros s e;
    destruct (Z_lt_dec s e) as [more | done].
  - rewrite hour_count_more by assumption. lia.
  - rewrite hour_count_done by lia. unfold HOUR_MS. lia.
  - rewrite hour_count_more by assumption.
    specialize (IH (s + HOUR_MS) e). unfold HOUR_MS in *. lia.
  - rewrite hour_count_done by lia. unfold HOUR_MS. lia.
Qed.

Lemma in_hours (s e t : Z) :
  In t (hours s e) <-> s <= t < e /\ (t - s) mod HOUR_MS = 0.
Proof.
  unfold hours. rewrite in_map_iff. split.
  - intros (i & <- & range). apply in_seq in range.
    assert (inside : (i < hour_count s e)%nat) by lia.
    apply hour_count_lt in inside.
    replace (s + Z.of_nat i * HOUR_MS - s) with (Z.of_nat i * HOUR_MS) by lia.
    rewrite Z.mod_mul by (unfold HOUR_MS; lia).
    unfold HOUR_MS in *. lia.
  - intros ((lo & hi) & aligned).
    apply Z.div_exact in aligned; [| unfold HOUR_MS; lia].
    assert (0 <= (t - s) / HOUR_MS) by (apply Z.div_pos; unfold HOUR_MS; lia).
    exists (Z.to_nat ((t - s) / HOUR_MS)).
    assert (at_i : s + Z.of_nat (Z.to_nat ((t - s) / HOUR_MS)) * HOUR_MS = t).
    { rewrite Z2Nat.id by assumption. lia. }
    split; [exact at_i |].
    apply in_seq. split; [lia |]. cbn.
    apply hour_count_lt. rewrite at_i. exact hi.
Qed.

Lemma timestamps_points (mdl : Model tf) (s : Z) (k n : nat) :
  map ForecastPoint.timestamp (points tf random utcOffset mdl s k n) =
  map (fun i => s + Z.of_nat i * HOUR_MS) (seq 0 n).
Proof. unfold points. rewrite map_map. reflexivity. Qed.

Lemma nth_error_points (mdl : Model tf) (s : Z) (k n i : nat)
    (p : ForecastPoint.t) :
  nth_error (points tf random utcOffset mdl s k n) i = Some p ->
  p = forecast_point tf random utcOffset mdl
        (s + Z.of_nat i * HOUR_MS) (k + 3 * i).
Proof.
  unfold points. rewrite nth_error_map, nth_error_seq.
  destruct (i <? n)%nat; cbn; congruence.
Qed.

(** What [predict] does once a model is in place and both moments are
    valid. *)
Lemma predict_trained (w : World tf) (mdl : Model tf) (stationId : string)
    (s e : Z) :
  model (forecastModel w) = Some mdl ->
  predict tf random utcOffset stationId (Some s) (Some e) w =
  (Ok (points tf random utcOffset mdl s (drawn w) (hour_count s e)),
   after_draws (3 * hour_count s e) w).
Proof.
  intros trained.
  unfold predict, bind, get_model. rewrite trained.
  apply (predict_loop_points (hour_count s e) mdl e s [] w eq_refl).
Qed.

(** And before any model is in place: the only thing that happens is the
    throw of line 81. *)
Lemma predict_untrained (w : World tf) (stationId : string)
    (startDate endDate : moment) :
  model (forecastModel w) = None ->
  predict tf random utcOffset stationId startDate endDate w =
  (Throw (Error "Model not trained"), w).
Proof.
  intros untrained. unfold predict, bind, get_model. rewrite untrained.
  reflexivity.
Qed.

(** C5: with a model in place, [predict] returns one point per hour of
    the grid that starts at [start] (included) and stops before [end]:
    the timestamps are exactly the instants [start + i h] below [end], in
    ascending order; the result is empty, not an error, when [start] is
    not before [end]; a three-hour range gives the three points at
    [t0], [t0 + 1h], [t0 + 2h]; each point carries the forecast rounded
    with [Math.round(x * 100) / 100], the temperature with
    [Math.round(x * 10) / 10] and the humidity with [Math.round].  The
    reported forecast is the binary64 quotient by 100 of the integer
    nearest to the binary64 product of the model's output by 100, the
    reported temperature the quotient by 10 of the integer nearest to ten
    times the temperature, and the reported humidity the integer nearest
    to the humidity, the upper integer being taken halfway between two
    (products and quotients are those of the Standard Library's
    [SFmul] and [SFdiv], 100 and 10 the binary64 numbers written out);
    so a forecast of 42.567 is reported as 42.57. *)
Theorem predict_hourly_grid (w : World tf) (mdl : Model tf)
    (stationId : string) (s e : Z) :
  model (forecastModel w) = Some mdl ->
  exists pts w',
    predict tf random utcOffset stationId (Some s) (Some e) w = (Ok pts, w')
    /\ forecastModel w' = forecastModel w
    /\ map ForecastPoint.timestamp pts = hours s e
    /\ (forall t, In t (map ForecastPoint.timestamp pts) <->
                  s <= t < e /\ (t - s) mod HOUR_MS = 0)
    /\ (forall i t, nth_error (map ForecastPoint.timestamp pts) i = Some t ->
                    t = s + Z.of_nat i * HOUR_MS)
    /\ (e <= s -> pts = [])
    /\ (e = s + 3 * HOUR_MS ->
        map ForecastPoint.timestamp pts = [s; s + HOUR_MS; s + 2 * HOUR_MS])
    /\ (forall i p,
          nth_error pts i = Some p ->
          let t := s + Z.of_nat i * HOUR_MS in
          let k := (drawn w + 3 * i)%nat in
          let temp := add (of_Z 30) (mul (random k) (of_Z 5)) in
          let humidity := add (of_Z 40) (mul (random (k + 1)) (of_Z 10)) in
          let lastDemand :=
            add (of_Z 100) (mul (random (k + 2)) (of_Z 50)) in
          ForecastPoint.timestamp p = t
          /\ ForecastPoint.forecastedDemand p =
               round_to 2
                 (model_predict tf mdl
                    [temp; humidity; of_Z (day utcOffset t);
                     of_Z (hour utcOffset t); lastDemand])
          /\ ForecastPoint.temperature p = round_to 1 temp
          /\ ForecastPoint.humidity p = round humidity
          /\ (is_finite (ForecastPoint.humidity p) = true ->
              integral (ForecastPoint.humidity p) = true)
          /\ (exists hundredths tenths,
                ForecastPoint.forecastedDemand p =
                  div hundredths (of_Z 100)
                /\ ForecastPoint.temperature p = div tenths (of_Z 10)
                /\ (is_finite hundredths = true ->
                    integral hundredths = true)
                /\ (is_finite tenths = true -> integral tenths = true))
          /\ ForecastPoint.hour p = hour utcOffset t
          /\ ForecastPoint.dayOfWeek p = day utcOffset t
          /\ (exists hundredths tenths,
                ForecastPoint.forecastedDemand p =
                  SFdiv 53 1024 hundredths (of_Z 100)
                /\ nearest_integer
                     (SFmul 53 1024
                        (model_predict tf mdl
                           [temp; humidity; of_Z (day utcOffset t);
                            of_Z (hour utcOffset t); lastDemand])
                        (of_Z 100))
                     hundredths
                /\ ForecastPoint.temperature p =
                     SFdiv 53 1024 tenths (of_Z 10)
                /\ nearest_integer (SFmul 53 1024 temp (of_Z 10)) tenths)
          /\ nearest_integer humidity (ForecastPoint.humidity p))
    /\ round_to 2 (decimal 42567 3) = decimal 4257 2
    /\ of_Z 100 = S754_finite false 7036874417766400 (-46)
    /\ of_Z 10 = S754_finite false 5629499534213120 (-49).
Proof.
  intros trained.
  rewrite (predict_trained w mdl stationId s e trained).
  do 2 eexists. split; [reflexivity |].
  rewrite timestamps_points. fold (hours s e).
  split; [reflexivity |].
  split; [reflexivity |].
  split; [apply in_hours |].
  split.
  { intros i t. unfold hours. rewrite nth_error_map, nth_error_seq.
    destruct (i <? hour_count s e)%nat; cbn; congruence. }
  split.
  { intros inverted. rewrite hour_count_done by assumption. reflexivity. }
  split.
  { intros ->. unfold hours.
    rewrite hour_count_more by (unfold HOUR_MS; lia).
    rewrite hour_count_more by (unfold HOUR_MS; lia).
    rewrite hour_count_more by (unfold HOUR_MS; lia).
    rewrite hour_count_done by (unfold HOUR_MS; lia).
    cbn [seq map]. repeat f_equal; unfold HOUR_MS; lia. }
  split.
  { intros i p at_i. apply nth_error_points in at_i. subst p.
    cbv zeta. unfold forecast_point.
    cbn [ForecastPoint.timestamp ForecastPoint.forecastedDemand
         ForecastPoint.temperature ForecastPoint.humidity
         ForecastPoint.hour ForecastPoint.dayOfWeek].
    repeat (split; [reflexivity |]).
    split; [apply round_integral |].
    split.
    { do 2 eexists.
      split; [unfold round_to; reflexivity |].
      split; [unfold round_to; reflexivity |].
      split; apply round_integral. }
    split; [reflexivity |]. split; [reflexivity |].
    split.
    { do 2 eexists.
      split; [unfold round_to; reflexivity |].
      split; [apply round_nearest, mul_mantissa |].
      split; [unfold round_to; reflexivity |].
      apply round_nearest, mul_mantissa. }
    apply round_nearest, add_mantissa; [| apply mul_mantissa].
    apply binary_normalize_mantissa. }
  split; [vm_compute; reflexivity |].
  split; vm_compute; reflexivity.
Qed.

(** The points depend on the world only through the model in place and
    the values [Math.random()] returns, and not on [stationId]. *)
Lemma predict_same_points (w1 w2 : World tf) (mdl : Model tf)
    (stationId1 stationId2 : string) (startDate endDate : moment) :
  model (forecastModel w1) = Some mdl ->
  model (forecastModel w2) = Some mdl ->
  (forall j, (j < draws startDate endDate)%nat ->
             random (drawn w1 + j) = random (drawn w2 + j)) ->
  fst (predict tf random utcOffset stationId1 startDate endDate w1) =
  fst (predict tf random utcOffset stationId2 startDate endDate w2).
Proof.
  intros trained1 trained2 same.
  destruct startDate as [s |], endDate as [e |];
    try (unfold predict, bind, get_model;
         rewrite trained1, trained2; reflexivity).
  rewrite (predict_trained w1 mdl stationId1 s e trained1).
  rewrite (predict_trained w2 mdl stationId2 s e trained2).
  cbn [fst]. f_equal. unfold points.
  apply map_ext_in. intros i range. apply in_seq in range.
  cbn [draws] in same.
  unfold forecast_point.
  rewrite <- !Nat.add_assoc.
  rewrite !(same (3 * i)%nat), !(same (3 * i + 1)%nat),
    !(same (3 * i + 2)%nat) by lia.
  reflexivity.
Qed.

(** C7: two [predict] calls with the same arguments, made with the same
    model in place and fed the same values by [Math.random()], return the
    same sequence of points. *)
Theorem predict_reproducible (w1 w2 : World tf) (mdl : Model tf)
    (stationId : string) (startDate endDate : moment) :
  model (forecastModel w1) = Some mdl ->
  model (forecastModel w2) = Some mdl ->
  (forall j, (j < draws startDate endDate)%nat ->
             random (drawn w1 + j) = random (drawn w2 + j)) ->
  fst (predict tf random utcOffset stationId startDate endDate w1) =
  fst (predict tf random utcOffset stationId startDate endDate w2).
Proof. apply predict_same_points. Qed.

(** C10: [predict] does not read [stationId]: with the same model in
    place and the same values from [Math.random()], calls for any two
    station ids return the same sequence of points; made in the same
    world they also leave the same world. *)
Theorem predict_ignores_stationId (w1 w2 : World tf) (mdl : Model tf)
    (stationId1 stationId2 : string) (startDate endDate : moment) :
  model (forecastModel w1) = Some mdl ->
  model (forecastModel w2) = Some mdl ->
  (forall j, (j < draws startDate endDate)%nat ->
             random (drawn w1 + j) = random (drawn w2 + j)) ->
  fst (predict tf random utcOffset stationId1 startDate endDate w1) =
  fst (predict tf random utcOffset stationId2 startDate endDate w2)
  /\ predict tf random utcOffset stationId1 startDate endDate w1 =
     predict tf random utcOffset stationId2 startDate endDate w1.
Proof.
  intros trained1 trained2 same. split.
  - exact (predict_same_points w1 w2 mdl stationId1 stationId2
             startDate endDate trained1 trained2 same).
  - reflexivity.
Qed.

End PredictionProperties.

(** ** Interleaved training calls *)

Section InterleavingProperties.
Context (tf : TfLib).
Variable random : nat -> number.
Variable utcOffset : Z -> Z.


(** Replacing one call changes a count by what that call contributes. *)
Lemma count_set_nth (p : call tf -> bool) (l : list (call tf)) :
  forall (i : nat) (c c' : call tf),
    nth_error l i = Some c ->
    (count p (set_nth i c' l) + Nat.b2n (p c) =
     count p l + Nat.b2n (p c'))%nat.
Proof.
  unfold count.
  induction l as [| x l IH]; intros [| i] c c' at_i; cbn in at_i;
    try discriminate.
  - injection at_i as ->. cbn. destruct (p c), (p c'); cbn; lia.
  - specialize (IH i c c' at_i). cbn. destruct (p x); cbn; lia.
Qed.

Lemma count_member (p : call tf -> bool) (l : list (call tf)) (i : nat)
    (c : call tf) :
  nth_error l i = Some c -> p c = true -> (1 <= count p l)%nat.
Proof.
  intros at_i holds. unfold count.
  assert (inside : In c (filter p l)).
  { apply filter_In. split; [eapply nth_error_In; eassumption | assumption]. }
  destruct (filter p l); [contradiction | cbn; lia].
Qed.

Lemma count_repeat_NotStarted (p : call tf -> bool) (n : nat) :
  p NotStarted = false -> count p (repeat NotStarted n) = 0%nat.
Proof.
  intros out. unfold count.
  induction n as [| n IH]; cbn; [reflexivity |]. rewrite out. exact IH.
Qed.

(** What one resumption does to the flag and to the number of [fit]
    calls, in terms of where the call stood and where it stands. *)
Lemma resume_accounts (c c' : call tf) (w w' : World tf) :
  resume tf c w = (Ok c', w') ->
  settled c = false ->
  (in_flight c = true -> isTraining (forecastModel w) = true) ->
  (Nat.b2n (isTraining (forecastModel w')) + Nat.b2n (in_flight c) =
   Nat.b2n (isTraining (forecastModel w)) + Nat.b2n (in_flight c'))%nat
  /\ (fits w' + Nat.b2n (may_have_fitted c) <=
      fits w + Nat.b2n (may_have_fitted c'))%nat
  /\ (fits w + Nat.b2n (fitting c' || succeeded c') <=
      fits w' + Nat.b2n (fitting c || succeeded c))%nat.
Proof.
  intros resumed pending held.
  destruct w as [[mdl busy] q k eff].
  destruct c as [| | ft | rows xs ys | r]; cbn in pending, held;
    try discriminate; revert resumed; run.
  - destruct busy; intros [= <- <-]; cbn; lia.
  - destruct q; intros [= <- <-]; cbn; lia.
  - rewrite held by reflexivity.
    destruct ft as [[features targets] | e].
    + destruct (List.length features <? 50)%nat.
      { intros [= <- <-]; cbn; lia. }
      destruct (tensor2d tf features); [| intros [= <- <-]; cbn; lia].
      destruct (tensor2d tf targets); intros [= <- <-]; cbn; lia.
    + intros [= <- <-]; cbn; lia.
  - rewrite held by reflexivity.
    destruct mdl as [m |]; [| intros [= <- <-]; cbn; lia].
    destruct (fit tf m xs ys); intros [= <- <-]; cbn; lia.
Qed.

(** Resuming a pending call never throws and brings it closer to its
    end. *)
Lemma resume_advances (c : call tf) (w : World tf) :
  settled c = false ->
  exists c' w',
    resume tf c w = (Ok c', w') /\ (remaining c' < remaining c)%nat.
Proof.
  intros pending.
  destruct w as [[mdl busy] q k eff].
  destruct c as [| | [[features targets] | e] | rows xs ys | r];
    try discriminate; run.
  - destruct busy; do 2 eexists; split; try reflexivity; cbn; lia.
  - destruct q; do 2 eexists; split; try reflexivity; cbn; lia.
  - destruct (List.length features <? 50)%nat;
      [do 2 eexists; split; [reflexivity | cbn; lia] |].
    destruct (tensor2d tf features);
      [| do 2 eexists; split; [reflexivity | cbn; lia]].
    destruct (tensor2d tf targets);
      do 2 eexists; split; try reflexivity; cbn; lia.
  - do 2 eexists; split; [reflexivity | cbn; lia].
  - destruct mdl as [m |];
      [| do 2 eexists; split; [reflexivity | cbn; lia]].
    destruct (fit tf m xs ys);
      do 2 eexists; split; try reflexivity; cbn; lia.
Qed.

(** Executions compose. *)
Lemma reachable_trans (s0 s s' : System tf) :
  reachable tf random utcOffset s0 s ->
  reachable tf random utcOffset s s' ->
  reachable tf random utcOffset s0 s'.
Proof.
  intros first second.
  induction second as [| s1 s2 second IH next]; [exact first |].
  eapply reachable_step; eassumption.
Qed.

Lemma length_set_nth {A : Type} (x : A) (l : list A) :
  forall i, List.length (set_nth i x l) = List.length l.
Proof.
  induction l as [| y l IH]; intros [| i]; cbn; try reflexivity.
  rewrite IH. reflexivity.
Qed.

Lemma nth_error_set_nth_other {A : Type} (x : A) (l : list A) :
  forall i j, i <> j -> nth_error (set_nth j x l) i = nth_error l i.
Proof.
  induction l as [| y l IH]; intros [| i] [| j] apart; cbn;
    try reflexivity; try contradiction.
  apply IH. intros same. apply apart. rewrite same. reflexivity.
Qed.

Lemma Forall_set_nth {A : Type} (P : A -> Prop) (x : A) (l : list A) :
  Forall P l -> P x -> forall i, Forall P (set_nth i x l).
Proof.
  intros all here.
  induction all as [| y l first rest IH]; intros [| i]; cbn; auto.
Qed.

Lemma count_le (p q : call tf -> bool) (l : list (call tf)) :
  (forall c, p c = true -> q c = true) -> (count p l <= count q l)%nat.
Proof.
  intros weaker. unfold count.
  induction l as [| c l IH]; cbn; [lia |].
  pose proof (weaker c) as here.
  destruct (p c), (q c); cbn; lia.
Qed.

Lemma outstanding_set_nth (l : list (call tf)) :
  forall (i : nat) (c c' : call tf),
    nth_error l i = Some c ->
    (outstanding (set_nth i c' l) + remaining c =
     outstanding l + remaining c')%nat.
Proof.
  unfold outstanding.
  induction l as [| x l IH]; intros [| i] c c' at_i; cbn in at_i;
    try discriminate.
  - injection at_i as ->. cbn. lia.
  - specialize (IH i c c' at_i). unfold list_sum in *. cbn. lia.
Qed.

(** While a resumption is outstanding some call is pending, and when
    none is every call has settled. *)
Lemma pending_call (l : list (call tf)) :
  (0 < outstanding l)%nat ->
  exists i c, nth_error l i = Some c /\ settled c = false.
Proof.
  unfold outstanding, list_sum.
  induction l as [| x l IH]; cbn; [lia |].
  intros some.
  destruct (settled x) eqn:done.
  - destruct x; try discriminate. cbn in some.
    destruct (IH some) as (i & c & at_i & pending).
    exists (S i), c. auto.
  - exists 0%nat, x. auto.
Qed.

Lemma all_settled (l : list (call tf)) :
  outstanding l = 0%nat -> forall c, In c l -> settled c = true.
Proof.
  unfold outstanding, list_sum.
  induction l as [| x l IH]; cbn; [contradiction |].
  intros none c [<- | inside].
  - destruct x; cbn in none; try lia. reflexivity.
  - apply IH; [lia | exact inside].
Qed.

(** The requests stay as many, and a call that has settled stays as it
    is. *)
Lemma settled_calls_stay (s s' : System tf) :
  reachable tf random utcOffset s s' ->
  List.length (calls s') = List.length (calls s)
  /\ forall i c,
       nth_error (calls s) i = Some c ->
       settled c = true ->
       nth_error (calls s') i = Some c.
Proof.
  intros reach.
  induction reach as [| s1 s2 reach (same & stay) next]; [auto |].
  destruct next as [j c1 c2 w' at_j pending resumed
                   | stationId startDate endDate r w' served
                   | r w' served]; cbn [calls]; auto.
  split; [rewrite length_set_nth; exact same |].
  intros i c at_i done.
  specialize (stay i c at_i done).
  rewrite nth_error_set_nth_other; [exact stay |].
  intros ->. congruence.
Qed.

(** Every execution can be continued until all calls have settled. *)
Lemma run_to_completion (k : nat) :
  forall s : System tf,
    (outstanding (calls s) <= k)%nat ->
    exists s',
      reachable tf random utcOffset s s' /\ outstanding (calls s') = 0%nat.
Proof.
  induction k as [| k IH]; intros s bound.
  - exists s. split; [apply reachable_init | lia].
  - destruct (Nat.eq_dec (outstanding (calls s)) 0) as [none | some].
    { exists s. split; [apply reachable_init | exact none]. }
    destruct (pending_call (calls s)) as (i & c & at_i & pending); [lia |].
    destruct (resume_advances c (world s) pending)
      as (c' & w' & ran & closer).
    pose proof (outstanding_set_nth (calls s) i c c' at_i) as moved.
    destruct (IH {| world := w'; calls := set_nth i c' (calls s) |})
      as (s' & reach & none).
    { cbn [calls]. lia. }
    exists s'. split; [| exact none].
    eapply reachable_trans; [| exact reach].
    eapply reachable_step; [apply reachable_init |].
    exact (step_resume tf random utcOffset s i c c' w' at_i pending ran).
Qed.

(** Serving a prediction or a performance request touches neither the
    singleton nor the effects. *)
Lemma predict_leaves_model (stationId : string) (startDate endDate : moment)
    (w w' : World tf) (r : outcome (list ForecastPoint.t)) :
  predict tf random utcOffset stationId startDate endDate w = (r, w') ->
  forecastModel w' = forecastModel w /\ effects w' = effects w.
Proof.
  destruct (model (forecastModel w)) as [mdl |] eqn:in_place.
  - destruct startDate as [s |], endDate as [e |];
      try (unfold predict, bind, get_model; rewrite in_place;
           intros [= <- <-]; auto).
    rewrite (predict_trained tf random utcOffset w mdl stationId s e in_place).
    intros [= <- <-]. auto.
  - rewrite (predict_untrained tf random utcOffset w stationId startDate
               endDate in_place).
    intros [= <- <-]. auto.
Qed.

Lemma model_performance_leaves_world (w w' : World tf)
    (r : outcome (response Performance)) :
  model_performance tf w = (r, w') -> w' = w.
Proof.
  unfold model_performance, try_catch, bind, find_sorted, get_model, ret.
  destruct (Demand_find w); intros [= <- <-]; reflexivity.
Qed.

Lemma guard_invariant_reachable (w0 : World tf) (n : nat) (s : System tf) :
  isTraining (forecastModel w0) = false ->
  reachable tf random utcOffset (init w0 n) s ->
  guard_invariant w0 s.
Proof.
  intros idle reach.
  induction reach as [| s s' reach (guard & upper & lower) next].
  - unfold guard_invariant, init; cbn [world calls].
    rewrite !count_repeat_NotStarted by reflexivity. rewrite idle. cbn. lia.
  - destruct next as [i c c' w' at_i pending resumed
                     | stationId startDate endDate r w' served
                     | r w' served];
      unfold guard_invariant; cbn [world calls].
    + assert (held : in_flight c = true ->
                     isTraining (forecastModel (world s)) = true).
      { intros flying.
        pose proof (count_member _ _ _ _ at_i flying) as some.
        rewrite guard in some.
        destruct (isTraining (forecastModel (world s)));
          [reflexivity | cbn in some; lia]. }
      destruct (resume_accounts c c' (world s) w' resumed pending held)
        as (flag & up & low).
      pose proof (count_set_nth (in_flight) _ i c c' at_i).
      pose proof (count_set_nth (may_have_fitted) _ i c c' at_i).
      pose proof (count_set_nth
                    (fun c => fitting c || succeeded c) _ i c c' at_i).
      cbv beta in *. lia.
    + apply predict_leaves_model in served. destruct served as [same eff].
      unfold fits. rewrite same, eff. auto.
    + apply model_performance_leaves_world in served. subst w'. auto.
Qed.

(** Past the guard a call stays past it, and a call is turned away only
    while the flag is set. *)
Lemma resume_passes (c c' : call tf) (w w' : World tf) :
  resume tf c w = (Ok c', w') ->
  settled c = false ->
  (passed_guard c = true -> passed_guard c' = true)
  /\ (turned_away c' = true -> isTraining (forecastModel w) = true).
Proof.
  intros resumed pending.
  destruct w as [[mdl busy] q k eff].
  destruct c as [| | ft | rows xs ys | r]; cbn in pending;
    try discriminate; revert resumed; run.
  - destruct busy; intros [= <- <-]; cbn; split; intros; auto;
      discriminate.
  - destruct q; intros [= <- <-]; cbn; split; intros; auto; discriminate.
  - destruct ft as [[features targets] | e].
    + destruct (List.length features <? 50)%nat.
      { intros [= <- <-]; cbn; split; intros; auto; discriminate. }
      destruct (tensor2d tf features);
        [| intros [= <- <-]; cbn; split; intros; auto; discriminate].
      destruct (tensor2d tf targets); intros [= <- <-]; cbn; split; intros;
        auto; discriminate.
    + intros [= <- <-]; cbn; split; intros; auto; discriminate.
  - destruct mdl as [m |];
      [| intros [= <- <-]; cbn; split; intros; auto; discriminate].
    destruct (fit tf m xs ys); intros [= <- <-]; cbn; split; intros; auto;
      discriminate.
Qed.

(** A call has been turned away only if some call has passed the
    guard. *)
Lemma turned_away_reachable (w0 : World tf) (n : nat) (s : System tf) :
  isTraining (forecastModel w0) = false ->
  reachable tf random utcOffset (init w0 n) s ->
  (1 <= count turned_away (calls s))%nat ->
  (1 <= count passed_guard (calls s))%nat.
Proof.
  intros idle reach.
  induction reach as [| s s' reach IH next].
  - unfold init; cbn [calls].
    rewrite count_repeat_NotStarted by reflexivity. lia.
  - pose proof (guard_invariant_reachable w0 n s idle reach) as (guard & _).
    destruct next as [i c c' w' at_i pending resumed
                     | stationId startDate endDate r w' served
                     | r w' served]; cbn [calls]; auto.
    destruct (resume_passes c c' (world s) w' resumed pending)
      as (keeps & turned).
    pose proof (count_set_nth turned_away _ i c c' at_i) as moved_t.
    pose proof (count_set_nth passed_guard _ i c c' at_i) as moved_p.
    assert (flying : (count in_flight (calls s) <=
                      count passed_guard (calls s))%nat).
    { apply count_le. intros x fl. unfold passed_guard. rewrite fl.
      reflexivity. }
    assert (not_yet : turned_away c = false).
    { destruct c; try reflexivity. discriminate pending. }
    rewrite not_yet in moved_t.
    destruct (turned_away c') eqn:refused.
    + rewrite (turned eq_refl) in guard.
      assert (out : passed_guard c' = false).
      { destruct c' as [| | | | [[] |]]; try discriminate refused.
        reflexivity. }
      destruct (passed_guard c) eqn:past;
        [rewrite (keeps eq_refl) in out; discriminate out |].
      rewrite out in moved_p. cbn in guard, moved_p, moved_t. lia.
    + destruct (passed_guard c) eqn:past.
      * rewrite (keeps eq_refl) in moved_p. cbn in moved_p, moved_t. lia.
      * cbn in moved_p, moved_t. destruct (passed_guard c'); cbn in *; lia.
Qed.

Lemma predict_leaves_collection (stationId : string)
    (startDate endDate : moment) (w w' : World tf)
    (r : outcome (list ForecastPoint.t)) :
  predict tf random utcOffset stationId startDate endDate w = (r, w') ->
  Demand_find w' = Demand_find w.
Proof.
  destruct (model (forecastModel w)) as [mdl |] eqn:in_place.
  - destruct startDate as [s |], endDate as [e |];
      try (unfold predict, bind, get_model; rewrite in_place;
           intros [= <- <-]; auto).
    rewrite (predict_trained tf random utcOffset w mdl stationId s e in_place).
    intros [= <- <-]. auto.
  - rewrite (predict_untrained tf random utcOffset w stationId startDate
               endDate in_place).
    intros [= <- <-]. auto.
Qed.

(** With at least 50 records from which both tensors can be built, a
    call that settles otherwise than by [already_training] has called
    [fit]. *)
Lemma resume_fits_with_data (recs : list Demand.t) (xs ys : Tensor tf)
    (c c' : call tf) (w w' : World tf) :
  (50 <= List.length recs)%nat ->
  tensor2d tf (map feature_row recs) = Ok xs ->
  tensor2d tf (map target_row recs) = Ok ys ->
  Demand_find w = Ok recs ->
  holds_rows recs c ->
  settled c = false ->
  resume tf c w = (Ok c', w') ->
  Demand_find w' = Ok recs
  /\ holds_rows recs c'
  /\ (fits w + Nat.b2n (may_have_fitted c') <=
      fits w' + Nat.b2n (may_have_fitted c))%nat.
Proof.
  intros enough built_xs built_ys found rows pending resumed.
  destruct w as [[mdl busy] q k eff]. cbn in found. subst q.
  destruct c as [| | ft | rows_ xs_ ys_ | r]; cbn in pending, rows;
    try discriminate; revert resumed; run.
  - destruct busy; intros [= <- <-]; cbn; repeat split; lia.
  - intros [= <- <-]; cbn; repeat split; lia.
  - subst ft. rewrite length_map.
    destruct (Nat.ltb_spec (List.length recs) 50) as [few |]; [lia |].
    rewrite built_xs, built_ys. cbn.
    intros [= <- <-]. unfold fits; cbn. repeat split; lia.
  - destruct mdl as [m |];
      [| intros [= <- <-]; unfold fits; cbn; repeat split; lia].
    destruct (fit tf m xs_ ys_); intros [= <- <-]; unfold fits; cbn;
      repeat split; lia.
Qed.

Lemma data_invariant_reachable (w0 : World tf) (n : nat) (s : System tf)
    (recs : list Demand.t) (xs ys : Tensor tf) :
  (50 <= List.length recs)%nat ->
  tensor2d tf (map feature_row recs) = Ok xs ->
  tensor2d tf (map target_row recs) = Ok ys ->
  Demand_find w0 = Ok recs ->
  reachable tf random utcOffset (init w0 n) s ->
  Demand_find (world s) = Ok recs
  /\ Forall (holds_rows recs) (calls s)
  /\ (fits w0 + count may_have_fitted (calls s) <= fits (world s))%nat.
Proof.
  intros enough built_xs built_ys found reach.
  induction reach as [| s s' reach (same & rows & lower) next].
  - unfold init; cbn [world calls].
    rewrite count_repeat_NotStarted by reflexivity.
    split; [exact found |]. split; [| lia].
    apply Forall_forall. intros c inside. apply repeat_spec in inside.
    subst c. exact I.
  - destruct next as [i c c' w' at_i pending resumed
                     | stationId startDate endDate r w' served
                     | r w' served]; cbn [world calls].
    + assert (here : holds_rows recs c).
      { rewrite Forall_forall in rows. apply rows.
        eapply nth_error_In. exact at_i. }
      destruct (resume_fits_with_data recs xs ys c c' (world s) w'
                  enough built_xs built_ys same here pending resumed)
        as (same' & here' & more).
      pose proof (count_set_nth may_have_fitted _ i c c' at_i).
      split; [exact same' |].
      split; [apply Forall_set_nth; assumption | lia].
    + pose proof (predict_leaves_collection _ _ _ _ _ _ served) as kept.
      apply predict_leaves_model in served. destruct served as [_ eff].
      unfold fits in *. rewrite kept, eff. auto.
    + apply model_performance_leaves_world in served. subst w'. auto.
Qed.

(** With fewer than 50 records no call gets as far as [fit]. *)
Lemma resume_without_data (recs : list Demand.t) (c c' : call tf)
    (w w' : World tf) :
  (List.length recs < 50)%nat ->
  Demand_find w = Ok recs ->
  holds_rows recs c /\ fitting c = false ->
  settled c = false ->
  resume tf c w = (Ok c', w') ->
  Demand_find w' = Ok recs
  /\ (holds_rows recs c' /\ fitting c' = false)
  /\ fits w' = fits w.
Proof.
  intros few found (rows & waiting) pending resumed.
  destruct w as [[mdl busy] q k eff]. cbn in found. subst q.
  destruct c as [| | ft | rows_ xs_ ys_ | r]; cbn in pending, rows, waiting;
    try discriminate; revert resumed; run.
  - destruct busy; intros [= <- <-]; cbn; auto.
  - intros [= <- <-]; cbn; auto.
  - subst ft. rewrite length_map.
    destruct (Nat.ltb_spec (List.length recs) 50) as [_ |]; [| lia].
    intros [= <- <-]. unfold fits; cbn. auto.
Qed.

Lemma no_fit_without_data (w0 : World tf) (n : nat) (s : System tf)
    (recs : list Demand.t) :
  (List.length recs < 50)%nat ->
  Demand_find w0 = Ok recs ->
  reachable tf random utcOffset (init w0 n) s ->
  Demand_find (world s) = Ok recs
  /\ Forall (fun c => holds_rows recs c /\ fitting c = false) (calls s)
  /\ fits (world s) = fits w0.
Proof.
  intros few found reach.
  induction reach as [| s s' reach (same & rows & none) next].
  - unfold init; cbn [world calls].
    split; [exact found |]. split; [| reflexivity].
    apply Forall_forall. intros c inside. apply repeat_spec in inside.
    subst c. split; [exact I | reflexivity].
  - destruct next as [i c c' w' at_i pending resumed
                     | stationId startDate endDate r w' served
                     | r w' served]; cbn [world calls].
    + assert (here : holds_rows recs c /\ fitting c = false).
      { rewrite Forall_forall in rows. apply rows.
        eapply nth_error_In. exact at_i. }
      destruct (resume_without_data recs c c' (world s) w'
                  few same here pending resumed)
        as (same' & here' & still).
      split; [exact same' |].
      split; [apply Forall_set_nth; assumption | congruence].
    + pose proof (predict_leaves_collection _ _ _ _ _ _ served) as kept.
      apply predict_leaves_model in served. destruct served as [_ eff].
      unfold fits in *. rewrite kept, eff. auto.
    + apply model_performance_leaves_world in served. subst w'. auto.
Qed.

(** Of two calls that have settled, one of them turned away, the other
    was not, and it alone may have called [fit]. *)
Lemma two_settled_calls (a b : call tf) :
  settled a = true ->
  settled b = true ->
  (1 <= count turned_away [a; b])%nat ->
  (1 <= count passed_guard [a; b])%nat ->
  turned_away a = negb (turned_away b)
  /\ count may_have_fitted [a; b] = 1%nat.
Proof.
  destruct a as [| | | | [[] |]], b as [| | | | [[] |]];
    try discriminate; unfold count; cbn; intros; auto; lia.
Qed.

(** C9: in every execution in which [trainModel] calls interleave
    (with each other and with other requests) from an idle server, at
    most one call is past the guard, so two calls never run [fit]
    together; the flag is set exactly while such a call exists; the
    check and the set of lines 54-55 fall in one uninterrupted step, so a
    call that starts while another is past the guard resolves to
    [already_training] and leaves the world as it was; and the [fit]
    calls made are those of the calls that passed the guard.  Of two
    calls one of which was turned away, the other was not; at most one
    has called [fit], and exactly one if the other has succeeded; the
    execution can be continued until both have settled, with at most one
    [fit] call made; and once both have settled exactly one [fit] call
    has been made, provided the query returns at least 50 records from
    which both tensors can be built.  When the query returns fewer than
    50 records no call ever calls [fit]. *)
Theorem trainModel_guard_is_atomic (w0 : World tf) (n : nat)
    (s : System tf) :
  isTraining (forecastModel w0) = false ->
  reachable tf random utcOffset (init w0 n) s ->
  (count in_flight (calls s) <= 1)%nat
  /\ (count fitting (calls s) <= 1)%nat
  /\ (isTraining (forecastModel (world s)) = true <->
      count in_flight (calls s) = 1%nat)
  /\ (count in_flight (calls s) = 1%nat ->
      resume tf NotStarted (world s) =
      (Ok (Settled (Ok already_training)), world s))
  /\ (count in_flight (calls s) = 0%nat ->
      exists w',
        resume tf NotStarted (world s) = (Ok AwaitingFind, w')
        /\ isTraining (forecastModel w') = true
        /\ model (forecastModel w') = model (forecastModel (world s))
        /\ fits w' = fits (world s))
  /\ (fits (world s) <= fits w0 + count may_have_fitted (calls s))%nat
  /\ (fits w0 + count (fun c => fitting c || succeeded c) (calls s) <=
      fits (world s))%nat
  /\ (forall a b,
        calls s = [a; b] ->
        a = Settled (Ok already_training)
        \/ b = Settled (Ok already_training) ->
        (fits (world s) <= fits w0 + 1)%nat
        /\ (succeeded a || succeeded b = true ->
            fits (world s) = (fits w0 + 1)%nat)
        /\ turned_away a = negb (turned_away b)
        /\ (exists s' a' b',
              reachable tf random utcOffset s s'
              /\ calls s' = [a'; b']
              /\ settled a' = true
              /\ settled b' = true
              /\ turned_away a' = turned_away a
              /\ turned_away b' = turned_away b
              /\ (fits (world s') <= fits w0 + 1)%nat
              /\ forall recs xs ys,
                   Demand_find w0 = Ok recs ->
                   (50 <= List.length recs)%nat ->
                   tensor2d tf (map feature_row recs) = Ok xs ->
                   tensor2d tf (map target_row recs) = Ok ys ->
                   fits (world s') = (fits w0 + 1)%nat)
        /\ (forall recs xs ys,
              Demand_find w0 = Ok recs ->
              (50 <= List.length recs)%nat ->
              tensor2d tf (map feature_row recs) = Ok xs ->
              tensor2d tf (map target_row recs) = Ok ys ->
              settled a = true ->
              settled b = true ->
              fits (world s) = (fits w0 + 1)%nat))
  /\ (forall recs,
        Demand_find w0 = Ok recs ->
        (List.length recs < 50)%nat ->
        fits (world s) = fits w0).
Proof.
  intros idle reach.
  destruct (guard_invariant_reachable w0 n s idle reach)
    as (guard & upper & lower).
  assert (flag : isTraining (forecastModel (world s)) = true <->
                 count in_flight (calls s) = 1%nat).
  { rewrite guard. destruct (isTraining (forecastModel (world s))); cbn;
      split; congruence. }
  split.
  { rewrite guard. destruct (isTraining (forecastModel (world s))); cbn; lia. }
  split.
  { assert (sub : (count fitting (calls s) <=
                   count in_flight (calls s))%nat).
    { unfold count. generalize (calls s) as l.
      induction l as [| c l IH]; cbn; [lia |].
      destruct c; cbn; lia. }
    rewrite guard in sub.
    destruct (isTraining (forecastModel (world s))); cbn in sub; lia. }
  split; [exact flag |].
  split.
  { intros one. apply flag in one.
    unfold resume, bind, get_isTraining. rewrite one. reflexivity. }
  split.
  { intros none.
    assert (free : isTraining (forecastModel (world s)) = false).
    { destruct (isTraining (forecastModel (world s))) eqn:busy;
        [| reflexivity].
      rewrite guard in none. discriminate. }
    eexists. split.
    - unfold resume, bind, get_isTraining. rewrite free. reflexivity.
    - cbn. auto. }
  split; [exact upper |].
  split; [exact lower |].
  split.
  2:{ intros recs found few.
      apply (no_fit_without_data w0 n s recs few found reach). }
  intros a b two turned_away_one.
  pose proof (turned_away_reachable w0 n s idle reach) as passed.
  rewrite two in passed.
  assert (some : (1 <= count turned_away [a; b])%nat).
  { unfold count.
    destruct turned_away_one as [-> | ->]; cbn.
    - destruct (turned_away b); cbn; lia.
    - destruct (turned_away a); cbn; lia. }
  specialize (passed some).
  assert (one : turned_away a = negb (turned_away b)).
  { revert passed.
    destruct turned_away_one as [-> | ->]; unfold count; cbn.
    - destruct b as [| | | | [[] |]]; cbn; intros; auto; lia.
    - destruct a as [| | | | [[] |]]; cbn; intros; auto; lia. }
  split.
  { rewrite two in upper. unfold count in upper. cbn [filter] in upper.
    destruct turned_away_one as [-> | ->]; cbn in upper.
    - destruct (may_have_fitted b); cbn in upper; lia.
    - destruct (may_have_fitted a); cbn in upper; lia. }
  split.
  { rewrite two in upper, lower. unfold count in upper, lower.
    cbn [filter] in upper, lower.
    destruct turned_away_one as [-> | ->]; cbn in upper, lower |- *.
    - destruct (may_have_fitted b) eqn:U, (fitting b || succeeded b) eqn:L,
        (succeeded b) eqn:S; cbn in upper, lower;
        try (destruct b as [| | | | [[] |]]; discriminate);
        intros; try discriminate; lia.
    - destruct (may_have_fitted a) eqn:U, (fitting a || succeeded a) eqn:L,
        (succeeded a) eqn:S; cbn in upper, lower;
        try (destruct a as [| | | | [[] |]]; discriminate);
        intros; try discriminate; lia. }
  split; [exact one |].
  split.
  - destruct (run_to_completion (outstanding (calls s)) s (le_n _))
      as (s' & continued & none).
    pose proof (reachable_trans _ _ _ reach continued) as reach'.
    destruct (settled_calls_stay s s' continued) as (same & stay).
    rewrite two in same, stay.
    remember (calls s') as l eqn:two'. symmetry in two'.
    destruct l as [| a' [| b' [| c' rest]]]; try discriminate same.
    assert (done_a : settled a' = true).
    { apply (all_settled [a'; b'] none). left. reflexivity. }
    assert (done_b : settled b' = true).
    { apply (all_settled [a'; b'] none). right. left. reflexivity. }
    destruct (guard_invariant_reachable w0 n s' idle reach')
      as (_ & upper' & _).
    pose proof (turned_away_reachable w0 n s' idle reach') as passed'.
    rewrite two' in upper', passed'.
    assert (some' : (1 <= count turned_away [a'; b'])%nat).
    { unfold count.
      destruct turned_away_one as [-> | ->].
      - pose proof (stay 0%nat _ eq_refl eq_refl) as kept.
        cbn in kept. injection kept as ->. cbn.
        destruct (turned_away b'); cbn; lia.
      - pose proof (stay 1%nat _ eq_refl eq_refl) as kept.
        cbn in kept. injection kept as ->. cbn.
        destruct (turned_away a'); cbn; lia. }
    destruct (two_settled_calls a' b' done_a done_b some' (passed' some'))
      as (one' & fitted).
    rewrite fitted in upper'.
    exists s', a', b'.
    split; [exact continued |]. split; [exact two' |].
    split; [exact done_a |]. split; [exact done_b |].
    assert (as_before : turned_away a' = turned_away a
                        /\ turned_away b' = turned_away b).
    { destruct turned_away_one as [-> | ->].
      - pose proof (stay 0%nat _ eq_refl eq_refl) as kept.
        cbn in kept. injection kept as ->.
        cbn in one, one' |- *.
        destruct (turned_away b), (turned_away b'); try discriminate; auto.
      - pose proof (stay 1%nat _ eq_refl eq_refl) as kept.
        cbn in kept. injection kept as ->.
        cbn in one, one' |- *.
        destruct (turned_away a), (turned_away a'); try discriminate; auto. }
    split; [exact (proj1 as_before) |].
    split; [exact (proj2 as_before) |].
    split; [exact upper' |].
    intros recs xs ys found enough built_xs built_ys.
    destruct (data_invariant_reachable w0 n s' recs xs ys enough built_xs
                built_ys found reach') as (_ & _ & lower').
    rewrite two', fitted in lower'. lia.
  - intros recs xs ys found enough built_xs built_ys done_a done_b.
    destruct (data_invariant_reachable w0 n s recs xs ys enough built_xs
                built_ys found reach) as (_ & _ & lower').
    destruct (two_settled_calls a b done_a done_b some passed)
      as (_ & fitted).
    rewrite two in upper, lower'. rewrite fitted in upper, lower'. lia.
Qed.

End InterleavingProperties.

(** ** The accuracy reporter *)

Section AccuracyProperties.
Context (tf : TfLib).

(** Where every present accuracy is truthy, the handler's filter keeps
    exactly the present accuracies. *)
Lemma truthy_accuracies (recs : list Demand.t) :
  (forall r a, In r recs -> Demand.accuracy r = Some a -> truthy a = true) ->
  map (fun p => to_number (Demand.accuracy p))
      (filter (fun p => js_truthy (Demand.accuracy p)) recs) =
  present_accuracies recs.
Proof.
  induction recs as [| r recs IH]; intros nonzero; [reflexivity |].
  cbn [filter present_accuracies flat_map].
  fold (present_accuracies recs).
  rewrite <- IH by (intros r' a inside; apply nonzero; right; exact inside).
  destruct (Demand.accuracy r) as [a |] eqn:acc; cbn [js_truthy].
  - rewrite (nonzero r a (or_introl eq_refl) acc). cbn. rewrite acc.
    reflexivity.
  - reflexivity.
Qed.

(** [sum / (length || 1)] is the mean, and 0 for the empty list. *)
Lemma mean_or_one (l : list number) :
  div (fold_left add l (of_Z 0)) (of_Z (Z.of_nat (or_one (List.length l)))) =
  mean l.
Proof. destruct l; [vm_compute |]; reflexivity. Qed.

(** C6 (amended): when no present accuracy is zero or [NaN],
    [averageAccuracy] is the mean of the accuracies that are present
    (their sum from left to right divided by their number, 0 when there
    is none) rounded with [Math.round(x * 100) / 100];
    [totalPredictions] counts all the records; the world is unchanged;
    and the records with accuracies 90, absent, 80 give 85 and 3. *)
Theorem model_performance_summary (w : World tf) (recs : list Demand.t) :
  Demand_find w = Ok recs ->
  (forall r a, In r recs -> Demand.accuracy r = Some a -> truthy a = true) ->
  exists body,
    model_performance tf w = (Ok (Json body), w)
    /\ averageAccuracy body = round_to 2 (mean (present_accuracies recs))
    /\ (present_accuracies recs = [] -> averageAccuracy body = of_Z 0)
    /\ totalPredictions body = List.length recs
    /\ (List.map Demand.accuracy recs =
          [Some (of_Z 90); None; Some (of_Z 80)] ->
        averageAccuracy body = of_Z 85 /\ totalPredictions body = 3%nat).
Proof.
  intros found nonzero.
  eexists. split.
  - unfold model_performance, try_catch, bind, find_sorted, get_model, ret.
    rewrite found. reflexivity.
  - cbn [averageAccuracy totalPredictions].
    rewrite truthy_accuracies by assumption. rewrite mean_or_one.
    split; [reflexivity |].
    split; [intros ->; vm_compute; reflexivity |].
    split; [reflexivity |].
    intros shape.
    assert (present_accuracies recs = [of_Z 90; of_Z 80]) as ->.
    { destruct recs as [| r1 [| r2 [| r3 [| r4 rest]]]]; try discriminate.
      injection shape as a1 a2 a3.
      unfold present_accuracies. cbn. rewrite a1, a2, a3. reflexivity. }
    split; [vm_compute; reflexivity |].
    rewrite <- (length_map Demand.accuracy), shape. reflexivity.
Qed.

End AccuracyProperties.

(** ** The properties on concrete inputs *)

Module Examples.

Import Fixtures.

Lemma trainModel_already_training_witness :
  isTraining (forecastModel (training tf_ok [])) = true
  /\ trainModel tf_ok (training tf_ok []) =
     (Ok already_training, training tf_ok []).
Proof.
  split; [reflexivity |].
  apply (trainModel_already_training tf_ok (training tf_ok [])).
  reflexivity.
Defined.

Lemma prepareTrainingData_keeps_every_record_witness :
  Demand_find (boot tf_ok [observed; forecast_only]) =
    Ok [observed; forecast_only]
  /\ exists features targets,
       prepareTrainingData tf_ok (boot tf_ok [observed; forecast_only]) =
         (Ok (features, targets), boot tf_ok [observed; forecast_only])
       /\ List.length features = 2%nat
       /\ List.length targets = 2%nat.
Proof.
  split; [reflexivity |].
  destruct (prepareTrainingData_keeps_every_record tf_ok
              (boot tf_ok [observed; forecast_only])
              [observed; forecast_only] eq_refl)
    as (features & targets & run & nf & nt & _).
  exists features, targets. auto.
Defined.

(** C2 as stated fails: a record without [actualDemand] is extracted,
    with [forecastedDemand] as its fifth feature and an absent target. *)
Lemma prepareTrainingData_keeps_unobserved_record :
  usable forecast_only = false
  /\ fst (prepareTrainingData tf_ok (boot tf_ok [forecast_only])) =
     Ok ([[Some (of_Z 25); Some (of_Z 40); Some (of_Z 1); Some (of_Z 5);
           Some (of_Z 118)]],
         [[None]])
  /\ fst (prepareTrainingData tf_ok (boot tf_ok [forecast_only])) <>
     Ok (extract_usable [forecast_only]).
Proof.
  split; [reflexivity |]. split; [reflexivity |]. discriminate.
Qed.

Lemma trainModel_not_enough_data_witness :
  isTraining (forecastModel (boot tf_ok (repeat observed 49))) = false
  /\ Demand_find (boot tf_ok (repeat observed 49)) = Ok (repeat observed 49)
  /\ (List.length (repeat observed 49) < 50)%nat
  /\ exists w',
       trainModel tf_ok (boot tf_ok (repeat observed 49)) =
         (Throw (Error "Not enough data"), w')
       /\ isTraining (forecastModel w') = false.
Proof.
  split; [reflexivity |]. split; [reflexivity |].
  split; [cbn; lia |].
  destruct (trainModel_not_enough_data tf_ok
              (boot tf_ok (repeat observed 49)) (repeat observed 49)
              eq_refl eq_refl)
    as (w' & run & idle & _).
  - cbn. lia.
  - exists w'. auto.
Defined.

(** C4 as stated fails: fifty records of which none has an
    [actualDemand] are enough for [trainModel] to go on and fit. *)
Lemma trainModel_counts_unusable_records :
  (List.length (filter usable (repeat forecast_only 50)) < 50)%nat
  /\ fst (trainModel tf_ok (boot tf_ok (repeat forecast_only 50))) =
     Ok (success 50 "tfjs_linear")
  /\ fst (trainModel tf_ok (boot tf_ok (repeat forecast_only 50))) <>
     Throw (Error "Not enough data").
Proof.
  split; [cbn; lia |]. split; [reflexivity |]. discriminate.
Qed.

(** C1 on the code: a [fit] that throws leaves the job idle and the
    error surfaced, but the model that was in place (here one with 50
    completed epochs) has been replaced by the model of line 64, and a
    server that had no model now has one. *)
Theorem failed_fit_replaces_model :
  model (forecastModel (trained tf_failing 50%nat (repeat observed 50))) =
    Some 50%nat
  /\ fst (trainModel tf_failing
            (trained tf_failing 50%nat (repeat observed 50))) =
     Throw (Error "fit failed")
  /\ forecastModel
       (snd (trainModel tf_failing
               (trained tf_failing 50%nat (repeat observed 50)))) =
     Build_EnergyForecastModel tf_failing (Some 0%nat) false
  /\ model (forecastModel (boot tf_failing (repeat observed 50))) = None
  /\ forecastModel
       (snd (trainModel tf_failing (boot tf_failing (repeat observed 50)))) =
     Build_EnergyForecastModel tf_failing (Some 0%nat) false.
Proof. repeat split. Qed.

(** C3 on the code: with no [trainModel] call that ever succeeded,
    [predict] returns points instead of throwing, both after a call that
    failed in [fit] and while the first call is still waiting for [fit];
    after the failed call the performance report says [trained]. *)
Theorem predict_without_successful_training :
  fst (trainModel tf_failing (boot tf_failing (repeat observed 50))) =
    Throw (Error "fit failed")
  /\ (exists p,
        fst (predict tf_failing half gst "station"
               (Some t0) (Some (t0 + HOUR_MS))
               (snd (trainModel tf_failing
                       (boot tf_failing (repeat observed 50))))) =
        Ok [p])
  /\ fst (model_performance tf_failing
            (snd (trainModel tf_failing
                    (boot tf_failing (repeat observed 50))))) =
     Ok (Json {| averageAccuracy := of_Z 98;
                 totalPredictions := 50;
                 modelStatus := "trained" |})
  /\ reachable tf_ok half gst (init (boot tf_ok (repeat observed 50)) 1)
       during_fit
  /\ count succeeded (calls during_fit) = 0%nat
  /\ (exists p,
        fst (predict tf_ok half gst "station"
               (Some t0) (Some (t0 + HOUR_MS)) (world during_fit)) =
        Ok [p]).
Proof.
  split; [reflexivity |].
  split; [eexists; vm_compute; reflexivity |].
  split; [vm_compute; reflexivity |].
  split.
  { eapply reachable_step.
    - eapply reachable_step.
      + eapply reachable_step; [apply reachable_init |].
        exact (step_resume tf_ok half gst
                 (init (boot tf_ok (repeat observed 50)) 1)
                 0 NotStarted AwaitingFind
                 (snd (resume tf_ok NotStarted
                         (boot tf_ok (repeat observed 50))))
                 eq_refl eq_refl eq_refl).
      + exact (step_resume tf_ok half gst
                 {| world := snd (resume tf_ok NotStarted
                                    (boot tf_ok (repeat observed 50)));
                    calls := [AwaitingFind] |}
                 0 AwaitingFind
                 (@AwaitingData tf_ok
                    (Ok (map feature_row (repeat observed 50),
                         map target_row (repeat observed 50))))
                 (snd (resume tf_ok NotStarted
                         (boot tf_ok (repeat observed 50))))
                 eq_refl eq_refl eq_refl).
    - exact (step_resume tf_ok half gst
               {| world := snd (resume tf_ok NotStarted
                                  (boot tf_ok (repeat observed 50)));
                  calls := [@AwaitingData tf_ok
                              (Ok (map feature_row (repeat observed 50),
                                   map target_row (repeat observed 50)))] |}
               0 _ (@AwaitingFit tf_ok 50
                      (map feature_row (repeat observed 50))
                      (map target_row (repeat observed 50)))
               (world during_fit) eq_refl eq_refl eq_refl). }
  split; [reflexivity |].
  eexists; vm_compute; reflexivity.
Qed.

Lemma predict_hourly_grid_witness :
  model (forecastModel (trained tf_ok 50%nat [])) = Some 50%nat
  /\ exists pts,
       fst (predict tf_ok half gst "station"
              (Some t0) (Some (t0 + 3 * HOUR_MS)) (trained tf_ok 50%nat [])) =
       Ok pts
       /\ map ForecastPoint.timestamp pts =
          [t0; t0 + HOUR_MS; t0 + 2 * HOUR_MS]
       /\ map ForecastPoint.forecastedDemand pts =
          [decimal 4257 2; decimal 4257 2; decimal 4257 2]
       /\ map ForecastPoint.temperature pts =
          [decimal 325 1; decimal 325 1; decimal 325 1]
       /\ map ForecastPoint.humidity pts = [of_Z 45; of_Z 45; of_Z 45].
Proof.
  split; [reflexivity |].
  destruct (predict_hourly_grid tf_ok half gst (trained tf_ok 50%nat [])
              50%nat "station" t0 (t0 + 3 * HOUR_MS) eq_refl)
    as (pts & w' & run & _ & _ & _ & _ & _ & three & _).
  exists pts. split; [rewrite run; reflexivity |].
  split; [exact (three eq_refl) |].
  vm_compute in run. injection run as <- _.
  split; [vm_compute; reflexivity |].
  split; vm_compute; reflexivity.
Defined.

Lemma predict_reproducible_witness :
  model (forecastModel (trained tf_ok 50%nat [])) = Some 50%nat
  /\ (forall j, (j < draws (Some t0) (Some (t0 + 3 * HOUR_MS)%Z))%nat ->
                half (drawn (trained tf_ok 50%nat []) + j) =
                half (drawn (snd (predict tf_ok half gst "station"
                                    (Some t0) (Some (t0 + 3 * HOUR_MS))
                                    (trained tf_ok 50%nat []))) + j))
  /\ fst (predict tf_ok half gst "station"
            (Some t0) (Some (t0 + 3 * HOUR_MS)) (trained tf_ok 50%nat [])) =
     fst (predict tf_ok half gst "station"
            (Some t0) (Some (t0 + 3 * HOUR_MS))
            (snd (predict tf_ok half gst "station"
                    (Some t0) (Some (t0 + 3 * HOUR_MS))
                    (trained tf_ok 50%nat [])))).
Proof.
  split; [reflexivity |]. split; [reflexivity |].
  apply (predict_reproducible tf_ok half gst
           (trained tf_ok 50%nat [])
           (snd (predict tf_ok half gst "station"
                   (Some t0) (Some (t0 + 3 * HOUR_MS))
                   (trained tf_ok 50%nat [])))
           50%nat "station" (Some t0) (Some (t0 + 3 * HOUR_MS))).
  - reflexivity.
  - reflexivity.
  - reflexivity.
Defined.

Lemma predict_ignores_stationId_witness :
  model (forecastModel (trained tf_ok 50%nat [])) = Some 50%nat
  /\ fst (predict tf_ok half gst "Muscat Central"
            (Some t0) (Some (t0 + 3 * HOUR_MS)) (trained tf_ok 50%nat [])) =
     fst (predict tf_ok half gst "Salalah Grid"
            (Some t0) (Some (t0 + 3 * HOUR_MS)) (trained tf_ok 50%nat [])).
Proof.
  split; [reflexivity |].
  apply (predict_ignores_stationId tf_ok half gst
           (trained tf_ok 50%nat []) (trained tf_ok 50%nat [])
           50%nat "Muscat Central" "Salalah Grid"
           (Some t0) (Some (t0 + 3 * HOUR_MS))).
  - reflexivity.
  - reflexivity.
  - reflexivity.
Defined.

Lemma model_performance_summary_witness :
  Demand_find (boot tf_ok [scored (Some (of_Z 90)); scored None;
                           scored (Some (of_Z 80))]) =
    Ok [scored (Some (of_Z 90)); scored None; scored (Some (of_Z 80))]
  /\ exists body,
       fst (model_performance tf_ok
              (boot tf_ok [scored (Some (of_Z 90)); scored None;
                           scored (Some (of_Z 80))])) = Ok (Json body)
       /\ averageAccuracy body = of_Z 85
       /\ totalPredictions body = 3%nat.
Proof.
  split; [reflexivity |].
  destruct (model_performance_summary tf_ok
              (boot tf_ok [scored (Some (of_Z 90)); scored None;
                           scored (Some (of_Z 80))])
              [scored (Some (of_Z 90)); scored None; scored (Some (of_Z 80))]
              eq_refl)
    as (body & run & _ & _ & _ & example).
  - intros r a [<- | [<- | [<- | []]]]; cbn; intros [= <-]; reflexivity.
  - exists body. split; [rewrite run; reflexivity |].
    exact (example eq_refl).
Defined.

(** C6 as stated fails: the accuracies 1, 2, 2 have mean 5/3, and the
    handler answers 1.67. *)
Lemma model_performance_rounds_mean :
  fst (model_performance tf_ok
         (boot tf_ok [scored (Some (of_Z 1)); scored (Some (of_Z 2));
                      scored (Some (of_Z 2))])) =
    Ok (Json {| averageAccuracy := decimal 167 2;
                totalPredictions := 3;
                modelStatus := "not_trained" |})
  /\ mean (present_accuracies
             [scored (Some (of_Z 1)); scored (Some (of_Z 2));
              scored (Some (of_Z 2))]) = div (of_Z 5) (of_Z 3)
  /\ decimal 167 2 <> div (of_Z 5) (of_Z 3).
Proof.
  split; [vm_compute; reflexivity |]. split; [reflexivity |].
  vm_compute. discriminate.
Qed.

(** A present accuracy of 0 is dropped by the truthiness test of line
    154: the accuracies 0 and 100 are averaged to 100. *)
Lemma model_performance_skips_zero_accuracy :
  fst (model_performance tf_ok
         (boot tf_ok [scored (Some (of_Z 0)); scored (Some (of_Z 100))])) =
    Ok (Json {| averageAccuracy := of_Z 100;
                totalPredictions := 2;
                modelStatus := "not_trained" |})
  /\ mean (present_accuracies
             [scored (Some (of_Z 0)); scored (Some (of_Z 100))]) = of_Z 50.
Proof. split; vm_compute; reflexivity. Qed.

Lemma trainModel_guard_is_atomic_witness :
  isTraining (forecastModel (boot tf_ok (repeat observed 50))) = false
  /\ reachable tf_ok half gst (init (boot tf_ok (repeat observed 50)) 2)
       overlapped
  /\ resume tf_ok NotStarted (world overlapped) =
     (Ok (Settled (Ok already_training)), world overlapped)
  /\ reachable tf_ok half gst overlapped one_fitted
  /\ (count in_flight (calls one_fitted) <= 1)%nat
  /\ fits (world one_fitted) =
     (fits (boot tf_ok (repeat observed 50)) + 1)%nat.
Proof.
  assert (reach : reachable tf_ok half gst
                    (init (boot tf_ok (repeat observed 50)) 2) overlapped).
  { eapply reachable_step.
    - eapply reachable_step; [apply reachable_init |].
      exact (step_resume tf_ok half gst
               (init (boot tf_ok (repeat observed 50)) 2)
               0 NotStarted AwaitingFind (world overlapped)
               eq_refl eq_refl eq_refl).
    - exact (step_resume tf_ok half gst
               {| world := world overlapped;
                  calls := [AwaitingFind; NotStarted] |}
               1 NotStarted (Settled (Ok already_training))
               (world overlapped) eq_refl eq_refl eq_refl). }
  assert (on : reachable tf_ok half gst overlapped one_fitted).
  { eapply reachable_step.
    - eapply reachable_step.
      + eapply reachable_step; [apply reachable_init |].
        exact (step_resume tf_ok half gst overlapped
                 0 AwaitingFind
                 (@AwaitingData tf_ok
                    (Ok (map feature_row (repeat observed 50),
                         map target_row (repeat observed 50))))
                 (world overlapped) eq_refl eq_refl eq_refl).
      + exact (step_resume tf_ok half gst
                 {| world := world overlapped;
                    calls := [@AwaitingData tf_ok
                                (Ok (map feature_row (repeat observed 50),
                                     map target_row (repeat observed 50)));
                              Settled (Ok already_training)] |}
                 0 _ (@AwaitingFit tf_ok 50
                        (map feature_row (repeat observed 50))
                        (map target_row (repeat observed 50)))
                 (world during_fit) eq_refl eq_refl eq_refl).
    - exact (step_resume tf_ok half gst
               {| world := world during_fit;
                  calls := [@AwaitingFit tf_ok 50
                              (map feature_row (repeat observed 50))
                              (map target_row (repeat observed 50));
                            Settled (Ok already_training)] |}
               0 _ (Settled (Ok (success 50 "tfjs_linear")))
               (world one_fitted) eq_refl eq_refl eq_refl). }
  split; [reflexivity |]. split; [exact reach |].
  destruct (trainModel_guard_is_atomic tf_ok half gst
              (boot tf_ok (repeat observed 50)) 2 overlapped eq_refl reach)
    as (_ & _ & _ & turned_away_second & _).
  split; [apply turned_away_second; reflexivity |].
  split; [exact on |].
  destruct (trainModel_guard_is_atomic tf_ok half gst
              (boot tf_ok (repeat observed 50)) 2 one_fitted eq_refl
              (reachable_trans tf_ok half gst _ _ _ reach on))
    as (one & _ & _ & _ & _ & _ & _ & two & _).
  split; [exact one |].
  destruct (two _ _ eq_refl (or_intror eq_refl))
    as (_ & _ & _ & _ & exactly_one).
  apply (exactly_one (repeat observed 50)
           (map feature_row (repeat observed 50))
           (map target_row (repeat observed 50)));
    reflexivity.
Defined.

(** C9 as stated fails: two calls overlap on a server with forty-nine
    observations; the second is turned away, the first throws
    [Not enough data], and with both at their end no call has called
    [fit]. *)
Lemma trainModel_concurrent_calls_without_fit :
  isTraining (forecastModel (boot tf_ok (repeat observed 49))) = false
  /\ reachable tf_ok half gst (init (boot tf_ok (repeat observed 49)) 2)
       short_of_data
  /\ calls short_of_data =
     [Settled (Throw (Error "Not enough data"));
      Settled (Ok already_training)]
  /\ fits (world short_of_data) = 0%nat
  /\ fits (boot tf_ok (repeat observed 49)) = 0%nat.
Proof.
  split; [reflexivity |].
  split; [| repeat split].
  eapply reachable_step.
  - eapply reachable_step.
    + eapply reachable_step.
      * eapply reachable_step; [apply reachable_init |].
        exact (step_resume tf_ok half gst
                 (init (boot tf_ok (repeat observed 49)) 2)
                 0 NotStarted AwaitingFind
                 (snd (resume tf_ok NotStarted
                         (boot tf_ok (repeat observed 49))))
                 eq_refl eq_refl eq_refl).
      * exact (step_resume tf_ok half gst
                 {| world := snd (resume tf_ok NotStarted
                                    (boot tf_ok (repeat observed 49)));
                    calls := [AwaitingFind; NotStarted] |}
                 1 NotStarted (Settled (Ok already_training))
                 (snd (resume tf_ok NotStarted
                         (boot tf_ok (repeat observed 49))))
                 eq_refl eq_refl eq_refl).
    + exact (step_resume tf_ok half gst
               {| world := snd (resume tf_ok NotStarted
                                  (boot tf_ok (repeat observed 49)));
                  calls := [AwaitingFind; Settled (Ok already_training)] |}
               0 AwaitingFind
               (@AwaitingData tf_ok
                  (Ok (map feature_row (repeat observed 49),
                       map target_row (repeat observed 49))))
               (snd (resume tf_ok NotStarted
                       (boot tf_ok (repeat observed 49))))
               eq_refl eq_refl eq_refl).
  - exact (step_resume tf_ok half gst
             {| world := snd (resume tf_ok NotStarted
                                (boot tf_ok (repeat observed 49)));
                calls := [@AwaitingData tf_ok
                            (Ok (map feature_row (repeat observed 49),
                                 map target_row (repeat observed 49)));
                          Settled (Ok already_training)] |}
             0 _ (Settled (Throw (Error "Not enough data")))
             (world short_of_data) eq_refl eq_refl eq_refl).
Qed.

End Examples.

(** * Further properties *)

(** ** More on the training job *)

Section MoreTrainingProperties.

Context (tf : TfLib).

(** Splits [trainModel] on an idle job into its six ways through the
    code. *)
Ltac trainModel_idle_cases q :=
  destruct q as [recs | failure]; run;
  [ rewrite ?length_map;
    destruct (List.length recs <? 50)%nat eqn:few;
    [ | destruct (tensor2d tf (map feature_row recs)) as [xs | failure]
          eqn:built_xs;
        [ destruct (tensor2d tf (map target_row recs)) as [ys | failure]
            eqn:built_ys;
          [ cbn; destruct (fit tf (sequential tf) xs ys) as [m' | failure m']
                   eqn:fit_result
          | ]
        | ] ]
  | ].

(** X1: whatever the query, the tensors and [fit] do, [trainModel] leaves
    [isTraining] as it found it: a call that started on an idle job ends
    with the job idle, so the call that follows a failed or a successful
    one is never answered [already_training]. *)
Theorem trainModel_restores_isTraining (w : World tf) :
  isTraining (forecastModel (snd (trainModel tf w))) =
    isTraining (forecastModel w)
  /\ (isTraining (forecastModel w) = false ->
      fst (trainModel tf w) <> Ok already_training
      /\ fst (trainModel tf (snd (trainModel tf w))) <> Ok already_training).
Proof.
  assert (flag : forall v : World tf,
             isTraining (forecastModel (snd (trainModel tf v))) =
             isTraining (forecastModel v)).
  { intros [[mdl busy] q k eff]. destruct busy; [reflexivity |].
    trainModel_idle_cases q; reflexivity. }
  assert (started : forall v : World tf,
             isTraining (forecastModel v) = false ->
             fst (trainModel tf v) <> Ok already_training).
  { intros [[mdl busy] q k eff] idle. cbn in idle. subst busy.
    trainModel_idle_cases q; cbn; discriminate. }
  split; [apply flag |].
  intros idle. split; [apply started; exact idle |].
  apply started. rewrite flag. exact idle.
Qed.

(** X2: one [trainModel] call calls [fit] at most once, and the model in
    place changes only in a call that has called [fit]: a rejected query,
    too few records or a tensor that cannot be built leave it untouched.
    The call never changes the collection. *)
Theorem trainModel_model_changes_only_with_fit (w : World tf) :
  (fits (snd (trainModel tf w)) = fits w
   \/ fits (snd (trainModel tf w)) = S (fits w))
  /\ (fits (snd (trainModel tf w)) = fits w ->
      model (forecastModel (snd (trainModel tf w))) =
      model (forecastModel w))
  /\ (fits (snd (trainModel tf w)) = S (fits w) ->
      model (forecastModel (snd (trainModel tf w))) <> None)
  /\ Demand_find (snd (trainModel tf w)) = Demand_find w.
Proof.
  destruct w as [[mdl busy] q k eff].
  destruct busy.
  { cbn. repeat split; auto. unfold fits; cbn. lia. }
  trainModel_idle_cases q; unfold fits; cbn;
    repeat split; auto; try lia; try discriminate.
Qed.

(** X3: [trainModel] resolves to [success] exactly when the job is idle,
    the query returns at least 50 records, both tensors can be built and
    [fit] completes; [dataPoints] is then the number of records returned
    by the query (with or without [actualDemand]), [modelType] is
    [tfjs_linear] and the fitted model is in place. *)
Theorem trainModel_success_iff (w : World tf) (n : nat) (modelType : string) :
  fst (trainModel tf w) = Ok (success n modelType) <->
  isTraining (forecastModel w) = false
  /\ modelType = "tfjs_linear"
  /\ exists recs xs ys fitted,
       Demand_find w = Ok recs
       /\ n = List.length recs
       /\ (50 <= n)%nat
       /\ tensor2d tf (map feature_row recs) = Ok xs
       /\ tensor2d tf (map target_row recs) = Ok ys
       /\ fit tf (sequential tf) xs ys = Fitted fitted
       /\ model (forecastModel (snd (trainModel tf w))) = Some fitted.
Proof.
  split.
  - destruct w as [[mdl busy] q k eff].
    destruct busy; [discriminate |].
    trainModel_idle_cases q; cbn; try discriminate.
    intros [= <- <-].
    apply Nat.ltb_ge in few.
    split; [reflexivity |]. split; [reflexivity |].
    exists recs, xs, ys, m'. repeat split; auto.
  - intros (idle & -> & recs & xs & ys & fitted & found & -> & enough
            & built_xs & built_ys & done & _).
    destruct (trainModel_success tf w recs xs ys fitted idle found enough
                built_xs built_ys done) as (w' & run_ok & _).
    rewrite run_ok. reflexivity.
Qed.

(** X4: the two arrays of [prepareTrainingData] have the shapes the model
    of lines 64-65 expects, one row of five entries and one row of one
    entry per record; and in every row whose target is present, the fifth
    feature is the target itself. *)
Theorem prepareTrainingData_shapes (w : World tf)
    (features targets : list (list (option number))) :
  fst (prepareTrainingData tf w) = Ok (features, targets) ->
  List.length features = List.length targets
  /\ Forall (fun row => List.length row = 5%nat) features
  /\ Forall (fun row => List.length row = 1%nat) targets
  /\ forall i row target y,
       nth_error features i = Some row ->
       nth_error targets i = Some target ->
       nth_error target 0 = Some (Some y) ->
       nth_error row 4 = Some (Some y).
Proof.
  unfold prepareTrainingData, bind, find_sorted, ret.
  destruct (Demand_find w) as [recs | e]; [| discriminate].
  cbn. intros [= <- <-].
  split; [rewrite !length_map; reflexivity |].
  split; [apply Forall_map, Forall_forall; reflexivity |].
  split; [apply Forall_map, Forall_forall; reflexivity |].
  intros i row target y.
  rewrite !nth_error_map.
  destruct (nth_error recs i) as [r |]; cbn; [| discriminate].
  intros [= <-] [= <-]. cbn. intros [= observed]. rewrite observed.
  reflexivity.
Qed.

End MoreTrainingProperties.

(** ** More on the prediction generator *)

Section MorePredictionProperties.

Context (tf : TfLib).
Variable random : nat -> number.
Variable utcOffset : Z -> Z.

Lemma length_points (mdl : Model tf) (s : Z) (k n : nat) :
  List.length (points tf random utcOffset mdl s k n) = n.
Proof. unfold points. rewrite length_map, length_seq. reflexivity. Qed.

Lemma points_app (mdl : Model tf) (a : nat) :
  forall (s : Z) (k b : nat),
    points tf random utcOffset mdl s k (a + b) =
    points tf random utcOffset mdl s k a
      ++ points tf random utcOffset mdl
           (s + Z.of_nat a * HOUR_MS) (k + 3 * a) b.
Proof.
  induction a as [| a IH]; intros s k b.
  - cbn [Nat.add]. unfold points at 2. cbn [seq map app].
    f_equal; [lia | f_equal; lia].
  - cbn [Nat.add]. rewrite !points_more, IH. cbn [app].
    do 2 f_equal. f_equal; [unfold HOUR_MS; lia | lia].
Qed.

Lemma hour_count_grid (j : nat) :
  forall s, hour_count s (s + Z.of_nat j * HOUR_MS) = j.
Proof.
  induction j as [| j IH]; intros s.
  - apply hour_count_done. lia.
  - rewrite hour_count_more by (unfold HOUR_MS; lia).
    f_equal. rewrite <- (IH (s + HOUR_MS)) at 2.
    f_equal. unfold HOUR_MS. lia.
Qed.

Lemma hour_count_split (j : nat) :
  forall s e,
    s + Z.of_nat j * HOUR_MS <= e ->
    hour_count s e = (j + hour_count (s + Z.of_nat j * HOUR_MS) e)%nat.
Proof.
  induction j as [| j IH]; intros s e inside.
  - cbn [Nat.add]. f_equal. lia.
  - assert (more : s < e) by (unfold HOUR_MS in *; lia).
    rewrite (hour_count_more s e more).
    rewrite (IH (s + HOUR_MS) e) by (unfold HOUR_MS in *; lia).
    cbn [Nat.add]. do 3 f_equal. unfold HOUR_MS. lia.
Qed.

(** X5: with a model in place and valid moments, [predict] returns
    [ceil((end - start) / 1h)] points (none when [start] is not before
    [end]), draws exactly three random numbers per point and changes
    nothing else in the world. *)
Theorem predict_counts (w : World tf) (mdl : Model tf) (stationId : string)
    (s e : Z) :
  model (forecastModel w) = Some mdl ->
  exists pts,
    predict tf random utcOffset stationId (Some s) (Some e) w =
      (Ok pts, after_draws (3 * List.length pts) w)
    /\ (s < e ->
        s + (Z.of_nat (List.length pts) - 1) * HOUR_MS < e
        /\ e <= s + Z.of_nat (List.length pts) * HOUR_MS)
    /\ (e <= s -> pts = []).
Proof.
  intros trained.
  rewrite (predict_trained tf random utcOffset w mdl stationId s e trained).
  eexists. split; [rewrite length_points; reflexivity |].
  rewrite length_points. split.
  - intros more.
    pose proof (hour_count_more s e more) as succ.
    pose proof (hour_count_lt (hour_count s e - 1) s e) as below.
    pose proof (hour_count_lt (hour_count s e) s e) as above.
    split; [| lia].
    replace (Z.of_nat (hour_count s e) - 1)
      with (Z.of_nat (hour_count s e - 1)) by lia.
    apply below. lia.
  - intros done. rewrite (hour_count_done s e done). reflexivity.
Qed.

(** X6: forecasting a range in two calls, cut at an instant of its hourly
    grid, gives the same points and the same final world as forecasting
    it in one call. *)
Theorem predict_split (w : World tf) (mdl : Model tf)
    (stationId1 stationId2 stationId : string) (s e : Z) (j : nat) :
  model (forecastModel w) = Some mdl ->
  s + Z.of_nat j * HOUR_MS <= e ->
  exists first rest w1 w2,
    predict tf random utcOffset stationId1
      (Some s) (Some (s + Z.of_nat j * HOUR_MS)) w = (Ok first, w1)
    /\ predict tf random utcOffset stationId2
         (Some (s + Z.of_nat j * HOUR_MS)) (Some e) w1 = (Ok rest, w2)
    /\ predict tf random utcOffset stationId (Some s) (Some e) w =
       (Ok (first ++ rest), w2).
Proof.
  intros trained inside.
  set (m := s + Z.of_nat j * HOUR_MS) in *.
  rewrite (predict_trained tf random utcOffset w mdl stationId1 s m trained).
  rewrite (predict_trained tf random utcOffset w mdl stationId s e trained).
  do 4 eexists. split; [reflexivity |].
  rewrite (predict_trained tf random utcOffset
             (after_draws (3 * hour_count s m) w) mdl stationId2 m e trained).
  split; [reflexivity |].
  subst m. rewrite (hour_count_split j s e inside), hour_count_grid.
  rewrite points_app, after_draws_more.
  cbn [after_draws drawn].
  replace (3 * j + 3 * hour_count (s + Z.of_nat j * HOUR_MS) e)%nat
    with (3 * (j + hour_count (s + Z.of_nat j * HOUR_MS) e))%nat by lia.
  reflexivity.
Qed.

End MorePredictionProperties.

(** ** The request handlers *)

Section HandlerProperties.

Context (tf : TfLib).
Variable random : nat -> number.
Variable utcOffset : Z -> Z.
Variable Station_findById : jsvalue -> outcome (option Station.t).
Variable moment_of : jsvalue -> moment.

(** A call on a job that is training returns at once. *)
Lemma trainModel_busy (w : World tf) :
  isTraining (forecastModel w) = true ->
  trainModel tf w = (Ok already_training, w).
Proof.
  intros busy. unfold trainModel, bind, get_isTraining. rewrite busy.
  reflexivity.
Qed.

(** X7: the [/api/train-model] handler always answers and leaves the
    world as [trainModel] leaves it: 200 with the result when [trainModel]
    resolves, which includes [already_training] for a request that
    arrives during a training run, and 500 with the message of the error
    when it throws, as with fewer than 50 records. *)
Theorem api_train_model_answers (w : World tf) :
  exists r,
    api_train_model tf w = (Ok r, snd (trainModel tf w))
    /\ (forall result, fst (trainModel tf w) = Ok result -> r = Json result)
    /\ (forall e, fst (trainModel tf w) = Throw e ->
                  r = Status 500 (message e))
    /\ (isTraining (forecastModel w) = true -> r = Json already_training)
    /\ (forall recs,
          isTraining (forecastModel w) = false ->
          Demand_find w = Ok recs ->
          (List.length recs < 50)%nat ->
          r = Status 500 "Not enough data").
Proof.
  unfold api_train_model, try_catch, bind, ret.
  destruct (trainModel tf w) as [[result | e] w'] eqn:ran; cbn [fst snd];
    eexists; (split; [reflexivity |]).
  - split; [intros ? [= <-]; reflexivity |].
    split; [discriminate |].
    split.
    + intros busy.
      rewrite (trainModel_busy w busy) in ran.
      injection ran as <- _. reflexivity.
    + intros recs idle found few.
      rewrite (trainModel_few_records tf w recs idle found few) in ran.
      discriminate.
  - split; [discriminate |].
    split; [intros ? [= <-]; reflexivity |].
    split.
    + intros busy.
      rewrite (trainModel_busy w busy) in ran. discriminate.
    + intros recs idle found few.
      rewrite (trainModel_few_records tf w recs idle found few) in ran.
      injection ran as <- _. reflexivity.
Qed.

(** [predict] only moves the world forward by some number of random
    draws. *)
Lemma predict_world (stationId : string) (startDate endDate : moment)
    (w : World tf) :
  exists n,
    snd (predict tf random utcOffset stationId startDate endDate w) =
    after_draws n w.
Proof.
  destruct (model (forecastModel w)) as [mdl |] eqn:in_place.
  - destruct startDate as [s |], endDate as [e |];
      try (exists 0%nat; unfold predict, bind, get_model; rewrite in_place;
           cbn; symmetry; apply after_draws_0).
    rewrite (predict_trained tf random utcOffset w mdl stationId s e in_place).
    eexists. reflexivity.
  - rewrite (predict_untrained tf random utcOffset w stationId startDate
               endDate in_place).
    exists 0%nat. symmetry. apply after_draws_0.
Qed.

Lemma past_validation (body : PredictBody.t) :
  complete body = true ->
  negb (ToBoolean (PredictBody.stationId body))
  || negb (ToBoolean (PredictBody.startDate body))
  || negb (ToBoolean (PredictBody.endDate body)) = false.
Proof.
  unfold complete.
  destruct (ToBoolean (PredictBody.stationId body)),
    (ToBoolean (PredictBody.startDate body)),
    (ToBoolean (PredictBody.endDate body)); try discriminate; reflexivity.
Qed.

Lemma api_predict_incomplete (body : PredictBody.t) (w : World tf) :
  complete body = false ->
  api_predict tf random utcOffset Station_findById moment_of body w =
  (Ok (Status 400 "stationId, startDate, and endDate are required"), w).
Proof.
  unfold complete. intros missing.
  unfold api_predict, try_catch, ret.
  destruct (ToBoolean (PredictBody.stationId body)),
    (ToBoolean (PredictBody.startDate body)),
    (ToBoolean (PredictBody.endDate body)); try discriminate; reflexivity.
Qed.

Lemma api_predict_lookup_failed (body : PredictBody.t) (w : World tf)
    (e : exn) :
  complete body = true ->
  Station_findById (PredictBody.stationId body) = Throw e ->
  api_predict tf random utcOffset Station_findById moment_of body w =
  (Ok (Status 500 (message e)),
   snd (perform tf (ConsoleError "Prediction error:" e) w)).
Proof.
  intros fields rejected.
  unfold api_predict, try_catch, bind, lift, ret.
  rewrite (past_validation body fields), rejected. reflexivity.
Qed.

Lemma api_predict_unknown (body : PredictBody.t) (w : World tf) :
  complete body = true ->
  Station_findById (PredictBody.stationId body) = Ok None ->
  api_predict tf random utcOffset Station_findById moment_of body w =
  (Ok (Status 404 "Station not found"), w).
Proof.
  intros fields unknown.
  unfold api_predict, try_catch, bind, lift, ret.
  rewrite (past_validation body fields), unknown. reflexivity.
Qed.

(** Past validation and station lookup, the handler answers what
    [predict] returns. *)
Lemma api_predict_found (body : PredictBody.t) (w : World tf)
    (station : Station.t) :
  complete body = true ->
  Station_findById (PredictBody.stationId body) = Ok (Some station) ->
  api_predict tf random utcOffset Station_findById moment_of body w =
  match predict tf random utcOffset (id_text (PredictBody.stationId body))
          (moment_of (PredictBody.startDate body))
          (moment_of (PredictBody.endDate body)) w with
  | (Ok predictions, w') => (Ok (Json predictions), w')
  | (Throw e, w') =>
      (Ok (Status 500 (message e)),
       snd (perform tf (ConsoleError "Prediction error:" e) w'))
  end.
Proof.
  intros fields found.
  unfold api_predict, try_catch, bind, lift, ret.
  rewrite (past_validation body fields), found.
  destruct (predict tf random utcOffset _ _ _ w) as [[pts | e] w'];
    reflexivity.
Qed.

(** X8: the [/api/predict] handler checks in this order, and answers at
    the first check that fails: a request with a missing, null or empty
    field gets 400 whatever the station and the model; a station id that
    cannot be looked up gets 500 with the message of the lookup error; an
    unknown station gets 404 even when no model is in place; only then
    does a missing model give 500 [Model not trained].  The 400 and 404
    answers leave the world untouched; the 500 answers log the error. *)
Theorem api_predict_checks_in_order (body : PredictBody.t) (w : World tf) :
  (complete body = false ->
   api_predict tf random utcOffset Station_findById moment_of body w =
   (Ok (Status 400 "stationId, startDate, and endDate are required"), w))
  /\ (complete body = true ->
      forall e,
        Station_findById (PredictBody.stationId body) = Throw e ->
        api_predict tf random utcOffset Station_findById moment_of body w =
        (Ok (Status 500 (message e)),
         snd (perform tf (ConsoleError "Prediction error:" e) w)))
  /\ (complete body = true ->
      Station_findById (PredictBody.stationId body) = Ok None ->
      api_predict tf random utcOffset Station_findById moment_of body w =
      (Ok (Status 404 "Station not found"), w))
  /\ (complete body = true ->
      forall station,
        Station_findById (PredictBody.stationId body) = Ok (Some station) ->
        model (forecastModel w) = None ->
        api_predict tf random utcOffset Station_findById moment_of body w =
        (Ok (Status 500 "Model not trained"),
         snd (perform tf
                (ConsoleError "Prediction error:" (Error "Model not trained"))
                w))).
Proof.
  split; [apply api_predict_incomplete |].
  split; [intros fields e; apply api_predict_lookup_failed; exact fields |].
  split; [apply api_predict_unknown |].
  intros fields station found untrained.
  rewrite (api_predict_found body w station fields found).
  rewrite (predict_untrained tf random utcOffset w _ _ _ untrained).
  reflexivity.
Qed.

(** X9: the [/api/predict] handler always answers, and whatever it
    answers it leaves the model, the training flag, the collection and the
    count of [fit] calls as they were. *)
Theorem api_predict_always_answers (body : PredictBody.t) (w : World tf) :
  exists r w',
    api_predict tf random utcOffset Station_findById moment_of body w =
      (Ok r, w')
    /\ forecastModel w' = forecastModel w
    /\ Demand_find w' = Demand_find w
    /\ fits w' = fits w.
Proof.
  destruct (complete body) eqn:fields.
  2:{ do 2 eexists.
      split; [apply api_predict_incomplete; exact fields | auto]. }
  destruct (Station_findById (PredictBody.stationId body))
    as [[station |] | e] eqn:looked_up.
  - rewrite (api_predict_found body w station fields looked_up).
    destruct (predict_world (id_text (PredictBody.stationId body))
                (moment_of (PredictBody.startDate body))
                (moment_of (PredictBody.endDate body)) w) as [n moved].
    destruct (predict tf random utcOffset _ _ _ w) as [[pts | e] w'];
      cbn [snd] in moved; subst w'; do 2 eexists;
      (split; [reflexivity |]); cbn; auto.
  - do 2 eexists.
    split; [apply api_predict_unknown; assumption | auto].
  - do 2 eexists.
    split; [apply api_predict_lookup_failed; eassumption |]. cbn. auto.
Qed.

(** X10: for a complete request naming a known station, with a model in
    place, the handler answers 200 with the points of the hourly grid
    from the parsed [startDate] up to but excluding the parsed [endDate];
    when either date does not parse it answers 200 with an empty array,
    not an error, and draws nothing. *)
Theorem api_predict_points (body : PredictBody.t) (w : World tf)
    (station : Station.t) (mdl : Model tf) :
  complete body = true ->
  Station_findById (PredictBody.stationId body) = Ok (Some station) ->
  model (forecastModel w) = Some mdl ->
  (forall s e,
     moment_of (PredictBody.startDate body) = Some s ->
     moment_of (PredictBody.endDate body) = Some e ->
     exists pts,
       api_predict tf random utcOffset Station_findById moment_of body w =
         (Ok (Json pts), after_draws (3 * List.length pts) w)
       /\ map ForecastPoint.timestamp pts = hours s e)
  /\ (moment_of (PredictBody.startDate body) = None
      \/ moment_of (PredictBody.endDate body) = None ->
      api_predict tf random utcOffset Station_findById moment_of body w =
      (Ok (Json []), w)).
Proof.
  intros fields found trained.
  rewrite (api_predict_found body w station fields found).
  split.
  - intros s e start_ok end_ok. rewrite start_ok, end_ok.
    rewrite (predict_trained tf random utcOffset w mdl _ s e trained).
    eexists. split.
    + unfold points. rewrite length_map, length_seq. reflexivity.
    + apply timestamps_points.
  - intros invalid.
    unfold predict, bind, get_model. rewrite trained.
    destruct invalid as [-> | ->];
      [| destruct (moment_of (PredictBody.startDate body))]; reflexivity.
Qed.

(** X11: once the [/api/train-model] handler has answered [success], a
    complete [/api/predict] request naming a known station is answered 200
    with points, never 500 [Model not trained]. *)
Theorem predict_after_successful_training (body : PredictBody.t)
    (w : World tf) (station : Station.t) (n : nat) (modelType : string) :
  fst (api_train_model tf w) = Ok (Json (success n modelType)) ->
  complete body = true ->
  Station_findById (PredictBody.stationId body) = Ok (Some station) ->
  exists pts w',
    api_predict tf random utcOffset Station_findById moment_of body
      (snd (api_train_model tf w)) = (Ok (Json pts), w').
Proof.
  intros answered fields found.
  rewrite (api_predict_found body _ station fields found).
  assert (trained : exists mdl,
             model (forecastModel (snd (api_train_model tf w))) = Some mdl).
  { revert answered.
    unfold api_train_model, try_catch, bind, ret.
    destruct w as [[mdl busy] q k eff].
    destruct busy; [discriminate |].
    destruct q as [recs | failure]; run; [| discriminate].
    destruct (List.length (map feature_row recs) <? 50)%nat;
      [discriminate |].
    destruct (tensor2d tf (map feature_row recs)) as [xs |];
      [| discriminate].
    destruct (tensor2d tf (map target_row recs)) as [ys |];
      [| discriminate].
    cbn. destruct (fit tf (sequential tf) xs ys); [| discriminate].
    intros _. eexists. reflexivity. }
  destruct trained as [mdl trained].
  destruct (moment_of (PredictBody.startDate body)) as [s |] eqn:start_ok,
    (moment_of (PredictBody.endDate body)) as [e |] eqn:end_ok;
    try (unfold predict, bind, get_model; rewrite trained;
         do 2 eexists; reflexivity).
  rewrite (predict_trained tf random utcOffset _ mdl _ s e trained).
  do 2 eexists. reflexivity.
Qed.

End HandlerProperties.

(** ** More on the accuracy reporter *)

Section MoreAccuracyProperties.

Context (tf : TfLib).

Lemma filter_none {A : Type} (f : A -> bool) (l : list A) :
  (forall x, In x l -> f x = false) -> filter f l = [].
Proof.
  induction l as [| x l IH]; intros none; [reflexivity |].
  cbn [filter]. rewrite (none x (or_introl eq_refl)).
  apply IH. intros y inside. apply none. right. exact inside.
Qed.

(** What the handler answers when the query returns [recs]. *)
Lemma model_performance_found (w : World tf) (recs : list Demand.t) :
  Demand_find w = Ok recs ->
  let accuracies :=
    map (fun p => to_number (Demand.accuracy p))
      (filter (fun p => js_truthy (Demand.accuracy p)) recs) in
  model_performance tf w =
  (Ok (Json
         {| averageAccuracy :=
              round_to 2
                (div (fold_left add accuracies (of_Z 0))
                   (of_Z (Z.of_nat (or_one (List.length accuracies)))));
            totalPredictions := List.length recs;
            modelStatus := match model (forecastModel w) with
                           | Some _ => "trained"
                           | None => "not_trained"
                           end |}), w).
Proof.
  intros found.
  unfold model_performance, try_catch, bind, find_sorted, get_model, ret.
  rewrite found. reflexivity.
Qed.

(** X12: the [/api/model-performance] handler always answers and leaves
    the world unchanged: 500 with the message of the error when the query
    is rejected; otherwise [totalPredictions] is the number of records,
    [modelStatus] is [trained] exactly when a model object is in place,
    and [averageAccuracy] is 0 when no record has a truthy accuracy, as
    with an empty collection. *)
Theorem model_performance_always_answers (w : World tf) :
  exists r,
    model_performance tf w = (Ok r, w)
    /\ (forall e, Demand_find w = Throw e -> r = Status 500 (message e))
    /\ (forall recs,
          Demand_find w = Ok recs ->
          exists body,
            r = Json body
            /\ totalPredictions body = List.length recs
            /\ (modelStatus body = "trained" <->
                model (forecastModel w) <> None)
            /\ (modelStatus body = "not_trained" <->
                model (forecastModel w) = None)
            /\ ((forall p, In p recs ->
                           js_truthy (Demand.accuracy p) = false) ->
                averageAccuracy body = of_Z 0)).
Proof.
  destruct (Demand_find w) as [recs | e] eqn:found.
  - rewrite (model_performance_found w recs found).
    eexists. split; [reflexivity |].
    split; [discriminate |].
    intros ? [= <-]. eexists. split; [reflexivity |].
    cbn [totalPredictions modelStatus averageAccuracy].
    split; [reflexivity |].
    split.
    { destruct (model (forecastModel w)); split; congruence. }
    split.
    { destruct (model (forecastModel w)); split; congruence. }
    intros none.
    rewrite (filter_none _ recs none).
    vm_compute. reflexivity.
  - eexists.
    unfold model_performance, try_catch, bind, find_sorted, get_model, ret.
    rewrite found.
    split; [reflexivity |].
    split; [intros ? [= <-]; reflexivity | discriminate].
Qed.

(** X13: a record whose accuracy is absent, zero or [NaN] has no part in
    [averageAccuracy]: adding it anywhere in the collection leaves the
    average as it was and raises [totalPredictions] by one. *)
Theorem model_performance_skips_falsy_accuracy (w1 w2 : World tf)
    (before after : list Demand.t) (p : Demand.t) :
  Demand_find w1 = Ok (before ++ p :: after) ->
  Demand_find w2 = Ok (before ++ after) ->
  js_truthy (Demand.accuracy p) = false ->
  exists with_p without_p,
    fst (model_performance tf w1) = Ok (Json with_p)
    /\ fst (model_performance tf w2) = Ok (Json without_p)
    /\ averageAccuracy with_p = averageAccuracy without_p
    /\ totalPredictions with_p = S (totalPredictions without_p).
Proof.
  intros found1 found2 falsy.
  rewrite (model_performance_found w1 _ found1).
  rewrite (model_performance_found w2 _ found2).
  do 2 eexists. split; [reflexivity |]. split; [reflexivity |].
  cbn [averageAccuracy totalPredictions].
  rewrite !filter_app. cbn [filter]. rewrite falsy.
  split; [reflexivity |].
  rewrite !length_app. cbn. lia.
Qed.

End MoreAccuracyProperties.

(** ** More on interleaved training calls *)

Section MoreInterleavingProperties.

Context (tf : TfLib).
Variable random : nat -> number.
Variable utcOffset : Z -> Z.

(** X14: no [trainModel] call can hang on the guard or on another call:
    in every state a pending call can be resumed, the resumption does not
    throw, and each resumption brings the call one [await] closer to its
    end, which it reaches after at most four. *)
Theorem trainModel_calls_progress (s : System tf) (i : nat) (c : call tf) :
  nth_error (calls s) i = Some c ->
  settled c = false ->
  (remaining c <= 4)%nat
  /\ exists c' w',
       step tf random utcOffset s
         {| world := w'; calls := set_nth i c' (calls s) |}
       /\ nth_error (set_nth i c' (calls s)) i = Some c'
       /\ (remaining c' < remaining c)%nat.
Proof.
  intros at_i pending.
  split; [destruct c; cbn; lia |].
  destruct (resume_advances tf c (world s) pending)
    as (c' & w' & ran & closer).
  exists c', w'.
  split.
  { exact (step_resume tf random utcOffset s i c c' w' at_i pending ran). }
  split; [| exact closer].
  clear ran pending closer. revert i at_i.
  generalize (calls s) as l.
  induction l as [| x l IH]; intros [| i] at_i; cbn in *; try discriminate;
    [reflexivity | apply IH; exact at_i].
Qed.

(** X15: in every interleaving from an idle server, once no call is
    between the guard and its end (all have settled or not started), the
    flag is down again: the job is idle and the next call passes the
    guard. *)
Theorem quiescent_server_is_idle (w0 : World tf) (n : nat) (s : System tf) :
  isTraining (forecastModel w0) = false ->
  reachable tf random utcOffset (init w0 n) s ->
  (forall c, In c (calls s) -> in_flight c = false) ->
  isTraining (forecastModel (world s)) = false
  /\ fst (resume tf NotStarted (world s)) = Ok AwaitingFind.
Proof.
  intros idle reach quiet.
  destruct (guard_invariant_reachable tf random utcOffset w0 n s idle reach)
    as (guard & _).
  assert (none : count in_flight (calls s) = 0%nat).
  { unfold count. rewrite (filter_none _ _ quiet). reflexivity. }
  rewrite none in guard.
  assert (free : isTraining (forecastModel (world s)) = false).
  { destruct (isTraining (forecastModel (world s))); [discriminate |].
    reflexivity. }
  split; [exact free |].
  unfold resume, bind, get_isTraining. rewrite free. reflexivity.
Qed.

End MoreInterleavingProperties.

(** ** The further properties on concrete inputs *)

Module MoreExamples.

Import Fixtures HandlerFixtures.

Lemma trainModel_restores_isTraining_witness :
  isTraining (forecastModel (boot tf_failing (repeat observed 50))) = false
  /\ fst (trainModel tf_failing
            (snd (trainModel tf_failing
                    (boot tf_failing (repeat observed 50))))) <>
     Ok already_training.
Proof.
  split; [reflexivity |].
  apply (proj2 (trainModel_restores_isTraining tf_failing
                  (boot tf_failing (repeat observed 50)))).
  reflexivity.
Defined.

Lemma trainModel_model_changes_only_with_fit_witness :
  fits (snd (trainModel tf_ok (trained tf_ok 50%nat (repeat observed 49)))) =
    fits (trained tf_ok 50%nat (repeat observed 49))
  /\ model (forecastModel
              (snd (trainModel tf_ok
                      (trained tf_ok 50%nat (repeat observed 49))))) =
     Some 50%nat.
Proof.
  split; [reflexivity |].
  apply (proj1 (proj2 (trainModel_model_changes_only_with_fit tf_ok
                         (trained tf_ok 50%nat (repeat observed 49))))).
  reflexivity.
Defined.

Lemma trainModel_success_iff_witness :
  isTraining (forecastModel (boot tf_ok (repeat observed 50))) = false
  /\ fst (trainModel tf_ok (boot tf_ok (repeat observed 50))) =
     Ok (success 50 "tfjs_linear").
Proof.
  split; [reflexivity |].
  apply (proj2 (trainModel_success_iff tf_ok
                  (boot tf_ok (repeat observed 50)) 50 "tfjs_linear")).
  split; [reflexivity |]. split; [reflexivity |].
  exists (repeat observed 50), (map feature_row (repeat observed 50)),
    (map target_row (repeat observed 50)), 50%nat.
  repeat split. cbn. lia.
Defined.

Lemma prepareTrainingData_shapes_witness :
  fst (prepareTrainingData tf_ok (boot tf_ok [observed; forecast_only])) =
    Ok (map feature_row [observed; forecast_only],
        map target_row [observed; forecast_only])
  /\ Forall (fun row => List.length row = 5%nat)
       (map feature_row [observed; forecast_only]).
Proof.
  split; [reflexivity |].
  apply (prepareTrainingData_shapes tf_ok
           (boot tf_ok [observed; forecast_only])
           (map feature_row [observed; forecast_only])
           (map target_row [observed; forecast_only]) eq_refl).
Defined.

Lemma predict_counts_witness :
  model (forecastModel (trained tf_ok 50%nat [])) = Some 50%nat
  /\ exists pts,
       predict tf_ok half gst "station" (Some t0) (Some (t0 + 3 * HOUR_MS))
         (trained tf_ok 50%nat []) =
       (Ok pts, after_draws (3 * List.length pts) (trained tf_ok 50%nat [])).
Proof.
  split; [reflexivity |].
  destruct (predict_counts tf_ok half gst (trained tf_ok 50%nat []) 50%nat
              "station" t0 (t0 + 3 * HOUR_MS) eq_refl) as (pts & ran & _).
  exists pts. exact ran.
Defined.

Lemma predict_split_witness :
  model (forecastModel (trained tf_ok 50%nat [])) = Some 50%nat
  /\ t0 + Z.of_nat 1 * HOUR_MS <= t0 + 3 * HOUR_MS
  /\ exists first rest w1 w2,
       predict tf_ok half gst "a" (Some t0) (Some (t0 + Z.of_nat 1 * HOUR_MS))
         (trained tf_ok 50%nat []) = (Ok first, w1)
       /\ predict tf_ok half gst "b" (Some (t0 + Z.of_nat 1 * HOUR_MS))
            (Some (t0 + 3 * HOUR_MS)) w1 = (Ok rest, w2)
       /\ predict tf_ok half gst "c" (Some t0) (Some (t0 + 3 * HOUR_MS))
            (trained tf_ok 50%nat []) = (Ok (first ++ rest), w2).
Proof.
  split; [reflexivity |].
  split; [unfold HOUR_MS; lia |].
  apply (predict_split tf_ok half gst (trained tf_ok 50%nat []) 50%nat
           "a" "b" "c" t0 (t0 + 3 * HOUR_MS) 1 eq_refl).
  unfold HOUR_MS. lia.
Defined.

Lemma api_train_model_answers_witness :
  isTraining (forecastModel (training tf_ok [])) = true
  /\ fst (api_train_model tf_ok (training tf_ok [])) =
     Ok (Json already_training).
Proof.
  split; [reflexivity |].
  destruct (api_train_model_answers tf_ok (training tf_ok []))
    as (r & ran & _ & _ & busy & _).
  rewrite ran. cbn [fst]. f_equal. apply busy. reflexivity.
Defined.

Lemma api_predict_checks_in_order_witness :
  complete (PredictBody.mk unknown_station midnight three) = true
  /\ findById unknown_station = Ok None
  /\ model (forecastModel (boot tf_ok [])) = None
  /\ api_predict tf_ok half gst findById parse
       (PredictBody.mk unknown_station midnight three) (boot tf_ok []) =
     (Ok (Status 404 "Station not found"), boot tf_ok []).
Proof.
  split; [reflexivity |]. split; [reflexivity |]. split; [reflexivity |].
  apply (proj1 (proj2 (proj2
           (api_predict_checks_in_order tf_ok half gst findById parse
              (PredictBody.mk unknown_station midnight three)
              (boot tf_ok []))))); reflexivity.
Defined.

Lemma api_predict_points_witness :
  complete (PredictBody.mk known_station first_day second_day) = true
  /\ findById known_station = Ok (Some muscat)
  /\ model (forecastModel (trained tf_ok 50%nat [])) = Some 50%nat
  /\ parse first_day = Some (t0 - 4 * HOUR_MS)
  /\ parse second_day = Some (t0 + 20 * HOUR_MS)
  /\ exists pts,
       fst (api_predict tf_ok half gst findById parse
              (PredictBody.mk known_station first_day second_day)
              (trained tf_ok 50%nat [])) = Ok (Json pts)
       /\ map ForecastPoint.timestamp pts =
          hours (t0 - 4 * HOUR_MS) (t0 + 20 * HOUR_MS)
       /\ List.length pts = 24%nat.
Proof.
  split; [reflexivity |]. split; [reflexivity |]. split; [reflexivity |].
  split; [reflexivity |]. split; [reflexivity |].
  destruct (proj1 (api_predict_points tf_ok half gst findById parse
                     (PredictBody.mk known_station first_day second_day)
                     (trained tf_ok 50%nat []) muscat 50%nat
                     eq_refl eq_refl eq_refl)
              (t0 - 4 * HOUR_MS) (t0 + 20 * HOUR_MS) eq_refl eq_refl)
    as (pts & ran & grid).
  exists pts. rewrite ran. split; [reflexivity |]. split; [exact grid |].
  rewrite <- (length_map ForecastPoint.timestamp), grid. reflexivity.
Defined.

Lemma predict_after_successful_training_witness :
  fst (api_train_model tf_ok (boot tf_ok (repeat observed 50))) =
    Ok (Json (success 50 "tfjs_linear"))
  /\ exists pts w',
       api_predict tf_ok half gst findById parse
         (PredictBody.mk known_station midnight three)
         (snd (api_train_model tf_ok (boot tf_ok (repeat observed 50)))) =
       (Ok (Json pts), w').
Proof.
  split; [reflexivity |].
  apply (predict_after_successful_training tf_ok half gst findById parse
           (PredictBody.mk known_station midnight three)
           (boot tf_ok (repeat observed 50)) muscat 50 "tfjs_linear");
    reflexivity.
Defined.

Lemma model_performance_always_answers_witness :
  Demand_find (boot tf_ok []) = Ok []
  /\ exists body,
       fst (model_performance tf_ok (boot tf_ok [])) = Ok (Json body)
       /\ averageAccuracy body = of_Z 0
       /\ totalPredictions body = 0%nat.
Proof.
  split; [reflexivity |].
  destruct (model_performance_always_answers tf_ok (boot tf_ok []))
    as (r & ran & _ & found).
  destruct (found [] eq_refl) as (body & -> & total & _ & _ & zero).
  exists body. rewrite ran. split; [reflexivity |].
  split; [apply zero; intros p [] | exact total].
Defined.

Lemma model_performance_skips_falsy_accuracy_witness :
  js_truthy (Demand.accuracy (scored (Some (of_Z 0)))) = false
  /\ exists with_p without_p,
       fst (model_performance tf_ok
              (boot tf_ok [scored (Some (of_Z 90)); scored (Some (of_Z 0));
                           scored (Some (of_Z 80))])) = Ok (Json with_p)
       /\ fst (model_performance tf_ok
                 (boot tf_ok [scored (Some (of_Z 90));
                              scored (Some (of_Z 80))])) = Ok (Json without_p)
       /\ averageAccuracy with_p = averageAccuracy without_p
       /\ totalPredictions with_p = S (totalPredictions without_p).
Proof.
  split; [reflexivity |].
  apply (model_performance_skips_falsy_accuracy tf_ok
           (boot tf_ok [scored (Some (of_Z 90)); scored (Some (of_Z 0));
                        scored (Some (of_Z 80))])
           (boot tf_ok [scored (Some (of_Z 90)); scored (Some (of_Z 80))])
           [scored (Some (of_Z 90))] [scored (Some (of_Z 80))]
           (scored (Some (of_Z 0)))); reflexivity.
Defined.

Lemma trainModel_calls_progress_witness :
  nth_error (calls overlapped) 0 = Some AwaitingFind
  /\ exists c' w',
       step tf_ok half gst overlapped
         {| world := w'; calls := set_nth 0 c' (calls overlapped) |}
       /\ (remaining c' < 3)%nat.
Proof.
  split; [reflexivity |].
  destruct (trainModel_calls_progress tf_ok half gst overlapped 0
              AwaitingFind eq_refl eq_refl)
    as (_ & c' & w' & next & _ & closer).
  exists c', w'. split; [exact next | exact closer].
Defined.

Lemma quiescent_server_is_idle_witness :
  isTraining (forecastModel (boot tf_ok (repeat observed 50))) = false
  /\ reachable tf_ok half gst (init (boot tf_ok (repeat observed 50)) 1)
       after_training
  /\ isTraining (forecastModel (world after_training)) = false.
Proof.
  assert (reach : reachable tf_ok half gst
                    (init (boot tf_ok (repeat observed 50)) 1)
                    after_training).
  { eapply reachable_step.
    - eapply reachable_step.
      + eapply reachable_step.
        * eapply reachable_step; [apply reachable_init |].
          exact (step_resume tf_ok half gst
                   (init (boot tf_ok (repeat observed 50)) 1)
                   0 NotStarted AwaitingFind
                   (snd (resume tf_ok NotStarted
                           (boot tf_ok (repeat observed 50))))
                   eq_refl eq_refl eq_refl).
        * exact (step_resume tf_ok half gst
                   {| world := snd (resume tf_ok NotStarted
                                      (boot tf_ok (repeat observed 50)));
                      calls := [AwaitingFind] |}
                   0 AwaitingFind
                   (@AwaitingData tf_ok
                      (Ok (map feature_row (repeat observed 50),
                           map target_row (repeat observed 50))))
                   (snd (resume tf_ok NotStarted
                           (boot tf_ok (repeat observed 50))))
                   eq_refl eq_refl eq_refl).
      + exact (step_resume tf_ok half gst
                 {| world := snd (resume tf_ok NotStarted
                                    (boot tf_ok (repeat observed 50)));
                    calls := [@AwaitingData tf_ok
                                (Ok (map feature_row (repeat observed 50),
                                     map target_row (repeat observed 50)))] |}
                 0 _ (@AwaitingFit tf_ok 50
                        (map feature_row (repeat observed 50))
                        (map target_row (repeat observed 50)))
                 (world during_fit) eq_refl eq_refl eq_refl).
    - exact (step_resume tf_ok half gst during_fit
               0 _ (Settled (Ok (success 50 "tfjs_linear")))
               (world after_training) eq_refl eq_refl eq_refl). }
  split; [reflexivity |]. split; [exact reach |].
  apply (quiescent_server_is_idle tf_ok half gst
           (boot tf_ok (repeat observed 50)) 1 after_training eq_refl reach).
  intros c [<- | []]. reflexivity.
Defined.

End MoreExamples.

(** ** The seeding script *)

Section PourProperties.

Context {A : Type}.

(** Batching loses nothing and keeps the order. *)
Lemma pour_concat (chunks : list (list A)) :
  forall buffer,
    concat (fst (pour chunks buffer)) ++ snd (pour chunks buffer) =
    buffer ++ concat chunks.
Proof.
  induction chunks as [| chunk later IH]; intros buffer; cbn [pour].
  - cbn. rewrite app_nil_r. reflexivity.
  - destruct (BATCH <=? List.length (buffer ++ chunk))%nat.
    + specialize (IH []). destruct (pour later []) as [emitted kept].
      cbn [fst snd concat] in *. rewrite <- !app_assoc, IH. reflexivity.
    + rewrite IH. cbn [concat]. rewrite app_assoc. reflexivity.
Qed.

(** With chunks of one size that divides [BATCH], every batch emitted
    holds exactly [BATCH] elements and fewer are left over. *)
Lemma pour_sizes (m q : nat) (chunks : list (list A)) :
  BATCH = (q * m)%nat ->
  Forall (fun chunk => List.length chunk = m) chunks ->
  forall buffer a,
    List.length buffer = (a * m)%nat ->
    (List.length buffer < BATCH)%nat ->
    Forall (fun batch => List.length batch = BATCH) (fst (pour chunks buffer))
    /\ (List.length (snd (pour chunks buffer)) < BATCH)%nat.
Proof.
  intros divides sized.
  induction sized as [| chunk later size _ IH]; intros buffer a multiple room;
    cbn [pour].
  - split; [constructor | exact room].
  - assert (filled : List.length (buffer ++ chunk) = (S a * m)%nat).
    { rewrite length_app, multiple, size. cbn. lia. }
    destruct (Nat.leb_spec BATCH (List.length (buffer ++ chunk)))
      as [full | more].
    + assert (exact : List.length (buffer ++ chunk) = BATCH).
      { rewrite filled in *. rewrite multiple, divides in room.
        rewrite divides in full |- *.
        assert (a < q)%nat by nia. nia. }
      assert (positive : (0 < BATCH)%nat) by (unfold BATCH; lia).
      destruct (IH [] 0%nat eq_refl positive) as [batches_ok left_ok].
      destruct (pour later []) as [emitted kept]. cbn [fst snd] in *.
      split; [constructor; assumption | exact left_ok].
    + apply (IH (buffer ++ chunk) (S a) filled more).
Qed.

End PourProperties.

Section SeedProperties.

Context (libs : SeedLibs).

Lemma after_fakes_more (a b : nat) (w : Seeding) :
  after_fakes b (after_fakes a w) = after_fakes (a + b) w.
Proof. unfold after_fakes; cbn. rewrite Nat.add_assoc. reflexivity. Qed.

(** One pass of the inner loop draws four numbers and builds the record
    of the closed form. *)
Lemma station_record_run (date : Z) (station : StationDoc.t) (w : Seeding) :
  station_record libs date (day (local_offset libs) date)
    (hour (local_offset libs) date) station w =
  (station_record_at libs date station (faked w), after_fakes 4 w).
Proof.
  destruct w as [stations demands k log].
  unfold station_record, getRandomTempHumidity, station_record_at, sbind,
    sret, faker_number_float, after_fakes.
  cbn [faked Station_docs Demand_docs batches].
  rewrite !Nat.add_1_r.
  replace (k + 2)%nat with (S (S k)) by lia.
  replace (k + 3)%nat with (S (S (S k))) by lia.
  replace (k + 4)%nat with (S (S (S (S k)))) by lia.
  destruct (existsb (Z.eqb (moment_month libs date)) [5; 6; 7; 8]);
    reflexivity.
Qed.

Lemma for_stations_run (date : Z) (stationDocs : list StationDoc.t) :
  forall (hourlyData : list Demand.t) (w : Seeding),
    for_stations libs date (day (local_offset libs) date)
      (hour (local_offset libs) date) stationDocs hourlyData w =
    (hourlyData ++ hour_records libs date stationDocs (faked w),
     after_fakes (4 * List.length stationDocs) w).
Proof.
  induction stationDocs as [| station rest IH]; intros hourlyData w.
  - cbn. rewrite app_nil_r. destruct w; unfold after_fakes; cbn.
    rewrite Nat.add_0_r. reflexivity.
  - cbn [for_stations]. unfold sbind. rewrite station_record_run, IH.
    rewrite after_fakes_more. cbn [hour_records].
    rewrite <- app_assoc. cbn [app after_fakes faked].
    f_equal. f_equal. cbn [List.length]. lia.
Qed.

Lemma length_hour_records (date : Z) (stationDocs : list StationDoc.t) :
  forall k,
    List.length (hour_records libs date stationDocs k) =
    List.length stationDocs.
Proof.
  induction stationDocs as [| station rest IH]; intros k; cbn;
    [reflexivity | rewrite IH; reflexivity].
Qed.

Lemma length_all_records (stationDocs : list StationDoc.t) (n : nat) :
  forall date k,
    List.length (concat (all_records libs stationDocs date k n)) =
    (List.length stationDocs * n)%nat.
Proof.
  induction n as [| n IH]; intros date k; cbn [all_records concat].
  - cbn. lia.
  - rewrite length_app, length_hour_records, IH. lia.
Qed.

Lemma all_records_sized (stationDocs : list StationDoc.t) (n : nat) :
  forall date k,
    Forall (fun chunk => List.length chunk = List.length stationDocs)
      (all_records libs stationDocs date k n).
Proof.
  induction n as [| n IH]; intros date k; cbn [all_records]; constructor;
    [apply length_hour_records | apply IH].
Qed.

(** The loop over [n] hours pours the records of these hours into the
    buffer and inserts the batches emitted. *)
Lemma seed_loop_run (stationDocs : list StationDoc.t) (n : nat) :
  forall (e date : Z) (hourlyData : list Demand.t) (w : Seeding),
    hour_count date e = n ->
    seed_loop libs stationDocs e date hourlyData w =
    (snd (pour (all_records libs stationDocs date (faked w) n) hourlyData),
     {| Station_docs := Station_docs w;
        Demand_docs :=
          Demand_docs w
            ++ concat (fst (pour (all_records libs stationDocs date
                                    (faked w) n) hourlyData));
        faked := faked w + 4 * List.length stationDocs * n;
        batches :=
          batches w
            ++ fst (pour (all_records libs stationDocs date (faked w) n)
                      hourlyData) |}).
Proof.
  induction n as [| n IH]; intros e date hourlyData w count;
    simp seed_loop; destruct (Z_lt_dec date e) as [more | done];
    cbn [seed_loop_clause_1 seed_loop_unfold_clause_1].
  - rewrite hour_count_more in count by assumption. discriminate.
  - cbn [all_records pour fst snd concat]. rewrite !app_nil_r.
    destruct w; cbn. f_equal. f_equal. lia.
  - rewrite hour_count_more in count by assumption.
    injection count as count.
    rewrite for_stations_run.
    cbn [seed_loop_clause_1_clause_1 seed_loop_unfold_clause_1_clause_1].
    cbn [all_records pour].
    destruct (BATCH <=? List.length
                (hourlyData
                   ++ hour_records libs date stationDocs (faked w)))%nat;
      cbn [seed_loop_clause_1_clause_1_clause_1
           seed_loop_unfold_clause_1_clause_1_clause_1].
    + rewrite (IH e (date + HOUR_MS) _ _ count).
      cbn [Demand_insertMany snd faked after_fakes Station_docs Demand_docs
           batches].
      destruct (pour (all_records libs stationDocs (date + HOUR_MS)
                        (faked w + 4 * List.length stationDocs) n) [])
        as [emitted kept].
      cbn [fst snd concat]. rewrite <- !app_assoc. cbn [app].
      f_equal. f_equal. lia.
    + rewrite (IH e (date + HOUR_MS) _ _ count).
      cbn [faked after_fakes Station_docs Demand_docs batches].
      f_equal. f_equal. lia.
  - rewrite hour_count_done in count by lia. discriminate.
Qed.

Lemma dates_hour_records (date : Z) (stationDocs : list StationDoc.t) :
  forall k,
    map Demand.date (hour_records libs date stationDocs k) =
    repeat date (List.length stationDocs).
Proof.
  induction stationDocs as [| station rest IH]; intros k; cbn;
    [reflexivity | rewrite IH; reflexivity].
Qed.

Lemma dates_all_records (stationDocs : list StationDoc.t) (n : nat) :
  forall date k,
    map Demand.date (concat (all_records libs stationDocs date k n)) =
    flat_map (fun t => repeat t (List.length stationDocs))
      (map (fun i => date + Z.of_nat i * HOUR_MS) (seq 0 n)).
Proof.
  induction n as [| n IH]; intros date k; [reflexivity |].
  cbn [all_records concat seq map flat_map].
  rewrite map_app, IH, dates_hour_records. f_equal.
  - f_equal. lia.
  - rewrite <- seq_shift, map_map. f_equal. apply map_ext. intros i.
    unfold HOUR_MS. lia.
Qed.

(** The whole script, from any state of the database. *)
Lemma seed_run (w : Seeding) (s e : Z) :
  moment_parse libs (Str "2024-01-01") = Some s ->
  moment_parse libs (Str "2025-01-01") = Some e ->
  seed libs w =
  (tt,
   {| Station_docs := with_ids libs STATION_LIST;
      Demand_docs :=
        concat (all_records libs (with_ids libs STATION_LIST) s (faked w)
                  (hour_count s e));
      faked := faked w + 20 * hour_count s e;
      batches :=
        batches w
          ++ fst (pour (all_records libs (with_ids libs STATION_LIST) s
                          (faked w) (hour_count s e)) [])
          ++ match snd (pour (all_records libs (with_ids libs STATION_LIST) s
                                (faked w) (hour_count s e)) []) with
             | [] => []
             | kept => [kept]
             end |}).
Proof.
  intros start_ok end_ok.
  unfold seed, sbind, Station_deleteMany, Demand_deleteMany,
    Station_insertMany.
  rewrite start_ok, end_ok.
  cbn [Station_docs Demand_docs faked batches app].
  rewrite (seed_loop_run (with_ids libs STATION_LIST) (hour_count s e)
             e s [] _ eq_refl).
  cbn [Station_docs Demand_docs faked batches app].
  pose proof (pour_concat
                (all_records libs (with_ids libs STATION_LIST) s (faked w)
                   (hour_count s e)) []) as kept_all.
  destruct (pour (all_records libs (with_ids libs STATION_LIST) s (faked w)
                    (hour_count s e)) []) as [emitted kept].
  cbn [fst snd app] in *.
  destruct kept as [| r kept]; cbn [List.length Nat.eqb negb].
  - rewrite app_nil_r in *. unfold sret. rewrite kept_all. reflexivity.
  - unfold Demand_insertMany.
    cbn [Station_docs Demand_docs faked batches].
    rewrite kept_all, <- app_assoc. reflexivity.
Qed.

(** X16: when both dates parse, whatever the collections held before,
    [seed] leaves the five stations of [STATION_LIST] and, for every hour
    from 2024-01-01 up to but excluding 2025-01-01, one record per
    station, in the order of the hours and of the stations: five records
    per hour and four [faker] calls per record.  Batching loses and
    repeats nothing. *)
Theorem seed_inserts_every_record (w : Seeding) (s e : Z) :
  moment_parse libs (Str "2024-01-01") = Some s ->
  moment_parse libs (Str "2025-01-01") = Some e ->
  Station_docs (snd (seed libs w)) = with_ids libs STATION_LIST
  /\ Demand_docs (snd (seed libs w)) =
     concat (all_records libs (with_ids libs STATION_LIST) s (faked w)
               (hour_count s e))
  /\ List.length (Demand_docs (snd (seed libs w))) = (5 * hour_count s e)%nat
  /\ map Demand.date (Demand_docs (snd (seed libs w))) =
     flat_map (fun t => repeat t 5) (hours s e)
  /\ faked (snd (seed libs w)) = (faked w + 20 * hour_count s e)%nat.
Proof.
  intros start_ok end_ok.
  rewrite (seed_run w s e start_ok end_ok).
  cbn [snd Station_docs Demand_docs faked].
  split; [reflexivity |]. split; [reflexivity |].
  split; [rewrite length_all_records; reflexivity |].
  split; [| reflexivity].
  rewrite dates_all_records. reflexivity.
Qed.

(** X17: the records reach the collection in batches of exactly [BATCH]
    (1000) records, followed, when records are left over, by one last
    batch of fewer; no call of [Demand.insertMany] is made with an empty
    array, and the batches put end to end are the collection. *)
Theorem seed_batches (w : Seeding) (s e : Z) :
  moment_parse libs (Str "2024-01-01") = Some s ->
  moment_parse libs (Str "2025-01-01") = Some e ->
  exists new,
    batches (snd (seed libs w)) = batches w ++ new
    /\ concat new = Demand_docs (snd (seed libs w))
    /\ Forall (fun batch => (1 <= List.length batch <= BATCH)%nat) new
    /\ (forall i batch,
          nth_error new i = Some batch ->
          (S i < List.length new)%nat ->
          List.length batch = BATCH).
Proof.
  intros start_ok end_ok.
  rewrite (seed_run w s e start_ok end_ok).
  cbn [snd batches Demand_docs].
  pose proof (pour_concat
                (all_records libs (with_ids libs STATION_LIST) s (faked w)
                   (hour_count s e)) []) as kept_all.
  destruct (pour_sizes 5 200
              (all_records libs (with_ids libs STATION_LIST) s (faked w)
                 (hour_count s e))
              eq_refl
              (all_records_sized (with_ids libs STATION_LIST)
                 (hour_count s e) s (faked w))
              [] 0 eq_refl)
    as [full short]; [unfold BATCH; cbn; lia |].
  destruct (pour (all_records libs (with_ids libs STATION_LIST) s (faked w)
                    (hour_count s e)) []) as [emitted kept].
  cbn [fst snd app] in *.
  eexists. split; [reflexivity |].
  assert (whole : forall b, In b emitted ->
                            (1 <= List.length b <= BATCH)%nat).
  { intros b inside. rewrite Forall_forall in full.
    rewrite (full b inside). unfold BATCH. lia. }
  destruct kept as [| r kept].
  - rewrite !app_nil_r in *.
    split; [exact kept_all |].
    split; [apply Forall_forall; exact whole |].
    intros i batch at_i _. rewrite Forall_forall in full.
    apply full. eapply nth_error_In. exact at_i.
  - split; [rewrite concat_app; cbn [concat]; rewrite app_nil_r;
            exact kept_all |].
    split.
    + apply Forall_app. split; [apply Forall_forall; exact whole |].
      constructor; [| constructor]. cbn [List.length] in *. lia.
    + intros i batch at_i before_last.
      rewrite length_app in before_last. cbn [List.length] in before_last.
      rewrite nth_error_app1 in at_i by lia.
      rewrite Forall_forall in full.
      apply full. eapply nth_error_In. exact at_i.
Qed.

Lemma in_hour_records (date : Z) (stationDocs : list StationDoc.t)
    (r : Demand.t) :
  forall k,
    In r (hour_records libs date stationDocs k) ->
    exists station k',
      In station stationDocs /\ r = station_record_at libs date station k'.
Proof.
  induction stationDocs as [| station rest IH]; intros k; cbn [hour_records];
    [intros [] |].
  intros [<- | later].
  - exists station, k. split; [left; reflexivity | reflexivity].
  - destruct (IH _ later) as (station' & k' & inside & is_record).
    exists station', k'. split; [right; exact inside | exact is_record].
Qed.

Lemma in_all_records (stationDocs : list StationDoc.t) (r : Demand.t)
    (n : nat) :
  forall date k,
    In r (concat (all_records libs stationDocs date k n)) ->
    exists i station k',
      (i < n)%nat
      /\ In station stationDocs
      /\ r = station_record_at libs (date + Z.of_nat i * HOUR_MS) station k'.
Proof.
  induction n as [| n IH]; intros date k; cbn [all_records concat];
    [intros [] |].
  rewrite in_app_iff. intros [now | later].
  - destruct (in_hour_records _ _ _ _ now) as (station & k' & inside & ->).
    exists 0%nat, station, k'.
    split; [lia |]. split; [exact inside |]. f_equal. lia.
  - destruct (IH _ _ later) as (i & station & k' & small & inside & ->).
    exists (S i), station, k'.
    split; [lia |]. split; [exact inside |]. f_equal.
    unfold HOUR_MS. lia.
Qed.

(** [Math.max(30, x)] is at least 30, or [NaN]. *)
Lemma Math_max_30 (x : number) :
  Math_max (of_Z 30) x = S754_nan
  \/ SFleb (of_Z 30) (Math_max (of_Z 30) x) = true.
Proof.
  unfold Math_max.
  destruct (SFcompare (of_Z 30) x) as [[| |] |] eqn:order.
  - right. destruct x; reflexivity.
  - right. unfold SFleb. rewrite order. reflexivity.
  - right. reflexivity.
  - left. reflexivity.
Qed.

(** X18: every record that [seed] stores lies on the hourly grid of the
    year and belongs to one of the five stations just inserted; its
    [dayOfWeek], [hour] and [time] are those of its [date]; its
    [actualDemand] is present and at least 30 (or [NaN], if [faker]
    returns one), its [forecastedDemand] is present, and its [accuracy] is
    [100 - |actualDemand - forecastedDemand|]. *)
Theorem seeded_records_well_formed (w : Seeding) (s e : Z) (r : Demand.t) :
  moment_parse libs (Str "2024-01-01") = Some s ->
  moment_parse libs (Str "2025-01-01") = Some e ->
  In r (Demand_docs (snd (seed libs w))) ->
  In (Demand.date r) (hours s e)
  /\ In (Demand.station r)
       (map StationDoc._id (Station_docs (snd (seed libs w))))
  /\ Demand.dayOfWeek r =
     Some (of_Z (day (local_offset libs) (Demand.date r)))
  /\ Demand.hour r = Some (of_Z (hour (local_offset libs) (Demand.date r)))
  /\ Demand.time r = moment_format libs "HH:mm" (Some (Demand.date r))
  /\ exists actual forecast,
       Demand.actualDemand r = Some actual
       /\ Demand.forecastedDemand r = Some forecast
       /\ (actual = S754_nan \/ SFleb (of_Z 30) actual = true)
       /\ Demand.accuracy r =
          Some (sub (of_Z 100) (Math_abs (sub actual forecast))).
Proof.
  intros start_ok end_ok.
  rewrite (seed_run w s e start_ok end_ok).
  cbn [snd Demand_docs Station_docs].
  intros stored.
  destruct (in_all_records _ _ _ _ _ stored)
    as (i & station & k & small & inside & ->).
  unfold station_record_at.
  cbn [Demand.date Demand.station Demand.dayOfWeek Demand.hour Demand.time
       Demand.actualDemand Demand.forecastedDemand Demand.accuracy].
  split.
  { unfold hours. apply in_map_iff. exists i.
    split; [reflexivity | apply in_seq; lia]. }
  split; [apply in_map; exact inside |].
  repeat (split; [reflexivity |]).
  do 2 eexists.
  split; [reflexivity |]. split; [reflexivity |].
  split; [apply Math_max_30 | reflexivity].
Qed.

Lemma seeded_records_usable (stationDocs : list StationDoc.t) (n : nat)
    (date : Z) (k : nat) :
  Forall (fun r => usable r = true)
    (concat (all_records libs stationDocs date k n)).
Proof.
  apply Forall_forall. intros r stored.
  destruct (in_all_records _ _ _ _ _ stored) as (i & station & k' & _ & _ & ->).
  reflexivity.
Qed.

(** X19: once [seed] has filled the collection with ten hours or more,
    a [trainModel] call on an idle job whose query returns the collection
    (in any order) has enough data: when its tensors can be built and
    [fit] completes it resolves to [success] with [dataPoints] five times
    the number of hours seeded.  Every seeded record has an
    [actualDemand], so all of them are usable. *)
Theorem training_after_seeding (tf : TfLib) (w : World tf) (sw : Seeding)
    (s e : Z) (recs : list Demand.t) (xs ys : Tensor tf) (fitted : Model tf) :
  moment_parse libs (Str "2024-01-01") = Some s ->
  moment_parse libs (Str "2025-01-01") = Some e ->
  (10 <= hour_count s e)%nat ->
  Permutation recs (Demand_docs (snd (seed libs sw))) ->
  isTraining (forecastModel w) = false ->
  Demand_find w = Ok recs ->
  tensor2d tf (map feature_row recs) = Ok xs ->
  tensor2d tf (map target_row recs) = Ok ys ->
  fit tf (sequential tf) xs ys = Fitted fitted ->
  fst (trainModel tf w) = Ok (success (5 * hour_count s e) "tfjs_linear")
  /\ Forall (fun r => usable r = true) recs.
Proof.
  intros start_ok end_ok ten sorted idle found built_xs built_ys done.
  rewrite (seed_run sw s e start_ok end_ok) in sorted.
  cbn [snd Demand_docs] in sorted.
  assert (size : List.length recs = (5 * hour_count s e)%nat).
  { rewrite (Permutation_length sorted), length_all_records. reflexivity. }
  split.
  - destruct (trainModel_success tf w recs xs ys fitted idle found)
      as (w' & ran & _); try assumption; [lia |].
    rewrite ran, size. reflexivity.
  - apply (Permutation_Forall (Permutation_sym sorted)).
    apply seeded_records_usable.
Qed.

End SeedProperties.


(** ** The seeding properties on concrete inputs *)

Module SeedExamples.

Import Fixtures SeedFixtures.

Lemma seed_inserts_every_record_witness :
  moment_parse oman (Str "2024-01-01") = Some new_year
  /\ moment_parse oman (Str "2025-01-01") = Some next_year
  /\ Z.of_nat (List.length (Demand_docs (snd (seed oman stale)))) = 43920
  /\ List.length (Station_docs (snd (seed oman stale))) = 5%nat.
Proof.
  split; [reflexivity |]. split; [reflexivity |].
  destruct (seed_inserts_every_record oman stale new_year next_year
              eq_refl eq_refl) as (stations & _ & size & _).
  split.
  - rewrite size, Nat2Z.inj_mul. unfold hour_count.
    rewrite Z2Nat.id by (vm_compute; discriminate).
    vm_compute. reflexivity.
  - rewrite stations. reflexivity.
Defined.

Lemma seed_batches_witness :
  moment_parse oman (Str "2024-01-01") = Some new_year
  /\ moment_parse oman (Str "2025-01-01") = Some next_year
  /\ exists new,
       batches (snd (seed oman stale)) = batches stale ++ new
       /\ Forall (fun batch => (1 <= List.length batch <= BATCH)%nat) new.
Proof.
  split; [reflexivity |]. split; [reflexivity |].
  destruct (seed_batches oman stale new_year next_year eq_refl eq_refl)
    as (new & logged & _ & sizes & _).
  exists new. split; [exact logged | exact sizes].
Defined.

Lemma seeded_records_well_formed_witness :
  moment_parse (short_year 24) (Str "2024-01-01") = Some new_year
  /\ moment_parse (short_year 24) (Str "2025-01-01") =
     Some (new_year + 24 * HOUR_MS)
  /\ In (station_record_at (short_year 24) new_year
           (StationDoc.mk "00" "Muscat Central" "Muscat") 0)
       (Demand_docs (snd (seed (short_year 24) stale)))
  /\ In new_year (hours new_year (new_year + 24 * HOUR_MS)).
Proof.
  split; [reflexivity |]. split; [reflexivity |].
  assert (stored : In (station_record_at (short_year 24) new_year
                         (StationDoc.mk "00" "Muscat Central" "Muscat") 0)
                     (Demand_docs (snd (seed (short_year 24) stale)))).
  { rewrite (seed_run (short_year 24) stale new_year
               (new_year + 24 * HOUR_MS) eq_refl eq_refl).
    cbn [snd Demand_docs].
    replace (hour_count new_year (new_year + 24 * HOUR_MS)) with 24%nat
      by (vm_compute; reflexivity).
    cbn [all_records concat]. apply in_or_app. left.
    left. reflexivity. }
  split; [exact stored |].
  destruct (seeded_records_well_formed (short_year 24) stale new_year
              (new_year + 24 * HOUR_MS) _ eq_refl eq_refl stored)
    as (on_grid & _).
  exact on_grid.
Defined.

Lemma training_after_seeding_witness :
  (10 <= hour_count new_year next_year)%nat
  /\ fst (trainModel tf_ok
            (boot tf_ok (Demand_docs (snd (seed oman stale))))) =
     Ok (success (5 * hour_count new_year next_year) "tfjs_linear").
Proof.
  assert (ten : (10 <= hour_count new_year next_year)%nat).
  { apply Nat2Z.inj_le. unfold hour_count.
    rewrite Z2Nat.id; vm_compute; discriminate. }
  split; [exact ten |].
  apply (training_after_seeding oman tf_ok
           (boot tf_ok (Demand_docs (snd (seed oman stale)))) stale
           new_year next_year (Demand_docs (snd (seed oman stale)))
           (map feature_row (Demand_docs (snd (seed oman stale))))
           (map target_row (Demand_docs (snd (seed oman stale))))
           50%nat eq_refl eq_refl ten (Permutation_refl _)
           eq_refl eq_refl eq_refl eq_refl eq_refl).
Defined.

End SeedExamples.
